(** * HAC-NDNQI-DATA-PREP: temporal aggregation and rolling SPC pipeline

    A shallow embedding of [helper_functions.py] ([AddDateColumns],
    [sort_by_date], [aggregate_dataframe], [rolling_spc_agg]) and of the
    driver script [large_hospital_dataset_cleaning.py], together with the
    properties of the pipeline that the specification states.

    Modelling conventions.
    - A pandas [DataFrame] is a mutable Python object.  Frames live in a
      store and the Python functions are written in a store-and-exception
      monad, statement by statement, so that in-place column assignment
      ([df[c] = ...], [df.loc[mask, cols] = ...]) and rebinding to a fresh
      frame ([df = df.copy()], [df = df.sort_values(...)]) are told apart.
    - float64 values are the rationals extended with [+inf], [-inf] and
      [NaN]: rounding and overflow are not modelled, the special values
      are.  Statements about which results are finite are made for values
      of moderate magnitude only (see [safe_magnitude]).
    - int64 sums wrap around modulo 2^64; under [astype(int)] a Python
      [int] that does not fit int64 raises [OverflowError].
    - The pandas operations the code calls are modelled by the functions of
      the section "pandas primitives"; what is left out of a primitive is
      reported by the exception [Unmodelled], never silently accepted. *)

From Stdlib Require Import List String Ascii ZArith QArith Lia Bool Arith.
From Stdlib Require Import Permutation Sorted DecimalString DecimalZ.
Import ListNotations.

Local Open Scope string_scope.
Local Open Scope Z_scope.
Local Open Scope list_scope.

(** ** Exceptions and results *)

Inductive exn : Type :=
| KeyError (key : string)
| ValueError (msg : string)
| TypeError (msg : string)
| OverflowError (msg : string)
| DataError (msg : string)
| AttributeError (msg : string)
| Unmodelled (what : string).

Definition result (A : Type) : Type := (exn + A)%type.

Definition rbind {A B : Type} (x : result A) (k : A -> result B) : result B :=
  match x with
  | inl e => inl e
  | inr a => k a
  end.

Fixpoint mapM {A B : Type} (f : A -> result B) (l : list A) : result (list B) :=
  match l with
  | [] => inr []
  | a :: l' =>
      rbind (f a) (fun b => rbind (mapM f l') (fun bs => inr (b :: bs)))
  end.

(** ** Strings: Python [str], [int], [split], [zfill], [re.sub] *)

Definition is_digit (c : ascii) : bool :=
  let n := nat_of_ascii c in (48 <=? n)%nat && (n <=? 57)%nat.

Definition is_space (c : ascii) : bool :=
  let n := nat_of_ascii c in
  ((9 <=? n)%nat && (n <=? 13)%nat) || (n =? 32)%nat || ((28 <=? n)%nat && (n <=? 31)%nat).

Fixpoint all_digits (s : string) : bool :=
  match s with
  | EmptyString => true
  | String c s' => is_digit c && all_digits s'
  end.

(** [str(z)] for a Python int. *)
Definition str_of_Z (z : Z) : string := NilZero.string_of_int (Z.to_int z).

(** [lstrip] / [strip] of ASCII whitespace. *)
Fixpoint lstrip (s : string) : string :=
  match s with
  | String c s' => if is_space c then lstrip s' else s
  | EmptyString => EmptyString
  end.

Fixpoint rstrip (s : string) : string :=
  match s with
  | EmptyString => EmptyString
  | String c s' =>
      match rstrip s' with
      | EmptyString => if is_space c then EmptyString else String c EmptyString
      | t => String c t
      end
  end.

Definition strip (s : string) : string := rstrip (lstrip s).

(** Digits with single underscores between them ([1_000]), underscores
    removed; [None] when an underscore is leading, trailing or doubled. *)
Fixpoint drop_underscores (prev_digit : bool) (s : string) : option string :=
  match s with
  | EmptyString => if prev_digit then Some EmptyString else None
  | String c s' =>
      if Ascii.eqb c "_" then
        if prev_digit then drop_underscores false s' else None
      else
        match drop_underscores true s' with
        | Some t => Some (String c t)
        | None => None
        end
  end.

Definition parse_digits (s : string) : option Z :=
  match drop_underscores false s with
  | Some t =>
      if all_digits t then
        match NilZero.uint_of_string t with
        | Some u => Some (Z.of_uint u)
        | None => None
        end
      else None
  | None => None
  end.

(** [int(s)] on a Python [str], base 10: surrounding whitespace, an optional
    sign, ASCII digits with optional single underscores.  Non-ASCII digits
    are not modelled.  [None] is Python's [ValueError]. *)
Definition py_int (s : string) : option Z :=
  match strip s with
  | String "+" t => parse_digits t
  | String "-" t => option_map Z.opp (parse_digits t)
  | t => parse_digits t
  end.

(** [s.split("-")]. *)
Fixpoint split_dash (s : string) : list string :=
  match s with
  | EmptyString => [EmptyString]
  | String c s' =>
      if Ascii.eqb c "-" then EmptyString :: split_dash s'
      else match split_dash s' with
           | [] => [String c EmptyString]
           | p :: ps => String c p :: ps
           end
  end.

(** [s.zfill(width)]: left padding with ['0'] (the labels this is used on
    carry no sign). *)
Definition zfill (width : nat) (s : string) : string :=
  (String.concat "" (repeat "0" (width - String.length s)%nat) ++ s)%string.

(** [re.sub(r"-(\d+)", r"-Q\1", s)]: every ["-"] that is followed by a digit
    gets a ["Q"] after it.  A match swallows the whole run of digits, which
    holds no ["-"], so the next match can only start after the run: scanning
    character by character gives the same string. *)
Fixpoint sub_dash_digits (s : string) : string :=
  match s with
  | EmptyString => EmptyString
  | String c s' =>
      if Ascii.eqb c "-" then
        match s' with
        | String d _ =>
            if is_digit d then String c (String "Q" (sub_dash_digits s'))
            else String c (sub_dash_digits s')
        | EmptyString => String c EmptyString
        end
      else String c (sub_dash_digits s')
  end.

(** ** float64, idealised *)

Inductive f64 : Type :=
| Fin (q : Q)
| PInf
| NInf
| NaN.

Definition qsign (q : Q) : comparison := (Qnum q ?= 0)%Z.

Definition is_finite (x : f64) : bool :=
  match x with Fin _ => true | _ => false end.

Definition is_nan (x : f64) : bool :=
  match x with NaN => true | _ => false end.

Definition fneg (x : f64) : f64 :=
  match x with
  | Fin q => Fin (Qred (- q))
  | PInf => NInf
  | NInf => PInf
  | NaN => NaN
  end.

Definition fadd (x y : f64) : f64 :=
  match x, y with
  | NaN, _ | _, NaN => NaN
  | Fin a, Fin b => Fin (Qred (a + b))
  | PInf, NInf | NInf, PInf => NaN
  | PInf, _ | _, PInf => PInf
  | NInf, _ | _, NInf => NInf
  end.

Definition fsub (x y : f64) : f64 := fadd x (fneg y).

Definition inf_of_sign (c : comparison) : f64 :=
  match c with
  | Gt => PInf
  | Lt => NInf
  | Eq => NaN
  end.

Definition fsign (x : f64) : option comparison :=
  match x with
  | Fin q => Some (qsign q)
  | PInf => Some Gt
  | NInf => Some Lt
  | NaN => None
  end.

Definition sign_mul (a b : comparison) : comparison :=
  match a, b with
  | Eq, _ | _, Eq => Eq
  | Gt, Gt | Lt, Lt => Gt
  | _, _ => Lt
  end.

Definition fmul (x y : f64) : f64 :=
  match x, y with
  | Fin a, Fin b => Fin (Qred (a * b))
  | _, _ =>
      match fsign x, fsign y with
      | Some a, Some b => inf_of_sign (sign_mul a b)
      | _, _ => NaN
      end
  end.

(** Division: a finite non-zero value over zero is an infinity, zero over
    zero is [NaN]; zero is unsigned, taken as [+0.0]. *)
Definition fdiv (x y : f64) : f64 :=
  match x, y with
  | NaN, _ | _, NaN => NaN
  | Fin a, Fin b =>
      match qsign b with
      | Eq => inf_of_sign (qsign a)
      | _ => Fin (Qred (a / b))
      end
  | Fin _, _ => Fin 0
  | _, Fin b =>
      match fsign x, qsign b with
      | Some a, Lt => inf_of_sign (sign_mul a Lt)
      | Some a, _ => inf_of_sign a
      | None, _ => NaN
      end
  | _, _ => NaN
  end.

(** [x < y]; false whenever an operand is [NaN]. *)
Definition flt (x y : f64) : bool :=
  match x, y with
  | NaN, _ | _, NaN => false
  | Fin a, Fin b => match (a ?= b)%Q with Lt => true | _ => false end
  | NInf, NInf | PInf, _ | _, NInf => false
  | _, _ => true
  end.

Definition f64_of_Z (z : Z) : f64 := Fin (inject_Z z).

(** [Series.clip(lower=0)]: [NaN] stays [NaN]. *)
Definition clip_lower0 (x : f64) : f64 :=
  if flt x (f64_of_Z 0) then f64_of_Z 0 else x.

(** [repr] of a float whose value is an integer below 1e16 in magnitude
    (["2024.0"]), and of the special values. *)
Definition repr_f64 (x : f64) : result string :=
  match x with
  | NaN => inr "nan"
  | PInf => inr "inf"
  | NInf => inr "-inf"
  | Fin q =>
      if ((Qden (Qred q) =? 1)%positive && (Z.abs (Qnum (Qred q)) <? 10 ^ 16)%Z)%bool
      then inr (str_of_Z (Qnum (Qred q)) ++ ".0")%string
      else inl (Unmodelled "repr of a float that is not a small integer")
  end.

Definition f64_eqb (x y : f64) : bool :=
  match x, y with
  | Fin a, Fin b => Qeq_bool a b
  | PInf, PInf | NInf, NInf => true
  | _, _ => false
  end.

(** [x <= y] on values that are not [NaN]. *)
Definition fle (x y : f64) : bool :=
  match x, y with
  | Fin a, Fin b => match (a ?= b)%Q with Gt => false | _ => true end
  | NInf, _ | _, PInf => true
  | _, _ => false
  end.

(** ** Cell values, rows and frames *)

Record Timestamp : Type := mkTimestamp { ts_year : Z; ts_month : Z; ts_day : Z }.

(** A cell of a frame.  [VTime None] is [NaT], [VFloat NaN] is [np.nan],
    [VNone] is [None] / [pd.NA]. *)
Inductive value : Type :=
| VStr (s : string)
| VInt (z : Z)
| VFloat (x : f64)
| VTime (t : option Timestamp)
| VNone.

Definition isnull (v : value) : bool :=
  match v with
  | VFloat NaN | VTime None | VNone => true
  | _ => false
  end.

Definition is_str (v : value) : bool :=
  match v with VStr _ => true | _ => false end.

Definition is_num (v : value) : bool :=
  match v with VInt _ | VFloat _ => true | _ => false end.

(** The float64 a numeric cell stands for. *)
Definition num_of (v : value) : option f64 :=
  match v with
  | VInt z => Some (f64_of_Z z)
  | VFloat x => Some x
  | VNone => Some NaN
  | _ => None
  end.

Definition value_eqb (a b : value) : bool :=
  match a, b with
  | VStr s, VStr t => String.eqb s t
  | VInt x, VInt y => (x =? y)%Z
  | VTime (Some s), VTime (Some t) =>
      ((ts_year s =? ts_year t) && (ts_month s =? ts_month t) && (ts_day s =? ts_day t))%Z
  | VInt x, VFloat y => f64_eqb (f64_of_Z x) y
  | VFloat x, VInt y => f64_eqb x (f64_of_Z y)
  | VFloat x, VFloat y => f64_eqb x y
  | _, _ => false
  end.

(** The order [sort_values] and [groupby] sort keys by: numbers by value,
    strings by code point, and in a column that mixes them the numbers
    before the strings; missing values last.  Timestamps come before strings
    too; a key column that mixes timestamps and numbers is refused before
    this order is ever asked (see [sortable]), so how these two kinds are
    ranked against each other is not observable. *)
Definition value_rank (v : value) : Z :=
  if isnull v then 3
  else match v with
       | VInt _ | VFloat _ => 0
       | VStr _ => 2
       | _ => 1
       end.

Definition ts_leb (s t : Timestamp) : bool :=
  (ts_year s <? ts_year t) ||
  ((ts_year s =? ts_year t) &&
   ((ts_month s <? ts_month t) ||
    ((ts_month s =? ts_month t) && (ts_day s <=? ts_day t)))).

Definition value_leb (a b : value) : bool :=
  if (value_rank a <? value_rank b) then true
  else if (value_rank b <? value_rank a) then false
  else match a, b with
       | VStr s, VStr t => String.leb s t
       | VTime (Some s), VTime (Some t) => ts_leb s t
       | _, _ =>
           if isnull a then true
           else match num_of a, num_of b with
                | Some x, Some y => fle x y
                | _, _ => true
                end
       end.

(** Lexicographic order on key tuples. *)
Fixpoint key_leb (k1 k2 : list value) : bool :=
  match k1, k2 with
  | a :: k1', b :: k2' =>
      if value_leb a b then
        if value_leb b a then key_leb k1' k2' else true
      else false
  | _, _ => true
  end.

Fixpoint key_eqb (k1 k2 : list value) : bool :=
  match k1, k2 with
  | [], [] => true
  | a :: k1', b :: k2' => value_eqb a b && key_eqb k1' k2'
  | _, _ => false
  end.

(** A row: its index label and its cells by column name. *)
Record Row : Type := mkRow { label : nat; cells : list (string * value) }.

Record DataFrame : Type := mkDF { columns : list string; rows : list Row }.

Fixpoint lookup {V : Type} (c : string) (kv : list (string * V)) : option V :=
  match kv with
  | [] => None
  | (k, v) :: kv' => if String.eqb c k then Some v else lookup c kv'
  end.

(** The cell of row [r] in column [c]; a cell that is not there reads as
    [NaN], as in a frame built from records of unequal shape. *)
Definition cell (c : string) (r : Row) : value :=
  match lookup c (cells r) with
  | Some v => v
  | None => VFloat NaN
  end.

Fixpoint set_kv (c : string) (v : value) (kv : list (string * value))
  : list (string * value) :=
  match kv with
  | [] => [(c, v)]
  | (k, w) :: kv' =>
      if String.eqb c k then (k, v) :: kv' else (k, w) :: set_kv c v kv'
  end.

Definition set_cell (c : string) (v : value) (r : Row) : Row :=
  mkRow (label r) (set_kv c v (cells r)).

Definition del_cell (c : string) (r : Row) : Row :=
  mkRow (label r) (filter (fun kv => negb (String.eqb c (fst kv))) (cells r)).

Definition has_column (c : string) (df : DataFrame) : bool :=
  existsb (String.eqb c) (columns df).

Definition add_column (c : string) (cols : list string) : list string :=
  if existsb (String.eqb c) cols then cols else cols ++ [c].

Notation "'let!' x ':=' e 'in' k" := (rbind e (fun x => k))
  (at level 10, x name, e at level 100, k at level 200).

(** ** pandas primitives on frames *)

Definition missing_column (cols : list string) (df : DataFrame) : option string :=
  find (fun c => negb (has_column c df)) cols.

(** [df[c]] as a series: the cells of column [c], row by row. *)
Definition getcol (c : string) (df : DataFrame) : result (list value) :=
  if has_column c df then inr (map (cell c) (rows df)) else inl (KeyError c).

Fixpoint zip_set (c : string) (vs : list value) (rs : list Row) : list Row :=
  match vs, rs with
  | v :: vs', r :: rs' => set_cell c v r :: zip_set c vs' rs'
  | _, _ => rs
  end.

(** [df[c] = series], the series carrying the frame's own index. *)
Definition setcol (c : string) (vs : list value) (df : DataFrame) : result DataFrame :=
  if (List.length vs =? List.length (rows df))%nat
  then inr (mkDF (add_column c (columns df)) (zip_set c vs (rows df)))
  else inl (ValueError "Length of values does not match List.length of index").

(** [df[c] = scalar]. *)
Definition setcol_scalar (c : string) (v : value) (df : DataFrame) : DataFrame :=
  mkDF (add_column c (columns df)) (map (set_cell c v) (rows df)).

(** [df[cols]]: a new frame with the listed columns. *)
Definition select (cols : list string) (df : DataFrame) : result DataFrame :=
  match missing_column cols df with
  | Some c => inl (KeyError c)
  | None =>
      inr (mkDF cols
             (map (fun r => mkRow (label r) (map (fun c => (c, cell c r)) cols))
                  (rows df)))
  end.

(** [df.drop(columns=cols)]: a new frame. *)
Definition drop_columns (cols : list string) (df : DataFrame) : result DataFrame :=
  match missing_column cols df with
  | Some c => inl (KeyError c)
  | None =>
      inr (mkDF (filter (fun c => negb (existsb (String.eqb c) cols)) (columns df))
             (map (fun r => fold_right del_cell r cols) (rows df)))
  end.

(** [df.rename(columns={old: new})]: a new frame; a name that is not a
    column is ignored. *)
Definition rename_column (old new : string) (df : DataFrame) : DataFrame :=
  let rn := fun c => if String.eqb c old then new else c in
  mkDF (map rn (columns df))
       (map (fun r => mkRow (label r) (map (fun kv => (rn (fst kv), snd kv)) (cells r)))
            (rows df)).

Definition row_key (by_ : list string) (r : Row) : list value :=
  map (fun c => cell c r) by_.

Section Sorting.
Context {A : Type} (leb : A -> A -> bool).

Fixpoint insert_by (x : A) (l : list A) : list A :=
  match l with
  | [] => [x]
  | y :: l' => if leb x y then x :: l else y :: insert_by x l'
  end.

(** Stable: an element goes in front of the later elements it ties with. *)
Definition stable_sort (l : list A) : list A := fold_right insert_by [] l.
End Sorting.

(** A key column can be sorted when its values that are neither strings
    nor missing can be compared with each other: all of them numbers, or
    all of them timestamps.  Strings may be mixed with either. *)
Definition sortable (col : list value) : bool :=
  forallb (fun v => isnull v || is_str v || is_num v) col
  || forallb (fun v => match v with VTime _ => true | _ => isnull v || is_str v end) col.

Definition rows_leb (by_ : list string) (r1 r2 : Row) : bool :=
  key_leb (row_key by_ r1) (row_key by_ r2).

(** [df.sort_values(by=by_)] with two or more keys: a new frame, rows in
    ascending lexicographic order of the keys, ties in their former order,
    missing values last.  Each key column is turned into ordered codes
    first, which fails on a column that cannot be sorted. *)
Definition sort_values (by_ : list string) (df : DataFrame) : result DataFrame :=
  match missing_column by_ df with
  | Some c => inl (KeyError c)
  | None =>
      if forallb (fun c => sortable (map (cell c) (rows df))) by_
      then inr (mkDF (columns df) (stable_sort (rows_leb by_) (rows df)))
      else inl (TypeError "'values' is not ordered, please explicitly specify the categories order")
  end.

(** *** groupby *)

Definition no_null (k : list value) : bool := forallb (fun v => negb (isnull v)) k.

(** Distinct keys, in order of first appearance. *)
Fixpoint distinct_keys (ks : list (list value)) : list (list value) :=
  match ks with
  | [] => []
  | k :: ks' => k :: filter (fun k' => negb (key_eqb k k')) (distinct_keys ks')
  end.

(** The group keys of [groupby(by_)]: rows with a missing key are left out
    ([dropna=True]), keys are sorted ([sort=True]). *)
Definition group_keys (by_ : list string) (rs : list Row) : list (list value) :=
  stable_sort key_leb
    (distinct_keys (filter no_null (map (row_key by_) rs))).

Definition group_rows (by_ : list string) (k : list value) (rs : list Row) : list Row :=
  filter (fun r => key_eqb (row_key by_ r) k) rs.

Definition wrap64 (z : Z) : Z := (z + 2 ^ 63) mod 2 ^ 64 - 2 ^ 63.

Definition is_float (v : value) : bool :=
  match v with VFloat _ => true | _ => false end.

(** The sum of a group's cells in one column, missing values skipped:
    int64 with wrap-around in an integer column, float64 otherwise. *)
Fixpoint sum_int (vs : list value) : result Z :=
  match vs with
  | [] => inr 0
  | VInt z :: vs' => let! t := sum_int vs' in inr (wrap64 (z + t))
  | VNone :: vs' => sum_int vs'
  | _ :: _ => inl (Unmodelled "sum of a column that is not numeric")
  end.

Fixpoint sum_float (vs : list value) : result f64 :=
  match vs with
  | [] => inr (f64_of_Z 0)
  | v :: vs' =>
      let! t := sum_float vs' in
      match num_of v with
      | Some NaN => inr t
      | Some x => inr (fadd x t)
      | None => inl (Unmodelled "sum of a column that is not numeric")
      end
  end.

Definition group_sum (float_col : bool) (vs : list value) : result value :=
  if float_col
  then let! x := sum_float vs in inr (VFloat x)
  else let! z := sum_int vs in inr (VInt z).

Fixpoint enumerate_from {A : Type} (n : nat) (l : list A) : list (nat * A) :=
  match l with
  | [] => []
  | a :: l' => (n, a) :: enumerate_from (S n) l'
  end.

(** [df.groupby(by_)[sum_cols].sum().reset_index()]. *)
Definition groupby_sum_reset_index (by_ sum_cols : list string) (df : DataFrame)
  : result DataFrame :=
  match missing_column (by_ ++ sum_cols) df with
  | Some c => inl (KeyError c)
  | None =>
      if existsb (fun c => existsb (String.eqb c) by_) sum_cols
      then inl (ValueError "cannot insert a key column, already exists")
      else
        let! rs :=
          mapM (fun ik =>
                  let g := group_rows by_ (snd ik) (rows df) in
                  let! sums :=
                    mapM (fun c =>
                            group_sum (existsb is_float (map (cell c) (rows df)))
                                      (map (cell c) g))
                         sum_cols in
                  inr (mkRow (fst ik) (combine by_ (snd ik) ++ combine sum_cols sums)))
               (enumerate_from 0 (group_keys by_ (rows df))) in
        inr (mkDF (by_ ++ sum_cols) rs)
  end.

(** How many later rows share the row's key. *)
Fixpoint later_in_group (c : string) (rs : list Row) : list nat :=
  match rs with
  | [] => []
  | r :: rs' =>
      List.length (filter (fun r' => value_eqb (cell c r') (cell c r)) rs')
      :: later_in_group c rs'
  end.

(** [df.groupby(c).cumcount(ascending=False)]: an int64 series, or a
    float64 one with [NaN] at the rows whose key is missing when there are
    such rows. *)
Definition groupby_cumcount_desc (c : string) (df : DataFrame) : result (list value) :=
  if has_column c df then
    let rs := rows df in
    if existsb (fun r => isnull (cell c r)) rs
    then inr (map (fun rn => if isnull (cell c (fst rn)) then VFloat NaN
                             else VFloat (f64_of_Z (Z.of_nat (snd rn))))
                  (combine rs (later_in_group c rs)))
    else inr (map (fun n => VInt (Z.of_nat n)) (later_in_group c rs))
  else inl (KeyError c).

(** *** Series operations *)

Fixpoint map2 {A B C : Type} (f : A -> B -> C) (l1 : list A) (l2 : list B) : list C :=
  match l1, l2 with
  | a :: l1', b :: l2' => f a b :: map2 f l1' l2'
  | _, _ => []
  end.

(** The [.dt] accessor: the values of a datetime64 series. *)
Definition dt_values (s : list value) : result (list (option Timestamp)) :=
  mapM (fun v => match v with
                 | VTime t => inr t
                 | _ => inl (AttributeError "Can only use .dt accessor with datetimelike values")
                 end) s.

Definition is_some {A : Type} (o : option A) : bool :=
  match o with Some _ => true | None => false end.

(** A field of [.dt] ([year], [month], [quarter]): an integer series when no
    value is [NaT], and a float64 series, [NaN] at the [NaT]s, as soon as
    one value is. *)
Definition dt_field (f : Timestamp -> Z) (ts : list (option Timestamp)) : list value :=
  if forallb is_some ts
  then map (fun o => match o with Some t => VInt (f t) | None => VNone end) ts
  else map (fun o => match o with
                     | Some t => VFloat (f64_of_Z (f t))
                     | None => VFloat NaN
                     end) ts.

Definition quarter_of (t : Timestamp) : Z := (ts_month t - 1) / 3 + 1.

(** [series.astype(str)]. *)
Definition astype_str (s : list value) : result (list string) :=
  mapM (fun v => match v with
                 | VStr u => inr u
                 | VInt z => inr (str_of_Z z)
                 | VFloat x => repr_f64 x
                 | VNone => inr "None"
                 | VTime _ => inl (Unmodelled "str of a timestamp")
                 end) s.

Definition in_int64 (z : Z) : bool := (- 2 ^ 63 <=? z) && (z <? 2 ^ 63).

(** A Python [int] stored into an int64 array. *)
Definition to_int64 (z : Z) : result value :=
  if in_int64 z then inr (VInt z)
  else inl (OverflowError "Python int too large to convert to C long").

(** One cell under [astype(int)]: [int(v)], then the conversion of the
    Python [int] to int64.  A float is truncated towards zero; what a float
    beyond the int64 range becomes is not modelled. *)
Definition int_cast (v : value) : result value :=
  match v with
  | VStr u =>
      match py_int u with
      | Some z => to_int64 z
      | None => inl (ValueError "invalid literal for int() with base 10")
      end
  | VInt z => to_int64 z
  | VFloat (Fin q) =>
      let z := Z.quot (Qnum q) (Zpos (Qden q)) in
      if in_int64 z then inr (VInt z)
      else inl (Unmodelled "int of a float beyond the int64 range")
  | VFloat _ => inl (ValueError "cannot convert float NaN or infinity to integer")
  | VNone => inl (TypeError "int() argument must be a string or a real number, not 'NoneType'")
  | VTime _ => inl (Unmodelled "int of a timestamp")
  end.

(** [series.astype(int)]. *)
Definition astype_int (s : list value) : result (list value) := mapM int_cast s.

(** [series.str.split("-", expand=True)], as the list of its columns.  The
    frame is as wide as the longest split (no column at all for an empty
    series); shorter rows are padded with [None], a missing value fills its
    row with [NaN]. *)
Definition str_split_expand (s : list value) : result (list (list value)) :=
  let! parts :=
    mapM (fun v => match v with
                   | VStr u => inr (map VStr (split_dash u))
                   | _ => if isnull v then inr [VFloat NaN]
                          else inl (Unmodelled ".str on a value that is not a string")
                   end) s in
  let width := fold_right Nat.max 0%nat (map (@List.length value) parts) in
  inr (map (fun j =>
              map (fun p => match p with
                            | [VFloat NaN] => VFloat NaN
                            | _ => nth j p VNone
                            end) parts)
           (seq 0 width)).

Definition f64_values (e : exn) (s : list value) : result (list f64) :=
  mapM (fun v => match num_of v with Some x => inr x | None => inl e end) s.

(** Element-wise arithmetic of two numeric series of one frame. *)
Definition series_binop (op : f64 -> f64 -> f64) (a b : list value) : result (list value) :=
  let! xs := f64_values (TypeError "unsupported operand type(s)") a in
  let! ys := f64_values (TypeError "unsupported operand type(s)") b in
  inr (map VFloat (map2 op xs ys)).

(** [k * series] for an integer [k]. *)
Definition series_scale (k : Z) (a : list value) : result (list value) :=
  let! xs := f64_values (TypeError "unsupported operand type(s)") a in
  inr (map (fun x => VFloat (fmul (f64_of_Z k) x)) xs).

(** [series.clip(lower=0)]. *)
Definition series_clip_lower0 (a : list value) : result (list value) :=
  let! xs := f64_values (TypeError "unsupported operand type(s)") a in
  inr (map (fun x => VFloat (clip_lower0 x)) xs).

(** [series + 1] on the result of [cumcount]. *)
Definition series_add_int (k : Z) (a : list value) : result (list value) :=
  mapM (fun v => match v with
                 | VInt z => inr (VInt (wrap64 (z + k)))
                 | VFloat x => inr (VFloat (fadd x (f64_of_Z k)))
                 | _ => inl (TypeError "unsupported operand type(s)")
                 end) a.

(** [series == s] for a string [s]. *)
Definition series_eq_str (a : list value) (s : string) : list bool :=
  map (fun v => match v with VStr u => String.eqb u s | _ => false end) a.

(** [series.str.replace(r"-(\d+)", r"-Q\1", regex=True)]. *)
Definition str_replace_dash_digits (a : list value) : result (list value) :=
  mapM (fun v => match v with
                 | VStr u => inr (VStr (sub_dash_digits u))
                 | _ => if isnull v then inr (VFloat NaN)
                        else inl (Unmodelled ".str on a value that is not a string")
                 end) a.

(** *** Rolling windows *)

(** The rows a fixed window of size [w] closed on the left covers at
    position [i]: from [max 0 (i - w)] up to [i], [i] itself left out. *)
Definition window {A : Type} (w i : nat) (xs : list A) : list A :=
  skipn (i - w) (firstn i xs).

(** The observations of a window: the values that are neither [NaN] nor
    infinite (pandas turns infinities into [NaN] before it aggregates). *)
Definition observations (win : list f64) : list Q :=
  flat_map (fun x => match x with Fin q => [q] | _ => [] end) win.

Definition Qsum (l : list Q) : Q := fold_right Qplus 0%Q l.

Definition Qmean (obs : list Q) : Q :=
  Qred (Qsum obs / inject_Z (Z.of_nat (List.length obs))).

(** Sample variance, [ddof = 1]. *)
Definition Qvar (obs : list Q) : Q :=
  let m := Qmean obs in
  Qred (Qsum (map (fun x => (x - m) * (x - m))%Q obs)
        / inject_Z (Z.of_nat (List.length obs) - 1)).

Definition roll_mean (min_periods : nat) (win : list f64) : f64 :=
  let obs := observations win in
  if (min_periods <=? List.length obs)%nat && (1 <=? List.length obs)%nat
  then Fin (Qmean obs) else NaN.

Section Sqrt.
(** [numpy]'s square root on non-negative finite values. *)
Variable np_sqrt : Q -> Q.

Definition roll_std (min_periods : nat) (win : list f64) : f64 :=
  let obs := observations win in
  if (min_periods <=? List.length obs)%nat && (2 <=? List.length obs)%nat
  then Fin (np_sqrt (Qvar obs)) else NaN.
End Sqrt.

(** [series.rolling(window=w, min_periods=mp, closed='left').agg()]. *)
Definition rolling_left (agg : nat -> list f64 -> f64) (w mp : Z) (s : list value)
  : result (list value) :=
  if w <? 0 then inl (ValueError "window must be an integer 0 or greater")
  else if w <? mp then inl (ValueError "min_periods must be <= window")
  else
    let! xs := f64_values (DataError "No numeric types to aggregate") s in
    inr (map (fun i => VFloat (agg (Z.to_nat mp) (window (Z.to_nat w) i xs)))
             (seq 0 (List.length xs))).

(** *** groupby.apply, masked assignment, concat *)

Definition union_columns (l : list (list string)) : list string :=
  fold_left (fun acc cs => fold_left (fun a c => add_column c a) cs acc) l [].

Fixpoint nodupb (l : list nat) : bool :=
  match l with
  | [] => true
  | x :: l' => negb (existsb (Nat.eqb x) l') && nodupb l'
  end.

Definition find_label (l : nat) (rs : list Row) : option Row :=
  find (fun r => (label r =? l)%nat) rs.

(** [df.groupby(c, group_keys=False).apply(f)] for an [f] that hands back
    its group with the group's own index (grouping column included in the
    group, as in pandas 1.x and 2.x).  Each group is a fresh frame with the
    frame's columns and the group's rows; the results are concatenated and
    put back in the order of the frame's index, the rows with a missing key
    left out.  Frames whose index labels repeat are not modelled. *)
Definition groupby_apply (c : string) (f : DataFrame -> result DataFrame) (df : DataFrame)
  : result DataFrame :=
  if has_column c df then
    let! parts :=
      mapM (fun k => f (mkDF (columns df) (group_rows [c] k (rows df))))
           (group_keys [c] (rows df)) in
    match parts with
    | [] => inr (mkDF (columns df) [])
    | _ :: _ =>
        let ax := map label (filter (fun r => no_null (row_key [c] r)) (rows df)) in
        if nodupb ax then
          let! rs :=
            mapM (fun l => match find_label l (flat_map rows parts) with
                           | Some r => inr r
                           | None => inl (Unmodelled "apply changed the index")
                           end) ax in
          inr (mkDF (union_columns (map columns parts)) rs)
        else inl (Unmodelled "index labels repeat")
    end
  else inl (KeyError c).

(** [df.loc[mask, cols] = v] for a scalar [v]: the listed columns are added
    when they are not there. *)
Definition loc_set_scalar (mask : list bool) (cols : list string) (v : value)
  (df : DataFrame) : result DataFrame :=
  if (List.length mask =? List.length (rows df))%nat
  then inr (mkDF (fold_left (fun a c => add_column c a) cols (columns df))
              (map2 (fun (b : bool) r => if b then fold_right (fun c r' => set_cell c v r') r cols else r)
                    mask (rows df)))
  else inl (ValueError "Item wrong length").

(** [df.loc[mask, c]]. *)
Definition loc_get (mask : list bool) (c : string) (df : DataFrame) : result (list value) :=
  if has_column c df then
    if (List.length mask =? List.length (rows df))%nat
    then inr (map (fun br => cell c (snd br))
                  (filter (fun br : bool * Row => fst br) (combine mask (rows df))))
    else inl (ValueError "Item wrong length")
  else inl (KeyError c).

Fixpoint assign_masked (c : string) (mask : list bool) (vs : list value) (rs : list Row)
  : list Row :=
  match mask, rs with
  | true :: mask', r :: rs' =>
      match vs with
      | v :: vs' => set_cell c v r :: assign_masked c mask' vs' rs'
      | [] => r :: rs'
      end
  | false :: mask', r :: rs' => r :: assign_masked c mask' vs rs'
  | _, _ => rs
  end.

(** [df.loc[mask, c] = series], the series being [df.loc[mask, c]] mapped
    element by element. *)
Definition loc_set_series (mask : list bool) (c : string) (vs : list value)
  (df : DataFrame) : result DataFrame :=
  if (List.length mask =? List.length (rows df))%nat
  then inr (mkDF (add_column c (columns df)) (assign_masked c mask vs (rows df)))
  else inl (ValueError "Item wrong length").

(** [pd.concat(dfs, ignore_index=True)]. *)
Definition concat_ignore_index (dfs : list DataFrame) : DataFrame :=
  mkDF (union_columns (map columns dfs))
       (map (fun ir => mkRow (fst ir) (cells (snd ir)))
            (enumerate_from 0 (flat_map rows dfs))).

(** ** The store of frames *)

Definition ref : Type := nat.
Definition store : Type := list DataFrame.

(** A computation reads and updates the store and returns a value, or
    raises. *)
Definition M (A : Type) : Type := store -> result (A * store).

Definition ret {A : Type} (a : A) : M A := fun h => inr (a, h).

Definition bind {A B : Type} (m : M A) (k : A -> M B) : M B :=
  fun h => match m h with
           | inl e => inl e
           | inr (a, h') => k a h'
           end.

Definition lift {A : Type} (x : result A) : M A :=
  fun h => match x with
           | inl e => inl e
           | inr a => inr (a, h)
           end.

Notation "x <- m ;; k" := (bind m (fun x => k))
  (at level 61, m at next level, right associativity).
Notation "m ;;; k" := (bind m (fun _ => k))
  (at level 61, right associativity).

Fixpoint update {A : Type} (n : nat) (x : A) (l : list A) : list A :=
  match n, l with
  | O, _ :: l' => x :: l'
  | S n', y :: l' => y :: update n' x l'
  | _, [] => []
  end.

(** A new frame object. *)
Definition new_frame (d : DataFrame) : M ref :=
  fun h => inr (List.length h, h ++ [d]).

Definition read (r : ref) : M DataFrame :=
  fun h => match nth_error h r with
           | Some d => inr (d, h)
           | None => inl (Unmodelled "no such frame")
           end.

(** In-place update of the frame object [r]. *)
Definition write (r : ref) (d : DataFrame) : M unit :=
  fun h => inr (tt, update r d h).

(** [df.copy()] *)
Definition df_copy (df : ref) : M ref :=
  d <- read df ;; new_frame d.

(** [df[c]] *)
Definition getitem (df : ref) (c : string) : M (list value) :=
  d <- read df ;; lift (getcol c d).

(** [df[c] = series] *)
Definition setitem (df : ref) (c : string) (s : list value) : M unit :=
  d <- read df ;; d' <- lift (setcol c s d) ;; write df d'.

(** [df[c] = scalar] *)
Definition setitem_scalar (df : ref) (c : string) (v : value) : M unit :=
  d <- read df ;; write df (setcol_scalar c v d).

Fixpoint setitems (df : ref) (keys : list string) (cols : list (list value)) : M unit :=
  match keys, cols with
  | k :: keys', s :: cols' => setitem df k s ;;; setitems df keys' cols'
  | _, _ => ret tt
  end.

(** [df[keys] = frame], the frame given by its columns. *)
Definition setitem_frame (df : ref) (keys : list string) (cols : list (list value)) : M unit :=
  if (List.length cols =? List.length keys)%nat
  then setitems df keys cols
  else lift (inl (ValueError "Columns must be same length as key")).

(** An operation that builds a new frame from the frame [df]. *)
Definition derive (f : DataFrame -> result DataFrame) (df : ref) : M ref :=
  d <- read df ;; d' <- lift (f d) ;; new_frame d'.

(** An operation that changes the frame [df] in place. *)
Definition modify (f : DataFrame -> result DataFrame) (df : ref) : M unit :=
  d <- read df ;; d' <- lift (f d) ;; write df d'.

(** ** helper_functions.py *)

Definition spc_cols : list string :=
  ["Rolling_CL"; "Rolling_Std";
   "Rolling_UCL_1STD"; "Rolling_LCL_1STD";
   "Rolling_UCL_2STD"; "Rolling_LCL_2STD";
   "Rolling_UCL_3STD"; "Rolling_LCL_3STD"].

Section Pipeline.

(** [pd.to_datetime] on one string: the timestamp it parses to, or [None]
    when it does not parse. *)
Variable to_datetime : string -> option Timestamp.

(** [numpy]'s square root on non-negative finite values. *)
Variable np_sqrt : Q -> Q.

(** [pd.to_datetime(series, errors='coerce')]. *)
Definition to_datetime_coerce (s : list value) : result (list value) :=
  mapM (fun v => match v with
                 | VStr u => inr (VTime (to_datetime u))
                 | VTime t => inr (VTime t)
                 | VNone | VFloat NaN => inr (VTime None)
                 | _ => inl (Unmodelled "to_datetime of a number")
                 end) s.

Definition AddDateColumns (df : ref) (date_col : string) : M ref :=
  df <- df_copy df ;;
  s <- getitem df date_col ;;
  t <- lift (to_datetime_coerce s) ;;
  setitem df date_col t ;;;
  (* Extract month, year, quarter *)
  s <- getitem df date_col ;;
  ts <- lift (dt_values s) ;;
  let month := dt_field ts_month ts in
  s <- getitem df date_col ;;
  ts <- lift (dt_values s) ;;
  let year := dt_field ts_year ts in
  s <- getitem df date_col ;;
  ts <- lift (dt_values s) ;;
  let quarter := dt_field quarter_of ts in
  y <- lift (astype_str year) ;;
  setitem df "Year" (map VStr y) ;;;
  y <- lift (astype_str year) ;;
  q <- lift (astype_str quarter) ;;
  setitem df "Quarter"
    (map VStr (map2 String.append (map (fun u => u ++ "-")%string y) q)) ;;;
  y <- lift (astype_str year) ;;
  m <- lift (astype_str month) ;;
  setitem df "Month"
    (map VStr (map2 String.append (map (fun u => u ++ "-")%string y) (map (zfill 2) m))) ;;;
  ret df.

Definition sort_by_date (df_subset : ref) (frequency : string) : M ref :=
  if String.eqb frequency "Year" then
    d <- getitem df_subset "Date" ;;
    y <- lift (astype_int d) ;;
    setitem df_subset "Year" y ;;;
    df_subset <- derive (sort_values ["Measure"; "Year"]) df_subset ;;
    df_subset <- derive (drop_columns ["Year"]) df_subset ;;
    ret df_subset
  else if String.eqb frequency "Quarter" then
    d <- getitem df_subset "Date" ;;
    parts <- lift (str_split_expand d) ;;
    setitem_frame df_subset ["Year"; "QuarterNum"] parts ;;;
    y <- getitem df_subset "Year" ;;
    y <- lift (astype_int y) ;;
    setitem df_subset "Year" y ;;;
    q <- getitem df_subset "QuarterNum" ;;
    q <- lift (astype_int q) ;;
    setitem df_subset "QuarterNum" q ;;;
    df_subset <- derive (sort_values ["Measure"; "Year"; "QuarterNum"]) df_subset ;;
    df_subset <- derive (drop_columns ["Year"; "QuarterNum"]) df_subset ;;
    ret df_subset
  else (* assume Month *)
    d <- getitem df_subset "Date" ;;
    parts <- lift (str_split_expand d) ;;
    setitem_frame df_subset ["Year"; "MonthNum"] parts ;;;
    y <- getitem df_subset "Year" ;;
    y <- lift (astype_int y) ;;
    setitem df_subset "Year" y ;;;
    m <- getitem df_subset "MonthNum" ;;
    m <- lift (astype_int m) ;;
    setitem df_subset "MonthNum" m ;;;
    df_subset <- derive (sort_values ["Measure"; "Year"; "MonthNum"]) df_subset ;;
    df_subset <- derive (drop_columns ["Year"; "MonthNum"]) df_subset ;;
    ret df_subset.

Definition aggregate_dataframe (df : ref) (date_col : string)
  (group_by_cols sum_cols : list string) (frequency : string) : M ref :=
  let group_by_cols :=
    if existsb (String.eqb date_col) group_by_cols
    then group_by_cols else group_by_cols ++ [date_col] in
  (* Subset *)
  df_subset <- derive (select (group_by_cols ++ sum_cols)) df ;;
  (* Aggregate *)
  agg_df <- derive (groupby_sum_reset_index group_by_cols sum_cols) df_subset ;;
  (* Add calculated fields *)
  setitem_scalar agg_df "frequency" (VStr frequency) ;;;
  n <- getitem agg_df "Numerator" ;;
  d <- getitem agg_df "Denominator" ;;
  nd <- lift (series_binop fdiv n d) ;;
  m <- getitem agg_df "Multiplier" ;;
  rate <- lift (series_binop fmul nd m) ;;
  setitem agg_df "Rate" rate ;;;
  (* Rename date column *)
  agg_df <- derive (fun d => inr (rename_column date_col "Date" d)) agg_df ;;
  (* Sort using helper *)
  agg_df <- sort_by_date agg_df frequency ;;
  (* ADD REVERSE ROW NUMBER: newest date = 1 *)
  d <- read agg_df ;;
  cc <- lift (groupby_cumcount_desc "Measure" d) ;;
  rn <- lift (series_add_int 1 cc) ;;
  setitem agg_df "RowNumber" rn ;;;
  ret agg_df.

(** [group['Rolling_CL'] + k * group['Rolling_Std']] *)
Definition cl_plus (k : Z) (group : DataFrame) : result (list value) :=
  let! cl := getcol "Rolling_CL" group in
  let! sd := getcol "Rolling_Std" group in
  let! ksd := series_scale k sd in
  series_binop fadd cl ksd.

(** [(group['Rolling_CL'] - k * group['Rolling_Std']).clip(lower=0)] *)
Definition cl_minus_clipped (k : Z) (group : DataFrame) : result (list value) :=
  let! cl := getcol "Rolling_CL" group in
  let! sd := getcol "Rolling_Std" group in
  let! ksd := series_scale k sd in
  let! lo := series_binop fsub cl ksd in
  series_clip_lower0 lo.

(** The inner function of [rolling_spc_agg].  [group] is the fresh frame
    [apply] builds for one Measure; its column assignments stay local to
    it. *)
Definition calc_rolling (window_size : Z) (group : DataFrame) : result DataFrame :=
  (* Rolling mean (center line) *)
  let! rate := getcol "Rate" group in
  let! cl := rolling_left roll_mean window_size window_size rate in
  let! group := setcol "Rolling_CL" cl group in
  (* Rolling standard deviation *)
  let! rate := getcol "Rate" group in
  let! sd := rolling_left (roll_std np_sqrt) window_size window_size rate in
  let! group := setcol "Rolling_Std" sd group in
  (* Control limits *)
  let! s := cl_plus 1 group in
  let! group := setcol "Rolling_UCL_1STD" s group in
  let! s := cl_minus_clipped 1 group in
  let! group := setcol "Rolling_LCL_1STD" s group in
  let! s := cl_plus 2 group in
  let! group := setcol "Rolling_UCL_2STD" s group in
  let! s := cl_minus_clipped 2 group in
  let! group := setcol "Rolling_LCL_2STD" s group in
  let! s := cl_plus 3 group in
  let! group := setcol "Rolling_UCL_3STD" s group in
  let! s := cl_minus_clipped 3 group in
  let! group := setcol "Rolling_LCL_3STD" s group in
  inr group.

Definition rolling_spc_agg (df : ref) (window_size : Z) (sigma : Z) : M ref :=
  df_out <- derive (groupby_apply "Measure" (calc_rolling window_size)) df ;;
  (* Null out SPC columns for yearly rows *)
  f <- getitem df_out "frequency" ;;
  let mask_year := series_eq_str f "Year" in
  modify (loc_set_scalar mask_year spc_cols (VFloat NaN)) df_out ;;;
  ret df_out.

(** ** large_hospital_dataset_cleaning.py

    The script from the call of [AddDateColumns] on; reading the file and
    attaching the Multiplier and Definitions columns come before and are
    not part of the pipeline proper. *)

Definition group_by_cols : list string := ["Measure"; "Definitions"; "Multiplier"].
Definition sum_cols : list string := ["Numerator"; "Denominator"; "Expected Events"].

(** "Adjust the quarter name". *)
Definition adjust_quarter_name (agg_quarter_spc : ref) : M unit :=
  f <- getitem agg_quarter_spc "frequency" ;;
  d <- read agg_quarter_spc ;;
  old <- lift (loc_get (series_eq_str f "Quarter") "Date" d) ;;
  new <- lift (str_replace_dash_digits old) ;;
  f <- getitem agg_quarter_spc "frequency" ;;
  modify (loc_set_series (series_eq_str f "Quarter") "Date" new) agg_quarter_spc.

Definition script (df : ref) : M ref :=
  df_w_date_columns <- AddDateColumns df "Discharge Month" ;;
  (* Aggregate by Year, Quarter, and Month *)
  agg_year <- aggregate_dataframe df_w_date_columns "Year" group_by_cols sum_cols "Year" ;;
  agg_quarter <- aggregate_dataframe df_w_date_columns "Quarter" group_by_cols sum_cols "Quarter" ;;
  agg_month <- aggregate_dataframe df_w_date_columns "Month" group_by_cols sum_cols "Month" ;;
  (* Apply rolling-window SPC calculations *)
  agg_month_spc <- rolling_spc_agg agg_month 24 3 ;;
  agg_quarter_spc <- rolling_spc_agg agg_quarter 8 3 ;;
  agg_year_spc <- rolling_spc_agg agg_year 2 3 ;;
  (* Adjust the quarter name *)
  adjust_quarter_name agg_quarter_spc ;;;
  (* Combine all time granularities *)
  m <- read agg_month_spc ;;
  q <- read agg_quarter_spc ;;
  y <- read agg_year_spc ;;
  Finalset <- new_frame (concat_ignore_index [m; q; y]) ;;
  ret Finalset.

End Pipeline.

(** ** Sample data *)

Module Sample.

(** A parser for ["YYYY-MM-DD"] strings, to run the pipeline on. *)
Definition iso_date (s : string) : option Timestamp :=
  match split_dash s with
  | [y; m; d] =>
      if ((String.length y =? 4) && (String.length m =? 2) && (String.length d =? 2))%nat
         && all_digits y && all_digits m && all_digits d
      then match py_int y, py_int m, py_int d with
           | Some y', Some m', Some d' =>
               if (1677 <=? y') && (y' <=? 2262) && (1 <=? m') && (m' <=? 12)
                  && (1 <=? d') && (d' <=? 31)
               then Some (mkTimestamp y' m' d') else None
           | _, _, _ => None
           end
      else None
  | _ => None
  end.

(** A square root that is exact on squares of rationals. *)
Definition sqrt_q (q : Q) : Q :=
  Qred (Z.sqrt (Qnum q * Zpos (Qden q)) # Qden q).

Definition raw (i : nat) (measure date : string) (num den : Z) : Row :=
  mkRow i [("Measure", VStr measure); ("Discharge Month", VStr date);
           ("Numerator", VInt num); ("Denominator", VInt den);
           ("Expected Events", VInt 1); ("Multiplier", VInt 1000);
           ("Definitions", VStr "Per 1000 patient days")].

Definition raw_columns : list string :=
  ["Measure"; "Discharge Month"; "Numerator"; "Denominator";
   "Expected Events"; "Multiplier"; "Definitions"].

Definition agg (i : nat) (measure date freq : string) (rate : Q) : Row :=
  mkRow i [("Measure", VStr measure); ("Date", VStr date);
           ("frequency", VStr freq); ("Rate", VFloat (Fin rate))].

Definition agg_columns : list string := ["Measure"; "Date"; "frequency"; "Rate"].

Definition six_months : DataFrame :=
  mkDF agg_columns
    [agg 0 "A" "2024-01" "Month" 10; agg 1 "A" "2024-02" "Month" 12;
     agg 2 "A" "2024-03" "Month" 11; agg 3 "A" "2024-04" "Month" 13;
     agg 4 "A" "2024-05" "Month" 9; agg 5 "A" "2024-06" "Month" 14].

Definition frame_of (x : result (ref * store)) : option DataFrame :=
  match x with
  | inr (r, h) => nth_error h r
  | inl _ => None
  end.

Definition frame_or_empty (x : result (ref * store)) : DataFrame :=
  match frame_of x with
  | Some d => d
  | None => mkDF [] []
  end.

(** What the Rolling SPC Engine returns on [six_months] with a window of
    three months. *)
Definition six_months_spc : DataFrame :=
  Eval vm_compute in frame_or_empty (rolling_spc_agg sqrt_q 0%nat 3 3 [six_months]).

(** Two yearly rows out of order. *)
Definition two_years : DataFrame :=
  mkDF agg_columns [agg 0 "A" "2024" "Year" 12; agg 1 "A" "2023" "Year" 10].

(** A table with columns and no row. *)
Definition no_rows : DataFrame := mkDF agg_columns [].

(** Two raw records, the second with a date that does not parse. *)
Definition bad_date : DataFrame :=
  mkDF raw_columns [raw 0 "A" "2024-03-15" 3 1000; raw 1 "A" "not a date" 4 1000].

(** Five months of raw records, the fourth with a zero denominator. *)
Definition zero_denominator : DataFrame :=
  mkDF raw_columns
    [raw 0 "A" "2024-01-15" 10 1000; raw 1 "A" "2024-02-15" 12 1000;
     raw 2 "A" "2024-03-15" 11 1000; raw 3 "A" "2024-04-15" 5 0;
     raw 4 "A" "2024-05-15" 9 1000].

(** Four months, the second with an infinite Rate. *)
Definition with_inf : DataFrame :=
  mkDF agg_columns
    [agg 0 "A" "2024-01" "Month" 10;
     mkRow 1 [("Measure", VStr "A"); ("Date", VStr "2024-02");
              ("frequency", VStr "Month"); ("Rate", VFloat PInf)];
     agg 2 "A" "2024-03" "Month" 11; agg 3 "A" "2024-04" "Month" 13].

(** Raw records of two categories, out of chronological order, and the same
    table with its date columns. *)
Definition two_measures : DataFrame :=
  mkDF raw_columns
    [raw 0 "B" "2024-02-15" 1 100; raw 1 "A" "2024-03-15" 3 1000;
     raw 2 "A" "2024-01-15" 2 1000; raw 3 "B" "2024-01-10" 4 100;
     raw 4 "A" "2024-03-20" 1 1000].

Definition two_measures_dated : DataFrame :=
  Eval vm_compute in
    frame_or_empty (AddDateColumns iso_date 0%nat "Discharge Month" [two_measures]).

Definition monthly_run : result (ref * store) :=
  Eval vm_compute in
    aggregate_dataframe 0%nat "Month" group_by_cols sum_cols "Month" [two_measures_dated].




(** A frame with two quarterly rows and a monthly one. *)
Definition quarters : DataFrame :=
  mkDF agg_columns
    [agg 0 "A" "2024-3" "Quarter" 10; agg 1 "A" "2024-4" "Quarter" 12;
     agg 2 "A" "2024-03" "Month" 11].

(** One raw record with no Measure and a date that does not parse. *)
Definition nameless : DataFrame :=
  mkDF raw_columns
    [mkRow 0 [("Measure", VNone); ("Discharge Month", VStr "not a date");
              ("Numerator", VInt 1); ("Denominator", VInt 10);
              ("Expected Events", VInt 1); ("Multiplier", VInt 1000);
              ("Definitions", VStr "Unknown")]].

(** [six_months] with other Rates from February on. *)
Definition six_months_later : DataFrame :=
  mkDF agg_columns
    [agg 0 "A" "2024-01" "Month" 10; agg 1 "A" "2024-02" "Month" 99;
     agg 2 "A" "2024-03" "Month" 98; agg 3 "A" "2024-04" "Month" 97;
     agg 4 "A" "2024-05" "Month" 96; agg 5 "A" "2024-06" "Month" 95].

End Sample.

(** ** Vocabulary of the statements *)

(** The float a cell holds ([NaN] when it holds no number). *)
Definition fnum (v : value) : f64 :=
  match num_of v with
  | Some x => x
  | None => NaN
  end.

(** Frame [g'] is frame [g] with the columns of [cs] assigned, the last
    assignment first in [cs]: same index, the assigned columns hold the
    given series, every other column is as it was. *)
Definition extends (g g' : DataFrame) (cs : list (string * list value)) : Prop :=
  map label (rows g') = map label (rows g)
  /\ forall c,
       match lookup c cs with
       | Some vs => map (cell c) (rows g') = vs /\ has_column c g' = true
       | None => map (cell c) (rows g') = map (cell c) (rows g)
                 /\ has_column c g' = has_column c g
       end.

(** The rolling center line and standard deviation of a series of rates,
    position by position. *)
Definition rolling_cl (w : nat) (xs : list f64) : list f64 :=
  map (fun i => roll_mean w (window w i xs)) (seq 0 (List.length xs)).

Definition rolling_sd (np_sqrt : Q -> Q) (w : nat) (xs : list f64) : list f64 :=
  map (fun i => roll_std np_sqrt w (window w i xs)) (seq 0 (List.length xs)).

Definition ucl (k : Z) (cl sd : f64) : f64 := fadd cl (fmul (f64_of_Z k) sd).
Definition lcl (k : Z) (cl sd : f64) : f64 :=
  clip_lower0 (fsub cl (fmul (f64_of_Z k) sd)).

(** The columns [calc_rolling] assigns, given the group's rates. *)
Definition spc_series (np_sqrt : Q -> Q) (w : nat) (xs : list f64)
  : list (string * list value) :=
  let cl := rolling_cl w xs in
  let sd := rolling_sd np_sqrt w xs in
  [("Rolling_LCL_3STD", map VFloat (map2 (lcl 3) cl sd));
   ("Rolling_UCL_3STD", map VFloat (map2 (ucl 3) cl sd));
   ("Rolling_LCL_2STD", map VFloat (map2 (lcl 2) cl sd));
   ("Rolling_UCL_2STD", map VFloat (map2 (ucl 2) cl sd));
   ("Rolling_LCL_1STD", map VFloat (map2 (lcl 1) cl sd));
   ("Rolling_UCL_1STD", map VFloat (map2 (ucl 1) cl sd));
   ("Rolling_Std", map VFloat sd);
   ("Rolling_CL", map VFloat cl)].

(** The frame [rolling_spc_agg] builds from the frame [d]. *)
Definition spc_frame (np_sqrt : Q -> Q) (window_size : Z) (d : DataFrame)
  : result DataFrame :=
  let! d1 := groupby_apply "Measure" (calc_rolling np_sqrt window_size) d in
  let! f := getcol "frequency" d1 in
  loc_set_scalar (series_eq_str f "Year") spc_cols (VFloat NaN) d1.

(** A row belongs to a category when its Measure is not missing. *)
Definition has_measure (r : Row) : bool := negb (isnull (cell "Measure" r)).

(** [r'] is of the category of [r]. *)
Definition same_measure (r r' : Row) : bool :=
  value_eqb (cell "Measure" r') (cell "Measure" r).

Definition rate (r : Row) : f64 := fnum (cell "Rate" r).

Definition is_year (r : Row) : bool :=
  match cell "frequency" r with
  | VStr u => String.eqb u "Year"
  | _ => false
  end.

(** The rows of the category of [r] among the first [j] rows of [rs]: when
    [r] is row [j], the rows of its category that come before it. *)
Definition prior (rs : list Row) (j : nat) (r : Row) : list Row :=
  filter (same_measure r) (firstn j rs).

(** The last [w] elements (all of them when there are fewer). *)
Definition last_n {A : Type} (w : nat) (l : list A) : list A :=
  skipn (List.length l - w) l.

Definition ucl_col (k : Z) : string := "Rolling_UCL_" ++ str_of_Z k ++ "STD".
Definition lcl_col (k : Z) : string := "Rolling_LCL_" ++ str_of_Z k ++ "STD".

(** Row [r'] is row [r] with center line [cl], standard deviation [sd] and
    the six control limits they give; every other cell, and the index
    label, is that of [r]. *)
Definition row_with_spc (cl sd : f64) (r r' : Row) : Prop :=
  label r' = label r
  /\ (forall c, ~ In c spc_cols -> cell c r' = cell c r)
  /\ cell "Rolling_CL" r' = VFloat cl
  /\ cell "Rolling_Std" r' = VFloat sd
  /\ forall k, In k [1; 2; 3] ->
       cell (ucl_col k) r' = VFloat (ucl k cl sd)
       /\ cell (lcl_col k) r' = VFloat (lcl k cl sd).

Definition numeric_rate (r : Row) : bool := is_some (num_of (cell "Rate" r)).

(** [df.loc[mask_year, spc_cols] = np.nan] on one masked row. *)
Definition null_spc (r : Row) : Row :=
  fold_right (fun c r' => set_cell c (VFloat NaN) r') r spc_cols.

(** The Rate cell holds a finite number. *)
Definition finite_rate (r : Row) : bool :=
  match num_of (cell "Rate" r) with
  | Some (Fin _) => true
  | _ => false
  end.


(** Cell [c] of row [r] is missing. *)
Definition null_cell (c : string) (r : Row) : Prop := cell c r = VFloat NaN.


(** *** Vocabulary for the Period Sorter *)

(** The helper column that holds the sub-period. *)
Definition sub_col (frequency : string) : string :=
  if String.eqb frequency "Quarter" then "QuarterNum" else "MonthNum".

(** The helper columns [sort_by_date] creates. *)
Definition temp_cols (frequency : string) : list string :=
  if String.eqb frequency "Year" then ["Year"] else ["Year"; sub_col frequency].

Definition int_of_cell (v : value) : option Z :=
  match int_cast v with
  | inr (VInt z) => Some z
  | _ => None
  end.

(** The (year, sub-period) a row's Date label stands for, read the way
    [sort_by_date] reads it: the label as one integer for "Year" (sub-period
    0), the two integers around the one ["-"] otherwise. *)
Definition period_key (frequency : string) (r : Row) : option (Z * Z) :=
  if String.eqb frequency "Year" then
    match int_of_cell (cell "Date" r) with
    | Some y => Some (y, 0)
    | None => None
    end
  else
    match cell "Date" r with
    | VStr u =>
        match split_dash u with
        | [a; b] =>
            match int_of_cell (VStr a), int_of_cell (VStr b) with
            | Some y, Some s => Some (y, s)
            | _, _ => None
            end
        | _ => None
        end
    | _ => None
    end.

(** The sort key of a row: Measure, year, sub-period. *)
Definition chron_key (frequency : string) (r : Row) : list value :=
  match period_key frequency r with
  | Some (y, s) => [cell "Measure" r; VInt y; VInt s]
  | None => [cell "Measure" r]
  end.

Definition chron_leb (frequency : string) (r1 r2 : Row) : bool :=
  key_leb (chron_key frequency r1) (chron_key frequency r2).

(** Row [o] is row [r] without the helper columns: same index label, same
    cells in every other column. *)
Definition same_but_temp (frequency : string) (r o : Row) : Prop :=
  label o = label r
  /\ (forall c, ~ In c (temp_cols frequency) -> cell c o = cell c r)
  /\ (forall c, In c (temp_cols frequency) -> lookup c (cells o) = None).

(** Row [r4] is row [r] with the helper columns filled in from its Date
    label. *)
Definition decorated (frequency : string) (r r4 : Row) : Prop :=
  label r4 = label r
  /\ (forall c, ~ In c (temp_cols frequency) -> cell c r4 = cell c r)
  /\ exists y s, period_key frequency r = Some (y, s)
                 /\ cell "Year" r4 = VInt y
                 /\ (String.eqb frequency "Year" = false ->
                     cell (sub_col frequency) r4 = VInt s).

(** What makes a frame fit for [sort_by_date]: Date and Measure columns,
    Measures that can be compared, Date labels of the frequency's format,
    and at least one row unless the frequency is "Year". *)
Definition sortable_frame (frequency : string) (d : DataFrame) : bool :=
  has_column "Date" d && has_column "Measure" d
  && sortable (map (cell "Measure") (rows d))
  && forallb (fun r => is_some (period_key frequency r)) (rows d)
  && (String.eqb frequency "Year" || negb (Nat.eqb (List.length (rows d)) 0)).

(** The three frames of a run of [sort_by_date] on the frame [d]: [d] as the
    run leaves it, the sorted frame, and the frame returned. *)
Definition sort_frames (frequency : string) (d : DataFrame)
  : result (DataFrame * DataFrame * DataFrame) :=
  if String.eqb frequency "Year" then
    let! dcol := getcol "Date" d in
    let! y := astype_int dcol in
    let! d1 := setcol "Year" y d in
    let! d2 := sort_values ["Measure"; "Year"] d1 in
    let! d3 := drop_columns ["Year"] d2 in
    inr (d1, d2, d3)
  else
    let! dcol := getcol "Date" d in
    let! parts := str_split_expand dcol in
    match parts with
    | [p0; p1] =>
        let! d1 := setcol "Year" p0 d in
        let! d2 := setcol (sub_col frequency) p1 d1 in
        let! y := getcol "Year" d2 in
        let! y := astype_int y in
        let! d3 := setcol "Year" y d2 in
        let! q := getcol (sub_col frequency) d3 in
        let! q := astype_int q in
        let! d4 := setcol (sub_col frequency) q d3 in
        let! d5 := sort_values ["Measure"; "Year"; sub_col frequency] d4 in
        let! d6 := drop_columns ["Year"; sub_col frequency] d5 in
        inr (d4, d5, d6)
    | _ => inl (ValueError "Columns must be same length as key")
    end.




(** [df.drop(columns=temp_cols)] on one row. *)
Definition strip_temp (frequency : string) (r : Row) : Row :=
  fold_right del_cell r (temp_cols frequency).


(** *** Vocabulary for the Temporal Aggregator *)

(** The frames [aggregate_dataframe] builds from the frame [d] before it
    sorts: the subset, the aggregated frame with its Rate, and that frame
    with the period column renamed to "Date". *)
Definition agg_frames (date_col : string) (group_by_cols sum_cols : list string)
  (frequency : string) (d : DataFrame) : result (DataFrame * DataFrame * DataFrame) :=
  let group_by_cols :=
    if existsb (String.eqb date_col) group_by_cols
    then group_by_cols else group_by_cols ++ [date_col] in
  let! df_subset := select (group_by_cols ++ sum_cols) d in
  let! agg_df := groupby_sum_reset_index group_by_cols sum_cols df_subset in
  let agg_df := setcol_scalar "frequency" (VStr frequency) agg_df in
  let! n := getcol "Numerator" agg_df in
  let! dn := getcol "Denominator" agg_df in
  let! nd := series_binop fdiv n dn in
  let! m := getcol "Multiplier" agg_df in
  let! rate := series_binop fmul nd m in
  let! agg_df := setcol "Rate" rate agg_df in
  inr (df_subset, agg_df, rename_column date_col "Date" agg_df).

(** The sorted frame with its RowNumber column. *)
Definition with_row_numbers (d : DataFrame) : result DataFrame :=
  let! cc := groupby_cumcount_desc "Measure" d in
  let! rn := series_add_int 1 cc in
  setcol "RowNumber" rn d.



(** *** Vocabulary for the Rate *)

(** The Rate cell of the row is Numerator / Denominator * Multiplier of the
    row, in float64. *)
Definition rate_of_sums (r : Row) : Prop :=
  exists n dn m,
    num_of (cell "Numerator" r) = Some n
    /\ num_of (cell "Denominator" r) = Some dn
    /\ num_of (cell "Multiplier" r) = Some m
    /\ cell "Rate" r = VFloat (fmul (fdiv n dn) m).

(** The Denominator of the row is zero. *)
Definition zero_denominator (r : Row) : bool :=
  match num_of (cell "Denominator" r) with
  | Some (Fin q) => (Qnum q =? 0)
  | _ => false
  end.

(** The columns the Rate is computed from, and the two the Rolling SPC
    Engine reads besides Measure. *)
Definition rate_cols : list string :=
  ["Numerator"; "Denominator"; "Multiplier"; "Rate"; "frequency"].

Definition date_cols : list string := ["Year"; "Quarter"; "Month"].

(** *** Vocabulary for the Period Decomposer *)

(** A timestamp pandas can hold, as far as year and month go. *)
Definition valid_timestamp (t : Timestamp) : bool :=
  (1677 <=? ts_year t) && (ts_year t <=? 2262)
  && (1 <=? ts_month t) && (ts_month t <=? 12).

(** What [to_datetime(..., errors='coerce')] makes of a text or missing
    cell. *)
Definition timestamp_of (to_datetime : string -> option Timestamp) (v : value)
  : option Timestamp :=
  match v with
  | VStr u => to_datetime u
  | _ => None
  end.

(** A cell of the date column: text that parses to a valid timestamp or
    does not parse, or a missing value. *)
Definition date_cell_ok (to_datetime : string -> option Timestamp) (v : value) : bool :=
  match v with
  | VStr u =>
      match to_datetime u with
      | Some t => valid_timestamp t
      | None => true
      end
  | VNone | VFloat NaN => true
  | _ => false
  end.

(** The parsed date column of a frame. *)
Definition dates (to_datetime : string -> option Timestamp) (date_col : string)
  (d : DataFrame) : list (option Timestamp) :=
  map (fun r => timestamp_of to_datetime (cell date_col r)) (rows d).

(** The text of one component (year, quarter, month) of a date. *)
Definition component (float_typed : bool) (f : Timestamp -> Z) (o : option Timestamp)
  : string :=
  match o with
  | Some t => if float_typed then (str_of_Z (f t) ++ ".0")%string else str_of_Z (f t)
  | None => "nan"
  end.

(** The Year, Quarter and Month labels of a date. *)
Definition labels (float_typed : bool) (o : option Timestamp) : string * string * string :=
  let y := component float_typed ts_year o in
  let q := component float_typed quarter_of o in
  let m := component float_typed ts_month o in
  (y, ((y ++ "-") ++ q)%string, ((y ++ "-") ++ zfill 2 m)%string).

Definition digits_of_width (n : nat) (s : string) : bool :=
  (String.length s =? n)%nat && all_digits s.

(** The documented formats: "YYYY", "YYYY-Q", "YYYY-MM". *)
Definition year_format (s : string) : bool := digits_of_width 4 s.

Definition quarter_format (s : string) : bool :=
  match split_dash s with
  | [y; q] => digits_of_width 4 y && digits_of_width 1 q
  | _ => false
  end.

Definition month_format (s : string) : bool :=
  match split_dash s with
  | [y; m] => digits_of_width 4 y && digits_of_width 2 m
  | _ => false
  end.

(** What the Period Sorter's [int] makes of the parts of a label. *)
Definition int_parts (s : string) : list (option Z) := map py_int (split_dash s).

Fixpoint parts_eqb (l : list (option Z)) (zs : list Z) : bool :=
  match l, zs with
  | [], [] => true
  | Some a :: l', z :: zs' => (a =? z) && parts_eqb l' zs'
  | _, _ => false
  end.

Definition no_int (l : list (option Z)) : bool :=
  forallb (fun o => negb (is_some o)) l.

(** The labels of [t] are in the documented formats, and their parts parse
    back to the year, the quarter and the month. *)
Definition documented (t : Timestamp) (l : string * string * string) : bool :=
  let '(y, q, m) := l in
  year_format y && quarter_format q && month_format m
  && parts_eqb (int_parts y) [ts_year t]
  && parts_eqb (int_parts q) [ts_year t; quarter_of t]
  && parts_eqb (int_parts m) [ts_year t; ts_month t].

(** The labels are in none of the documented formats, and [int] raises on
    every part of each and on each as a whole. *)
Definition unusable (l : string * string * string) : bool :=
  let '(y, q, m) := l in
  negb (year_format y) && negb (quarter_format q) && negb (month_format m)
  && no_int (int_parts y) && no_int (int_parts q) && no_int (int_parts m)
  && no_int [py_int y; py_int q; py_int m].

Definition labels_check (y m : Z) : bool :=
  let t := mkTimestamp y m 1 in
  documented t (labels false (Some t)) && unusable (labels true (Some t)).

Definition valid_years : list Z := map Z.of_nat (seq 1677 586).
Definition valid_months : list Z := map Z.of_nat (seq 1 12).

(** *** Vocabulary for the quarter labels *)

Definition is_quarter (r : Row) : bool :=
  match cell "frequency" r with
  | VStr u => String.eqb u "Quarter"
  | _ => false
  end.

(** A text cell or a missing one: what the [.str] accessor takes. *)
Definition text_or_null (v : value) : bool := is_str v || isnull v.

(** [.str.replace(r"-(\d+)", r"-Q\1", regex=True)] on one cell. *)
Definition relabel (v : value) : value :=
  match v with
  | VStr u => VStr (sub_dash_digits u)
  | _ => VFloat NaN
  end.

(** A row of the quarterly frame after the relabelling. *)
Definition relabel_row (r : Row) : Row :=
  if is_quarter r then set_cell "Date" (relabel (cell "Date" r)) r else r.

(** What the Rolling SPC Engine needs of a frame to return: the three
    columns it reads, numbers (or missing values) as Rates, and no index
    label twice among the rows that have a Measure. *)
Definition spc_ready (d : DataFrame) : bool :=
  has_column "Measure" d && has_column "Rate" d && has_column "frequency" d
  && forallb numeric_rate (rows d)
  && nodupb (map label (filter has_measure (rows d))).

(** A row of the pipeline's output for the frequency [f]: it has a Measure,
    is tagged [f], its Rate is Numerator / Denominator * Multiplier, and
    when [f] is "Year" its eight SPC fields are missing. *)
Definition pipeline_row (f : string) (row : Row) : Prop :=
  has_measure row = true
  /\ cell "frequency" row = VStr f
  /\ rate_of_sums row
  /\ (f = "Year" -> forall c, In c spc_cols -> null_cell c row).

(** * Properties *)

(** ** Running store computations *)

Lemma nth_error_snoc_old {A : Type} (h : list A) (x : A) (r : nat) (d : A) :
  nth_error h r = Some d -> nth_error (h ++ [x]) r = Some d.
Proof.
  intros H. rewrite nth_error_app1; [exact H|].
  apply nth_error_Some. congruence.
Qed.

Lemma nth_error_snoc_new {A : Type} (h : list A) (x : A) :
  nth_error (h ++ [x]) (List.length h) = Some x.
Proof.
  rewrite nth_error_app2 by lia. now rewrite Nat.sub_diag.
Qed.

Lemma update_snoc_new {A : Type} (h : list A) (x y : A) :
  update (List.length h) y (h ++ [x]) = h ++ [y].
Proof.
  induction h as [|a h IH]; simpl; [reflexivity|]. now rewrite IH.
Qed.

Lemma update_snoc_old {A : Type} (h : list A) (x y : A) (r : nat) :
  (r < List.length h)%nat -> update r y (h ++ [x]) = update r y h ++ [x].
Proof.
  revert r. induction h as [|a h IH]; simpl; intros r Hr; [lia|].
  destruct r as [|r]; simpl; [reflexivity|]. rewrite IH by lia. reflexivity.
Qed.

Lemma length_update {A : Type} (r : nat) (y : A) (h : list A) :
  List.length (update r y h) = List.length h.
Proof.
  revert r. induction h as [|a h IH]; intros [|r]; simpl; auto.
Qed.

Lemma nth_error_update_same {A : Type} (r : nat) (y : A) (h : list A) :
  (r < List.length h)%nat -> nth_error (update r y h) r = Some y.
Proof.
  revert r. induction h as [|a h IH]; intros [|r]; simpl; intros Hr; try lia; auto.
  apply IH. lia.
Qed.

Lemma nth_error_update_other {A : Type} (r r' : nat) (y : A) (h : list A) :
  r <> r' -> nth_error (update r y h) r' = nth_error h r'.
Proof.
  revert r r'. induction h as [|a h IH]; intros [|r] [|r']; simpl; intros Hr;
    try congruence; auto.
Qed.

Lemma bind_inr {A B : Type} (m : M A) (k : A -> M B) (h h' : store) (a : A) :
  m h = inr (a, h') -> bind m k h = k a h'.
Proof. unfold bind. now intros ->. Qed.

Lemma bind_inl {A B : Type} (m : M A) (k : A -> M B) (h : store) (e : exn) :
  m h = inl e -> bind m k h = inl e.
Proof. unfold bind. now intros ->. Qed.

Lemma bind_lift {A B : Type} (x : result A) (k : A -> M B) (h : store) :
  bind (lift x) k h = match x with inl e => inl e | inr a => k a h end.
Proof. unfold bind, lift. now destruct x. Qed.

Lemma bind_read {B : Type} (r : ref) (d : DataFrame) (k : DataFrame -> M B) (h : store) :
  nth_error h r = Some d -> bind (read r) k h = k d h.
Proof. unfold bind, read. now intros ->. Qed.

Lemma derive_run (f : DataFrame -> result DataFrame) (r : ref) (d : DataFrame) (h : store) :
  nth_error h r = Some d ->
  derive f r h = match f d with
                 | inl e => inl e
                 | inr d' => inr (List.length h, h ++ [d'])
                 end.
Proof.
  intros H. unfold derive. rewrite (bind_read _ _ _ _ H), bind_lift.
  now destruct (f d).
Qed.

Lemma modify_run (f : DataFrame -> result DataFrame) (r : ref) (d : DataFrame) (h : store) :
  nth_error h r = Some d ->
  modify f r h = match f d with
                 | inl e => inl e
                 | inr d' => inr (tt, update r d' h)
                 end.
Proof.
  intros H. unfold modify. rewrite (bind_read _ _ _ _ H), bind_lift.
  now destruct (f d).
Qed.

Lemma getitem_run (r : ref) (c : string) (d : DataFrame) (h : store) :
  nth_error h r = Some d ->
  getitem r c h = match getcol c d with
                  | inl e => inl e
                  | inr s => inr (s, h)
                  end.
Proof.
  intros H. unfold getitem. rewrite (bind_read _ _ _ _ H). reflexivity.
Qed.

Lemma setitem_run (r : ref) (c : string) (s : list value) (d : DataFrame) (h : store) :
  nth_error h r = Some d ->
  setitem r c s h = match setcol c s d with
                    | inl e => inl e
                    | inr d' => inr (tt, update r d' h)
                    end.
Proof.
  intros H. unfold setitem. rewrite (bind_read _ _ _ _ H), bind_lift.
  now destruct (setcol c s d).
Qed.

(** ** Columns *)

Lemma existsb_eqb_In (c : string) (cols : list string) :
  existsb (String.eqb c) cols = true <-> In c cols.
Proof.
  rewrite existsb_exists. split.
  - intros (x & Hx & He). apply String.eqb_eq in He. now subst.
  - intros H. exists c. split; [exact H|apply String.eqb_refl].
Qed.

Lemma In_add_column (c x : string) (cols : list string) :
  In x (add_column c cols) <-> In x cols \/ x = c.
Proof.
  unfold add_column. destruct (existsb (String.eqb c) cols) eqn:E.
  - apply existsb_eqb_In in E. split; [auto|]. intros [H| ->]; assumption.
  - rewrite in_app_iff. simpl. intuition.
Qed.

Lemma In_add_columns (x : string) (cs cols : list string) :
  In x (fold_left (fun a c => add_column c a) cs cols) <-> In x cols \/ In x cs.
Proof.
  revert cols. induction cs as [|c cs IH]; simpl; intros cols.
  - intuition.
  - rewrite IH, In_add_column. intuition.
Qed.

(** ** Cells *)

Lemma lookup_set_kv_same (c : string) (v : value) (kv : list (string * value)) :
  lookup c (set_kv c v kv) = Some v.
Proof.
  induction kv as [|[k w] kv IH]; simpl.
  - now rewrite String.eqb_refl.
  - destruct (String.eqb c k) eqn:E; simpl; rewrite E; auto.
Qed.

Lemma lookup_set_kv_other (c c' : string) (v : value) (kv : list (string * value)) :
  String.eqb c' c = false -> lookup c' (set_kv c v kv) = lookup c' kv.
Proof.
  intros H. induction kv as [|[k w] kv IH]; simpl.
  - now rewrite H.
  - destruct (String.eqb c k) eqn:E; simpl.
    + apply String.eqb_eq in E. subst k. now rewrite H.
    + now rewrite IH.
Qed.

Lemma cell_set_cell_same (c : string) (v : value) (r : Row) :
  cell c (set_cell c v r) = v.
Proof. unfold cell, set_cell. simpl. now rewrite lookup_set_kv_same. Qed.

Lemma cell_set_cell_other (c c' : string) (v : value) (r : Row) :
  String.eqb c' c = false -> cell c' (set_cell c v r) = cell c' r.
Proof. intros H. unfold cell, set_cell. simpl. now rewrite lookup_set_kv_other. Qed.

Lemma label_set_cell (c : string) (v : value) (r : Row) :
  label (set_cell c v r) = label r.
Proof. reflexivity. Qed.

Lemma lookup_del_same (c : string) (kv : list (string * value)) :
  lookup c (filter (fun kv => negb (String.eqb c (fst kv))) kv) = None.
Proof.
  induction kv as [|[k w] kv IH]; simpl; [reflexivity|].
  destruct (String.eqb c k) eqn:E; simpl; [exact IH|]. now rewrite E.
Qed.

Lemma lookup_del_other (c c' : string) (kv : list (string * value)) :
  String.eqb c' c = false ->
  lookup c' (filter (fun kv => negb (String.eqb c (fst kv))) kv) = lookup c' kv.
Proof.
  intros H. induction kv as [|[k w] kv IH]; simpl; [reflexivity|].
  destruct (String.eqb c k) eqn:E; simpl.
  - apply String.eqb_eq in E. subst k. now rewrite H.
  - now rewrite IH.
Qed.

Lemma cell_del_cell_other (c c' : string) (r : Row) :
  String.eqb c' c = false -> cell c' (del_cell c r) = cell c' r.
Proof. intros H. unfold cell, del_cell. simpl. now rewrite lookup_del_other. Qed.

Lemma label_del_cell (c : string) (r : Row) : label (del_cell c r) = label r.
Proof. reflexivity. Qed.

(** ** Series and columns *)

Lemma zip_set_map2 (c : string) (vs : list value) (rs : list Row) :
  List.length vs = List.length rs ->
  zip_set c vs rs = map2 (set_cell c) vs rs.
Proof.
  revert rs. induction vs as [|v vs IH]; intros [|r rs]; simpl; intros H;
    try discriminate; [reflexivity|]. now rewrite IH by lia.
Qed.

Lemma length_map2 {A B C : Type} (f : A -> B -> C) (l1 : list A) (l2 : list B) :
  List.length l1 = List.length l2 -> List.length (map2 f l1 l2) = List.length l2.
Proof.
  revert l2. induction l1 as [|a l1 IH]; intros [|b l2]; simpl; intros H;
    try discriminate; [reflexivity|]. now rewrite IH by lia.
Qed.

Lemma nth_error_map2 {A B C : Type} (f : A -> B -> C) (l1 : list A) (l2 : list B)
  (i : nat) (a : A) (b : B) :
  nth_error l1 i = Some a -> nth_error l2 i = Some b ->
  nth_error (map2 f l1 l2) i = Some (f a b).
Proof.
  revert l1 l2. induction i as [|i IH]; intros [|x l1] [|y l2]; simpl;
    try discriminate.
  - now intros [= ->] [= ->].
  - apply IH.
Qed.

Lemma In_map2 {A B C : Type} (f : A -> B -> C) (l1 : list A) (l2 : list B) (z : C) :
  In z (map2 f l1 l2) ->
  exists i a b, nth_error l1 i = Some a /\ nth_error l2 i = Some b /\ z = f a b.
Proof.
  revert l2. induction l1 as [|x l1 IH]; intros [|y l2]; simpl; try tauto.
  intros [<-|H].
  - now exists 0%nat, x, y.
  - destruct (IH _ H) as (i & a & b & Ha & Hb & ->). now exists (S i), a, b.
Qed.

Lemma map_map2 {A B C D : Type} (g : C -> D) (f : A -> B -> C) (l1 : list A) (l2 : list B) :
  map g (map2 f l1 l2) = map2 (fun a b => g (f a b)) l1 l2.
Proof.
  revert l2. induction l1 as [|a l1 IH]; intros [|b l2]; simpl; try reflexivity.
  now rewrite IH.
Qed.

Lemma map2_fst {A B : Type} (l1 : list A) (l2 : list B) :
  List.length l1 = List.length l2 -> map2 (fun a _ => a) l1 l2 = l1.
Proof.
  revert l2. induction l1 as [|a l1 IH]; intros [|b l2]; simpl; intros H;
    try discriminate; [reflexivity|]. now rewrite IH by lia.
Qed.

Lemma map2_snd_map {A B C : Type} (g : B -> C) (l1 : list A) (l2 : list B) :
  List.length l1 = List.length l2 -> map2 (fun _ b => g b) l1 l2 = map g l2.
Proof.
  revert l2. induction l1 as [|a l1 IH]; intros [|b l2]; simpl; intros H;
    try discriminate; [reflexivity|]. now rewrite IH by lia.
Qed.

Lemma map2_ext {A B C : Type} (f g : A -> B -> C) (l1 : list A) (l2 : list B) :
  (forall a b, f a b = g a b) -> map2 f l1 l2 = map2 g l1 l2.
Proof.
  intros H. revert l2. induction l1 as [|a l1 IH]; intros [|b l2]; simpl;
    try reflexivity. now rewrite H, IH.
Qed.

Lemma mapM_inr {A B : Type} (f : A -> result B) (g : A -> B) (l : list A) :
  (forall a, In a l -> f a = inr (g a)) -> mapM f l = inr (map g l).
Proof.
  induction l as [|a l IH]; simpl; intros H; [reflexivity|].
  rewrite (H a) by now left. simpl. rewrite IH by (intros; apply H; now right).
  reflexivity.
Qed.

Lemma mapM_length {A B : Type} (f : A -> result B) (l : list A) (l' : list B) :
  mapM f l = inr l' -> List.length l' = List.length l.
Proof.
  revert l'. induction l as [|a l IH]; simpl; intros l' H.
  - now injection H as <-.
  - destruct (f a); [discriminate|]. simpl in H.
    destruct (mapM f l); [discriminate|]. simpl in H. injection H as <-.
    simpl. now rewrite (IH _ eq_refl).
Qed.

Lemma mapM_nth_error {A B : Type} (f : A -> result B) (l : list A) (l' : list B)
  (i : nat) (a : A) :
  mapM f l = inr l' -> nth_error l i = Some a ->
  exists b, f a = inr b /\ nth_error l' i = Some b.
Proof.
  revert l' i. induction l as [|x l IH]; simpl; intros l' i H Hi.
  - destruct i; discriminate.
  - destruct (f x) as [e|b] eqn:Hx; [discriminate|]. simpl in H.
    destruct (mapM f l) as [e|bs] eqn:Hl; [discriminate|]. simpl in H.
    injection H as <-. destruct i as [|i]; simpl in *.
    + injection Hi as <-. now exists b.
    + now apply IH.
Qed.

Lemma mapM_In {A B : Type} (f : A -> result B) (l : list A) (l' : list B) (b : B) :
  mapM f l = inr l' -> In b l' -> exists a, In a l /\ f a = inr b.
Proof.
  revert l'. induction l as [|x l IH]; simpl; intros l' H Hb.
  - injection H as <-. destruct Hb.
  - destruct (f x) as [e|b0] eqn:Hx; [discriminate|]. simpl in H.
    destruct (mapM f l) as [e|bs] eqn:Hl; [discriminate|]. simpl in H.
    injection H as <-. destruct Hb as [<-|Hb].
    + exists x. auto.
    + destruct (IH _ eq_refl Hb) as (a & Ha & Hf). exists a. auto.
Qed.

Lemma getcol_setcol_same (c : string) (vs : list value) (df df' : DataFrame) :
  setcol c vs df = inr df' -> getcol c df' = inr vs.
Proof.
  unfold setcol, getcol, has_column.
  destruct (_ =? _)%nat eqn:E; [|discriminate]. intros [= <-].
  apply Nat.eqb_eq in E. cbn [columns rows].
  replace (existsb (String.eqb c) (add_column c (columns df))) with true
    by (symmetry; apply existsb_eqb_In, In_add_column; now right).
  f_equal. rewrite zip_set_map2, map_map2 by exact E.
  rewrite (map2_ext _ (fun a _ => a)) by (intros; apply cell_set_cell_same).
  now apply map2_fst.
Qed.

Lemma map_cell_setcol_other (c c' : string) (vs : list value) (df df' : DataFrame) :
  setcol c vs df = inr df' -> String.eqb c' c = false ->
  map (cell c') (rows df') = map (cell c') (rows df).
Proof.
  unfold setcol. destruct (_ =? _)%nat eqn:E; [|discriminate]. intros [= <-] Hc.
  apply Nat.eqb_eq in E. cbn [rows]. rewrite zip_set_map2, map_map2 by exact E.
  rewrite (map2_ext _ (fun _ r => cell c' r))
    by (intros; now apply cell_set_cell_other).
  now apply map2_snd_map.
Qed.

Lemma has_column_setcol (c c' : string) (vs : list value) (df df' : DataFrame) :
  setcol c vs df = inr df' ->
  has_column c' df' = has_column c' df || String.eqb c' c.
Proof.
  unfold setcol. destruct (_ =? _)%nat; [|discriminate]. intros [= <-].
  unfold has_column. cbn [columns].
  destruct (existsb (String.eqb c') (columns df)) eqn:E1; simpl.
  - apply existsb_eqb_In, In_add_column. left. now apply existsb_eqb_In.
  - destruct (String.eqb c' c) eqn:E2.
    + apply String.eqb_eq in E2. subst. apply existsb_eqb_In, In_add_column. now right.
    + apply not_true_is_false. intros H. apply existsb_eqb_In, In_add_column in H.
      destruct H as [H| ->].
      * apply existsb_eqb_In in H. congruence.
      * rewrite String.eqb_refl in E2. discriminate.
Qed.

Lemma length_rows_setcol (c : string) (vs : list value) (df df' : DataFrame) :
  setcol c vs df = inr df' -> List.length (rows df') = List.length (rows df).
Proof.
  unfold setcol. destruct (_ =? _)%nat eqn:E; [|discriminate]. intros [= <-].
  apply Nat.eqb_eq in E. cbn [rows]. rewrite zip_set_map2 by exact E.
  now apply length_map2.
Qed.

Lemma setcol_ok (c : string) (vs : list value) (df : DataFrame) :
  List.length vs = List.length (rows df) ->
  setcol c vs df = inr (mkDF (add_column c (columns df)) (map2 (set_cell c) vs (rows df))).
Proof.
  intros H. unfold setcol. rewrite (proj2 (Nat.eqb_eq _ _) H).
  now rewrite zip_set_map2.
Qed.

(** ** Frames that extend a frame by assigned columns *)

Lemma extends_refl (g : DataFrame) : extends g g [].
Proof. split; [reflexivity|]. intros c. simpl. auto. Qed.

Lemma extends_length (g g' : DataFrame) cs :
  extends g g' cs -> List.length (rows g') = List.length (rows g).
Proof.
  intros [H _]. rewrite <- (length_map label (rows g')), H. apply length_map.
Qed.

Lemma extends_setcol (g gk : DataFrame) cs (c : string) (vs : list value) :
  extends g gk cs -> List.length vs = List.length (rows g) ->
  exists gk', setcol c vs gk = inr gk' /\ extends g gk' ((c, vs) :: cs).
Proof.
  intros E Hlen. pose proof (extends_length _ _ _ E) as Hl.
  assert (Hs : setcol c vs gk
               = inr (mkDF (add_column c (columns gk)) (map2 (set_cell c) vs (rows gk))))
    by (apply setcol_ok; congruence).
  eexists. split; [exact Hs|]. destruct E as [Elab Ecol]. split.
  - cbn [rows]. rewrite map_map2.
    rewrite (map2_ext _ (fun _ r => label r)) by reflexivity.
    rewrite map2_snd_map by congruence. exact Elab.
  - intros c'. cbn [lookup]. destruct (String.eqb c' c) eqn:Ec.
    + apply String.eqb_eq in Ec. subst c'. split.
      * pose proof (getcol_setcol_same _ _ _ _ Hs) as G. unfold getcol in G.
        destruct (has_column c _); [now injection G|discriminate].
      * rewrite (has_column_setcol _ _ _ _ _ Hs), String.eqb_refl. apply orb_true_r.
    + specialize (Ecol c'). rewrite (map_cell_setcol_other _ _ _ _ _ Hs Ec).
      rewrite (has_column_setcol _ _ _ _ _ Hs), Ec, orb_false_r.
      destruct (lookup c' cs); exact Ecol.
Qed.

Lemma extends_getcol (g gk : DataFrame) cs (c : string) (vs : list value) :
  extends g gk cs -> lookup c cs = Some vs -> getcol c gk = inr vs.
Proof.
  intros [_ E] H. specialize (E c). rewrite H in E. destruct E as [E1 E2].
  unfold getcol. now rewrite E2, E1.
Qed.

Lemma extends_getcol_old (g gk : DataFrame) cs (c : string) :
  extends g gk cs -> lookup c cs = None -> has_column c g = true ->
  getcol c gk = inr (map (cell c) (rows g)).
Proof.
  intros [_ E] H Hc. specialize (E c). rewrite H in E. destruct E as [E1 E2].
  unfold getcol. now rewrite E2, Hc, E1.
Qed.

Lemma f64_values_VFloat (e : exn) (xs : list f64) :
  f64_values e (map VFloat xs) = inr xs.
Proof.
  unfold f64_values. induction xs as [|x xs IH]; simpl; [reflexivity|].
  now rewrite IH.
Qed.

Lemma map2_map_r {A B C D : Type} (f : A -> C -> D) (g : B -> C) (l1 : list A) (l2 : list B) :
  map2 f l1 (map g l2) = map2 (fun a b => f a (g b)) l1 l2.
Proof.
  revert l2. induction l1 as [|a l1 IH]; intros [|b l2]; simpl; try reflexivity.
  now rewrite IH.
Qed.

Lemma cl_plus_extends (g gk : DataFrame) cs (k : Z) (cl sd : list f64) :
  extends g gk cs ->
  lookup "Rolling_CL" cs = Some (map VFloat cl) ->
  lookup "Rolling_Std" cs = Some (map VFloat sd) ->
  cl_plus k gk = inr (map VFloat (map2 (ucl k) cl sd)).
Proof.
  intros E Hcl Hsd. unfold cl_plus.
  rewrite (extends_getcol _ _ _ _ _ E Hcl), (extends_getcol _ _ _ _ _ E Hsd).
  cbn [rbind]. unfold series_scale, series_binop.
  rewrite !f64_values_VFloat. cbn [rbind].
  rewrite <- (map_map (fun x => fmul (f64_of_Z k) x) VFloat).
  rewrite !f64_values_VFloat. cbn [rbind]. now rewrite map2_map_r.
Qed.

Lemma cl_minus_clipped_extends (g gk : DataFrame) cs (k : Z) (cl sd : list f64) :
  extends g gk cs ->
  lookup "Rolling_CL" cs = Some (map VFloat cl) ->
  lookup "Rolling_Std" cs = Some (map VFloat sd) ->
  cl_minus_clipped k gk = inr (map VFloat (map2 (lcl k) cl sd)).
Proof.
  intros E Hcl Hsd. unfold cl_minus_clipped.
  rewrite (extends_getcol _ _ _ _ _ E Hcl), (extends_getcol _ _ _ _ _ E Hsd).
  cbn [rbind]. unfold series_scale, series_binop, series_clip_lower0.
  rewrite !f64_values_VFloat. cbn [rbind].
  rewrite <- (map_map (fun x => fmul (f64_of_Z k) x) VFloat).
  rewrite !f64_values_VFloat. cbn [rbind].
  rewrite !f64_values_VFloat. cbn [rbind].
  rewrite <- (map_map clip_lower0 VFloat). do 2 f_equal.
  rewrite map_map2, map2_map_r. reflexivity.
Qed.

Lemma rolling_left_ok (agg : nat -> list f64 -> f64) (w : Z) (s : list value) (xs : list f64) :
  0 <= w ->
  f64_values (DataError "No numeric types to aggregate") s = inr xs ->
  rolling_left agg w w s
  = inr (map VFloat (map (fun i => agg (Z.to_nat w) (window (Z.to_nat w) i xs))
                         (seq 0 (List.length xs)))).
Proof.
  intros Hw Hx. unfold rolling_left.
  rewrite (proj2 (Z.ltb_ge w 0) Hw), Z.ltb_irrefl, Hx. cbn [rbind].
  now rewrite map_map.
Qed.

Lemma length_rolling_cl (w : nat) (xs : list f64) :
  List.length (rolling_cl w xs) = List.length xs.
Proof. unfold rolling_cl. now rewrite length_map, length_seq. Qed.

Lemma length_rolling_sd (np_sqrt : Q -> Q) (w : nat) (xs : list f64) :
  List.length (rolling_sd np_sqrt w xs) = List.length xs.
Proof. unfold rolling_sd. now rewrite length_map, length_seq. Qed.

(** What [calc_rolling] does to a group whose rates are numbers. *)
Lemma calc_rolling_spec (np_sqrt : Q -> Q) (w : Z) (g : DataFrame) (xs : list f64) :
  has_column "Rate" g = true -> 0 <= w ->
  f64_values (DataError "No numeric types to aggregate") (map (cell "Rate") (rows g)) = inr xs ->
  exists g', calc_rolling np_sqrt w g = inr g'
             /\ extends g g' (spc_series np_sqrt (Z.to_nat w) xs).
Proof.
  intros Hc Hw Hx.
  assert (Hn : List.length xs = List.length (rows g))
    by (rewrite (mapM_length _ _ _ Hx); apply length_map).
  assert (Hband : forall k, List.length (map VFloat (map2 (ucl k)
             (rolling_cl (Z.to_nat w) xs) (rolling_sd np_sqrt (Z.to_nat w) xs)))
           = List.length (rows g)).
  { intros k. rewrite length_map, length_map2, length_rolling_sd; auto.
    now rewrite length_rolling_cl, length_rolling_sd. }
  assert (Hband' : forall k, List.length (map VFloat (map2 (lcl k)
             (rolling_cl (Z.to_nat w) xs) (rolling_sd np_sqrt (Z.to_nat w) xs)))
           = List.length (rows g)).
  { intros k. rewrite length_map, length_map2, length_rolling_sd; auto.
    now rewrite length_rolling_cl, length_rolling_sd. }
  unfold calc_rolling, getcol at 1. rewrite Hc. cbn [rbind].
  rewrite (rolling_left_ok _ _ _ _ Hw Hx). cbn [rbind].
  fold (rolling_cl (Z.to_nat w) xs).
  destruct (extends_setcol g g [] "Rolling_CL" (map VFloat (rolling_cl (Z.to_nat w) xs))
              (extends_refl g)) as (g1 & -> & E1).
  { now rewrite length_map, length_rolling_cl. }
  cbn [rbind]. rewrite (extends_getcol_old _ _ _ "Rate" E1 eq_refl Hc). cbn [rbind].
  rewrite (rolling_left_ok _ _ _ _ Hw Hx). cbn [rbind].
  fold (rolling_sd np_sqrt (Z.to_nat w) xs).
  destruct (extends_setcol _ _ _ "Rolling_Std" (map VFloat (rolling_sd np_sqrt (Z.to_nat w) xs))
              E1) as (g2 & -> & E2).
  { now rewrite length_map, length_rolling_sd. }
  cbn [rbind]. rewrite (cl_plus_extends _ _ _ 1 _ _ E2 eq_refl eq_refl). cbn [rbind].
  destruct (extends_setcol _ _ _ "Rolling_UCL_1STD" _ E2 (Hband 1)) as (g3 & -> & E3).
  cbn [rbind]. rewrite (cl_minus_clipped_extends _ _ _ 1 _ _ E3 eq_refl eq_refl). cbn [rbind].
  destruct (extends_setcol _ _ _ "Rolling_LCL_1STD" _ E3 (Hband' 1)) as (g4 & -> & E4).
  cbn [rbind]. rewrite (cl_plus_extends _ _ _ 2 _ _ E4 eq_refl eq_refl). cbn [rbind].
  destruct (extends_setcol _ _ _ "Rolling_UCL_2STD" _ E4 (Hband 2)) as (g5 & -> & E5).
  cbn [rbind]. rewrite (cl_minus_clipped_extends _ _ _ 2 _ _ E5 eq_refl eq_refl). cbn [rbind].
  destruct (extends_setcol _ _ _ "Rolling_LCL_2STD" _ E5 (Hband' 2)) as (g6 & -> & E6).
  cbn [rbind]. rewrite (cl_plus_extends _ _ _ 3 _ _ E6 eq_refl eq_refl). cbn [rbind].
  destruct (extends_setcol _ _ _ "Rolling_UCL_3STD" _ E6 (Hband 3)) as (g7 & -> & E7).
  cbn [rbind]. rewrite (cl_minus_clipped_extends _ _ _ 3 _ _ E7 eq_refl eq_refl). cbn [rbind].
  destruct (extends_setcol _ _ _ "Rolling_LCL_3STD" _ E7 (Hband' 3)) as (g8 & -> & E8).
  cbn [rbind]. exists g8. split; [reflexivity|exact E8].
Qed.

(** A run of [calc_rolling] that returns had a Rate column of numbers and a
    window size that is not negative. *)
Lemma calc_rolling_inv (np_sqrt : Q -> Q) (w : Z) (g g' : DataFrame) :
  calc_rolling np_sqrt w g = inr g' ->
  has_column "Rate" g = true /\ 0 <= w
  /\ exists xs, f64_values (DataError "No numeric types to aggregate")
                  (map (cell "Rate") (rows g)) = inr xs.
Proof.
  unfold calc_rolling, getcol at 1.
  destruct (has_column "Rate" g); [|discriminate]. cbn [rbind].
  unfold rolling_left at 1. destruct (w <? 0) eqn:Hw; [discriminate|].
  rewrite Z.ltb_irrefl.
  destruct (f64_values _ _) as [e|xs]; [discriminate|]. intros _.
  apply Z.ltb_ge in Hw. eauto.
Qed.

(** ** Equality of keys *)

Lemma inject_Z_eq (x y : Z) : Qeq_bool (inject_Z x) (inject_Z y) = true -> x = y.
Proof.
  intros H. apply Qeq_bool_iff in H. unfold Qeq in H. simpl in H. lia.
Qed.

Lemma f64_of_Z_eq (x y : Z) : f64_eqb (f64_of_Z x) (f64_of_Z y) = true -> x = y.
Proof. apply inject_Z_eq. Qed.

Lemma f64_eqb_sym (x y : f64) : f64_eqb x y = f64_eqb y x.
Proof.
  destruct x, y; simpl; try reflexivity.
  destruct (Qeq_bool q q0) eqn:E1, (Qeq_bool q0 q) eqn:E2; try reflexivity.
  - apply Qeq_bool_iff, Qeq_sym, Qeq_bool_iff in E1. congruence.
  - apply Qeq_bool_iff, Qeq_sym, Qeq_bool_iff in E2. congruence.
Qed.

Lemma f64_eqb_trans (x y z : f64) :
  f64_eqb x y = true -> f64_eqb y z = true -> f64_eqb x z = true.
Proof.
  destruct x, y, z; simpl; try discriminate; try reflexivity.
  intros H1 H2. apply Qeq_bool_iff in H1, H2. apply Qeq_bool_iff.
  now rewrite H1.
Qed.

Lemma value_eqb_sym (a b : value) : value_eqb a b = value_eqb b a.
Proof.
  destruct a as [s|x|x|[t|]|], b as [s'|y|y|[t'|]|]; cbn [value_eqb]; try reflexivity.
  - apply String.eqb_sym.
  - apply Z.eqb_sym.
  - apply f64_eqb_sym.
  - apply f64_eqb_sym.
  - apply f64_eqb_sym.
  - rewrite (Z.eqb_sym (ts_year t)), (Z.eqb_sym (ts_month t)), (Z.eqb_sym (ts_day t)).
    reflexivity.
Qed.

Lemma value_eqb_trans (a b c : value) :
  value_eqb a b = true -> value_eqb b c = true -> value_eqb a c = true.
Proof.
  destruct a as [s|x|x|[t|]|], b as [s'|y|y|[t'|]|], c as [s''|z|z|[t''|]|];
    cbn [value_eqb]; try discriminate; try (intros; eapply f64_eqb_trans; eassumption).
  - intros H1 H2. apply String.eqb_eq in H1, H2. subst. apply String.eqb_refl.
  - intros H1 H2. apply Z.eqb_eq in H1, H2. subst. apply Z.eqb_refl.
  - intros H1 H2. apply Z.eqb_eq in H1. now subst.
  - intros H1 H2. apply Z.eqb_eq.
    apply f64_of_Z_eq. exact (f64_eqb_trans _ _ _ H1 H2).
  - intros H1 H2. apply Z.eqb_eq in H2. now subst.
  - intros H1 H2.
    repeat match goal with H : (_ && _)%bool = true |- _ => apply andb_prop in H; destruct H end.
    repeat match goal with H : (_ =? _) = true |- _ => apply Z.eqb_eq in H end.
    repeat (apply andb_true_intro; split); apply Z.eqb_eq; congruence.
Qed.

Lemma Qeq_bool_refl (q : Q) : Qeq_bool q q = true.
Proof. apply Qeq_bool_iff. reflexivity. Qed.

Lemma value_eqb_refl (a : value) : isnull a = false -> value_eqb a a = true.
Proof.
  destruct a as [s|x|x|[t|]|]; cbn [value_eqb isnull]; try discriminate.
  - intros _. apply String.eqb_refl.
  - intros _. apply Z.eqb_refl.
  - destruct x; try discriminate; intros _; try reflexivity. apply Qeq_bool_refl.
  - intros _. now rewrite !Z.eqb_refl.
Qed.

Lemma value_eqb_notnull (a b : value) : value_eqb a b = true -> isnull a = false.
Proof.
  destruct a as [s|x|x|[t|]|]; cbn [isnull]; try reflexivity.
  - destruct x; try reflexivity. destruct b; discriminate.
  - destruct b as [s'|y|y|[t'|]|]; discriminate.
  - destruct b; discriminate.
Qed.

(** Values equal to one another are equal to the same values. *)
Lemma value_eqb_cong (a b x : value) :
  value_eqb a b = true -> value_eqb x a = value_eqb x b.
Proof.
  intros H. destruct (value_eqb x a) eqn:E1, (value_eqb x b) eqn:E2; try reflexivity.
  - rewrite (value_eqb_trans _ _ _ E1 H) in E2. discriminate.
  - rewrite value_eqb_sym in H. rewrite (value_eqb_trans _ _ _ E2 H) in E1. discriminate.
Qed.

Lemma key_eqb_sym (k1 k2 : list value) : key_eqb k1 k2 = key_eqb k2 k1.
Proof.
  revert k2. induction k1 as [|a k1 IH]; intros [|b k2]; simpl; try reflexivity.
  now rewrite value_eqb_sym, IH.
Qed.

Lemma key_eqb_trans (k1 k2 k3 : list value) :
  key_eqb k1 k2 = true -> key_eqb k2 k3 = true -> key_eqb k1 k3 = true.
Proof.
  revert k2 k3. induction k1 as [|a k1 IH]; intros [|b k2] [|c k3]; simpl;
    try discriminate; try reflexivity.
  intros H1 H2. apply andb_prop in H1, H2. destruct H1 as [H1 H1'], H2 as [H2 H2'].
  rewrite (value_eqb_trans _ _ _ H1 H2), (IH _ _ H1' H2'). reflexivity.
Qed.

Lemma key_eqb_refl (k : list value) : no_null k = true -> key_eqb k k = true.
Proof.
  induction k as [|a k IH]; simpl; [reflexivity|]. intros H.
  apply andb_prop in H. destruct H as [H1 H2].
  rewrite value_eqb_refl, IH; auto. now apply negb_true_iff.
Qed.

(** ** Sorting *)

Section SortingFacts.
Context {A : Type} (leb : A -> A -> bool).

Lemma insert_by_perm (x : A) (l : list A) : Permutation (insert_by leb x l) (x :: l).
Proof.
  induction l as [|y l IH]; simpl; [reflexivity|].
  destruct (leb x y); [reflexivity|].
  rewrite IH. apply perm_swap.
Qed.

Lemma stable_sort_perm (l : list A) : Permutation (stable_sort leb l) l.
Proof.
  induction l as [|x l IH]; simpl; [reflexivity|].
  unfold stable_sort in *. simpl. rewrite insert_by_perm. now constructor.
Qed.

Lemma stable_sort_In (x : A) (l : list A) : In x (stable_sort leb l) <-> In x l.
Proof.
  split; apply Permutation_in; [|symmetry]; apply stable_sort_perm.
Qed.

Hypothesis leb_total : forall x y, leb x y = true \/ leb y x = true.
Hypothesis leb_trans : forall x y z, leb x y = true -> leb y z = true -> leb x z = true.

Lemma insert_by_sorted (x : A) (l : list A) :
  StronglySorted (fun a b => leb a b = true) l ->
  StronglySorted (fun a b => leb a b = true) (insert_by leb x l).
Proof.
  induction 1 as [|y l Hs IH Hy]; simpl.
  - constructor; constructor.
  - destruct (leb x y) eqn:E.
    + constructor; [now constructor|]. constructor; [exact E|].
      eapply Forall_impl; [|exact Hy]. intros z Hz. eapply leb_trans; eassumption.
    + constructor; [exact IH|].
      eapply Permutation_Forall; [symmetry; apply insert_by_perm|].
      constructor; [|exact Hy]. destruct (leb_total x y); congruence.
Qed.

Lemma stable_sort_sorted (l : list A) :
  StronglySorted (fun a b => leb a b = true) (stable_sort leb l).
Proof.
  induction l as [|x l IH]; [constructor|]. now apply insert_by_sorted.
Qed.

End SortingFacts.

(** ** The order on keys *)

Lemma ascii_compare_N (a b : ascii) :
  Ascii.compare a b = N.compare (N_of_ascii a) (N_of_ascii b).
Proof. reflexivity. Qed.

Lemma string_compare_refl (s : string) : String.compare s s = Eq.
Proof.
  induction s as [|c s IH]; simpl; [reflexivity|].
  rewrite ascii_compare_N, N.compare_refl. exact IH.
Qed.

Lemma string_leb_refl (s : string) : String.leb s s = true.
Proof. unfold String.leb. now rewrite string_compare_refl. Qed.

Lemma string_leb_trans (s1 s2 s3 : string) :
  String.leb s1 s2 = true -> String.leb s2 s3 = true -> String.leb s1 s3 = true.
Proof.
  unfold String.leb. revert s2 s3.
  induction s1 as [|c1 s1 IH]; intros [|c2 s2] [|c3 s3]; simpl; try discriminate;
    try reflexivity.
  rewrite !ascii_compare_N.
  destruct (N.compare_spec (N_of_ascii c1) (N_of_ascii c2)) as [E12|L12|G12];
    destruct (N.compare_spec (N_of_ascii c2) (N_of_ascii c3)) as [E23|L23|G23];
    destruct (N.compare_spec (N_of_ascii c1) (N_of_ascii c3)) as [E13|L13|G13];
    try discriminate; try reflexivity; try lia.
  apply IH.
Qed.

Lemma fle_total (x y : f64) :
  is_nan x = false -> is_nan y = false -> fle x y = true \/ fle y x = true.
Proof.
  destruct x, y; cbn [fle is_nan]; try discriminate; auto. intros _ _.
  rewrite <- (Qcompare_antisym q q0). destruct (q ?= q0)%Q; simpl; auto.
Qed.

Lemma fle_trans (x y z : f64) : fle x y = true -> fle y z = true -> fle x z = true.
Proof.
  destruct x, y, z; cbn [fle]; try discriminate; try reflexivity.
  intros H1 H2.
  assert (L1 : (q <= q0)%Q) by (apply Qle_alt; intros E; rewrite E in H1; discriminate).
  assert (L2 : (q0 <= q1)%Q) by (apply Qle_alt; intros E; rewrite E in H2; discriminate).
  pose proof (proj1 (Qle_alt _ _) (Qle_trans _ _ _ L1 L2)) as L.
  destruct (q ?= q1)%Q eqn:E; congruence.
Qed.

Lemma ts_leb_total (s t : Timestamp) : ts_leb s t = true \/ ts_leb t s = true.
Proof.
  unfold ts_leb.
  destruct (Z.ltb_spec (ts_year s) (ts_year t)), (Z.ltb_spec (ts_year t) (ts_year s)),
    (Z.eqb_spec (ts_year s) (ts_year t)), (Z.eqb_spec (ts_year t) (ts_year s)),
    (Z.ltb_spec (ts_month s) (ts_month t)), (Z.ltb_spec (ts_month t) (ts_month s)),
    (Z.eqb_spec (ts_month s) (ts_month t)), (Z.eqb_spec (ts_month t) (ts_month s)),
    (Z.leb_spec (ts_day s) (ts_day t)), (Z.leb_spec (ts_day t) (ts_day s));
    simpl; auto; lia.
Qed.

Lemma ts_leb_iff (s t : Timestamp) :
  ts_leb s t = true
  <-> ts_year s < ts_year t
      \/ (ts_year s = ts_year t
          /\ (ts_month s < ts_month t
              \/ (ts_month s = ts_month t /\ ts_day s <= ts_day t))).
Proof.
  unfold ts_leb.
  rewrite orb_true_iff, andb_true_iff, orb_true_iff, andb_true_iff.
  rewrite !Z.ltb_lt, !Z.eqb_eq, Z.leb_le. tauto.
Qed.

Lemma ts_leb_trans (s t u : Timestamp) :
  ts_leb s t = true -> ts_leb t u = true -> ts_leb s u = true.
Proof. rewrite !ts_leb_iff. lia. Qed.

Lemma value_rank_cases (v : value) :
  (value_rank v = 3 /\ isnull v = true)
  \/ (value_rank v = 0 /\ isnull v = false /\ exists x, num_of v = Some x /\ is_nan x = false)
  \/ (value_rank v = 2 /\ exists s, v = VStr s)
  \/ (value_rank v = 1 /\ exists t, v = VTime (Some t)).
Proof.
  destruct v as [s|z|[q| | |]|[t|]|]; cbn; eauto 10.
Qed.

Lemma value_leb_total (a b : value) : value_leb a b = true \/ value_leb b a = true.
Proof.
  unfold value_leb.
  destruct (value_rank_cases a) as [(Ra & Na)|[(Ra & Na & x & Hx & Hnx)|[(Ra & s & ->)|(Ra & t & ->)]]];
  destruct (value_rank_cases b) as [(Rb & Nb)|[(Rb & Nb & y & Hy & Hny)|[(Rb & s' & ->)|(Rb & t' & ->)]]];
    rewrite ?Ra, ?Rb; cbn [Z.ltb Z.compare Pos.compare Pos.compare_cont]; auto.
  - rewrite Na. destruct a as [| | |[|]|], b as [| | |[|]|]; auto; discriminate.
  - rewrite Na, Nb, Hx, Hy.
    destruct (fle_total x y Hnx Hny) as [H|H]; rewrite H;
      destruct a as [| | |[|]|], b as [| | |[|]|]; auto; discriminate.
  - apply String.leb_total.
  - apply ts_leb_total.
Qed.

Lemma value_leb_trans (a b c : value) :
  value_leb a b = true -> value_leb b c = true -> value_leb a c = true.
Proof.
  unfold value_leb.
  destruct (value_rank_cases a) as [(Ra & Na)|[(Ra & Na & x & Hx & Hnx)|[(Ra & s & ->)|(Ra & t & ->)]]];
  destruct (value_rank_cases b) as [(Rb & Nb)|[(Rb & Nb & y & Hy & Hny)|[(Rb & s' & ->)|(Rb & t' & ->)]]];
  destruct (value_rank_cases c) as [(Rc & Nc)|[(Rc & Nc & z & Hz & Hnz)|[(Rc & s'' & ->)|(Rc & t'' & ->)]]];
    rewrite ?Ra, ?Rb, ?Rc; cbn [Z.ltb Z.compare Pos.compare Pos.compare_cont];
    try discriminate; try reflexivity.
  - rewrite Na. destruct a as [| | |[|]|], c as [| | |[|]|]; auto; discriminate.
  - rewrite Na, Nb, Hx, Hy, Hz.
    destruct a as [| | |[|]|], b as [| | |[|]|], c as [| | |[|]|]; try discriminate;
      apply fle_trans.
  - apply string_leb_trans.
  - apply ts_leb_trans.
Qed.

Lemma key_leb_total (k1 k2 : list value) : key_leb k1 k2 = true \/ key_leb k2 k1 = true.
Proof.
  revert k2. induction k1 as [|a k1 IH]; intros [|b k2]; simpl; auto.
  destruct (value_leb_total a b) as [H|H]; rewrite H.
  - destruct (value_leb b a); auto.
  - destruct (value_leb a b); auto.
Qed.

Lemma key_leb_trans (k1 k2 k3 : list value) :
  List.length k1 = List.length k2 -> List.length k2 = List.length k3 ->
  key_leb k1 k2 = true -> key_leb k2 k3 = true -> key_leb k1 k3 = true.
Proof.
  revert k2 k3. induction k1 as [|a k1 IH]; intros [|b k2] [|c k3]; simpl;
    try discriminate; try reflexivity.
  intros L1 L2.
  destruct (value_leb a b) eqn:Hab; [|discriminate].
  destruct (value_leb b c) eqn:Hbc; [|intros _; discriminate].
  rewrite (value_leb_trans _ _ _ Hab Hbc).
  destruct (value_leb c a) eqn:Hca; [|reflexivity].
  rewrite (value_leb_trans _ _ _ Hbc Hca), (value_leb_trans _ _ _ Hca Hab).
  apply IH; lia.
Qed.

Lemma rows_leb_total (by_ : list string) (r1 r2 : Row) :
  rows_leb by_ r1 r2 = true \/ rows_leb by_ r2 r1 = true.
Proof. apply key_leb_total. Qed.

Lemma rows_leb_trans (by_ : list string) (r1 r2 r3 : Row) :
  rows_leb by_ r1 r2 = true -> rows_leb by_ r2 r3 = true -> rows_leb by_ r1 r3 = true.
Proof. apply key_leb_trans; unfold row_key; now rewrite !length_map. Qed.

(** ** Group keys *)

Lemma distinct_keys_In (k : list value) (ks : list (list value)) :
  In k (distinct_keys ks) -> In k ks.
Proof.
  induction ks as [|k0 ks IH]; simpl; [tauto|].
  intros [->|H]; [now left|]. apply filter_In in H. right. now apply IH.
Qed.

Lemma distinct_keys_complete (k : list value) (ks : list (list value)) :
  In k ks -> no_null k = true ->
  exists k', In k' (distinct_keys ks) /\ key_eqb k k' = true.
Proof.
  induction ks as [|k0 ks IH]; simpl; [tauto|].
  intros [->|H] Hn.
  - exists k. split; [now left|now apply key_eqb_refl].
  - destruct (IH H Hn) as (k' & Hk' & He).
    destruct (key_eqb k0 k') eqn:E.
    + exists k0. split; [now left|].
      rewrite key_eqb_sym in E. exact (key_eqb_trans _ _ _ He E).
    + exists k'. split; [|exact He]. right. apply filter_In. now rewrite E.
Qed.

Lemma group_keys_sound (c : string) (rs : list Row) (k : list value) :
  In k (group_keys [c] rs) ->
  exists r0, In r0 rs /\ k = [cell c r0] /\ isnull (cell c r0) = false.
Proof.
  unfold group_keys. intros H. apply stable_sort_In, distinct_keys_In, filter_In in H.
  destruct H as [H Hn]. apply in_map_iff in H. destruct H as (r0 & <- & Hr0).
  exists r0. repeat split; [exact Hr0|]. simpl in Hn.
  rewrite andb_true_r in Hn. now apply negb_true_iff.
Qed.

Lemma group_keys_complete (c : string) (rs : list Row) (r : Row) :
  In r rs -> isnull (cell c r) = false ->
  exists k, In k (group_keys [c] rs) /\ key_eqb (row_key [c] r) k = true.
Proof.
  intros Hr Hn.
  assert (Hnn : no_null (row_key [c] r) = true) by (simpl; now rewrite Hn).
  destruct (distinct_keys_complete (row_key [c] r)
              (filter no_null (map (row_key [c]) rs))) as (k & Hk & He).
  - apply filter_In. split; [|exact Hnn]. apply in_map_iff. now exists r.
  - exact Hnn.
  - exists k. split; [|exact He]. unfold group_keys. now apply stable_sort_In.
Qed.

(** ** Lists: positions under a filter, labels without repetition *)

Lemma nth_error_filter {A : Type} (p : A -> bool) (l : list A) (i : nat) (x : A) :
  nth_error (filter p l) i = Some x ->
  exists j, nth_error l j = Some x /\ p x = true
            /\ firstn i (filter p l) = filter p (firstn j l).
Proof.
  revert i. induction l as [|a l IH]; simpl; intros i H.
  - destruct i; discriminate.
  - destruct (p a) eqn:E.
    + destruct i as [|i]; simpl in H.
      * injection H as <-. exists 0%nat. simpl. auto.
      * destruct (IH _ H) as (j & Hj & Hp & Hf). exists (S j). simpl.
        rewrite E, Hf. auto.
    + destruct (IH _ H) as (j & Hj & Hp & Hf). exists (S j). simpl.
      rewrite E. auto.
Qed.

Lemma filter_nth_error {A : Type} (p : A -> bool) (l : list A) (j : nat) (x : A) :
  nth_error l j = Some x -> p x = true ->
  nth_error (filter p l) (List.length (filter p (firstn j l))) = Some x.
Proof.
  revert j. induction l as [|a l IH]; intros [|j]; simpl; try discriminate.
  - intros [= ->] ->. reflexivity.
  - intros Hj Hp. destruct (p a); simpl; now apply IH.
Qed.

Lemma filter_filter_impl {A : Type} (p q : A -> bool) (l : list A) :
  (forall x, p x = true -> q x = true) -> filter p (filter q l) = filter p l.
Proof.
  intros H. induction l as [|a l IH]; simpl; [reflexivity|].
  destruct (q a) eqn:E; simpl; rewrite IH; [reflexivity|].
  destruct (p a) eqn:E'; [|reflexivity]. rewrite (H _ E') in E. discriminate.
Qed.

Lemma nodupb_NoDup (l : list nat) : nodupb l = true <-> NoDup l.
Proof.
  induction l as [|x l IH]; simpl.
  - split; [constructor|reflexivity].
  - rewrite andb_true_iff, negb_true_iff, IH. split.
    + intros [H1 H2]. constructor; [|exact H2]. intros Hin.
      assert (existsb (Nat.eqb x) l = true)
        by (apply existsb_exists; exists x; split; [exact Hin|apply Nat.eqb_refl]).
      congruence.
    + intros H. inversion H as [|? ? H1 H2]; subst. split; [|exact H2].
      apply not_true_is_false. intros He. apply existsb_exists in He.
      destruct He as (y & Hy & He). apply Nat.eqb_eq in He. now subst.
Qed.

Lemma NoDup_map_nth_error {A B : Type} (f : A -> B) (l : list A) (a b : nat) (x y : A) :
  NoDup (map f l) -> nth_error l a = Some x -> nth_error l b = Some y ->
  f x = f y -> a = b.
Proof.
  intros Hnd Ha Hb Hf.
  apply (proj1 (NoDup_nth_error (map f l)) Hnd).
  - rewrite length_map. apply nth_error_Some. congruence.
  - rewrite !nth_error_map, Ha, Hb. simpl. now rewrite Hf.
Qed.

Lemma find_label_spec (Q : Row -> Prop) (l : nat) (rs : list Row) :
  (exists y, In y rs /\ label y = l) ->
  (forall y, In y rs -> label y = l -> Q y) ->
  exists x, find_label l rs = Some x /\ Q x.
Proof.
  intros (y & Hy & Hl) HQ. unfold find_label.
  destruct (find (fun r => (label r =? l)%nat) rs) as [x|] eqn:E.
  - exists x. split; [reflexivity|]. apply find_some in E. destruct E as [E1 E2].
    apply HQ; [exact E1|now apply Nat.eqb_eq].
  - exfalso. apply (find_none _ _ E) in Hy. apply Nat.eqb_neq in Hy. congruence.
Qed.

(** ** Rows of a group after [calc_rolling] *)

Lemma lookup_spc_series_None (np_sqrt : Q -> Q) (w : nat) (xs : list f64) (c : string) :
  ~ In c spc_cols -> lookup c (spc_series np_sqrt w xs) = None.
Proof.
  intros H. unfold spc_series. cbn [lookup].
  repeat match goal with
         | |- context [String.eqb c ?n] =>
             destruct (String.eqb c n) eqn:?E;
             [apply String.eqb_eq in E; exfalso; apply H; subst c; simpl; tauto|clear E]
         end.
  reflexivity.
Qed.

Lemma nth_error_seq0 (n i : nat) : (i < n)%nat -> nth_error (seq 0 n) i = Some i.
Proof.
  intros H. rewrite nth_error_nth' with (d := 0%nat) by now rewrite length_seq.
  now rewrite seq_nth.
Qed.

Lemma nth_error_rolling_cl (w : nat) (xs : list f64) (i : nat) :
  (i < List.length xs)%nat ->
  nth_error (rolling_cl w xs) i = Some (roll_mean w (window w i xs)).
Proof.
  intros H. unfold rolling_cl. now rewrite nth_error_map, nth_error_seq0.
Qed.

Lemma nth_error_rolling_sd (np_sqrt : Q -> Q) (w : nat) (xs : list f64) (i : nat) :
  (i < List.length xs)%nat ->
  nth_error (rolling_sd np_sqrt w xs) i = Some (roll_std np_sqrt w (window w i xs)).
Proof.
  intros H. unfold rolling_sd. now rewrite nth_error_map, nth_error_seq0.
Qed.

Lemma map_eq_nth_error {A B : Type} (f : A -> B) (l : list A) (l' : list B) (i : nat) (a : A) :
  map f l = l' -> nth_error l i = Some a -> nth_error l' i = Some (f a).
Proof. intros <- H. now rewrite nth_error_map, H. Qed.

Lemma extends_row (np_sqrt : Q -> Q) (w : nat) (xs : list f64) (g g' : DataFrame)
  (i : nat) (r' : Row) :
  extends g g' (spc_series np_sqrt w xs) ->
  List.length xs = List.length (rows g) ->
  nth_error (rows g') i = Some r' ->
  exists r, nth_error (rows g) i = Some r
            /\ row_with_spc (roll_mean w (window w i xs))
                            (roll_std np_sqrt w (window w i xs)) r r'.
Proof.
  intros E Hlen Hi. pose proof (extends_length _ _ _ E) as Hl.
  assert (Hlt : (i < List.length xs)%nat)
    by (rewrite Hlen, <- Hl; apply nth_error_Some; congruence).
  destruct E as [Elab Ecol].
  pose proof (map_eq_nth_error _ _ _ _ _ Elab Hi) as Hlab.
  rewrite nth_error_map in Hlab.
  destruct (nth_error (rows g) i) as [r|] eqn:Hr; [|discriminate].
  simpl in Hlab. injection Hlab as Hlab. exists r. split; [reflexivity|].
  pose proof (nth_error_rolling_cl w xs i Hlt) as Hcl.
  pose proof (nth_error_rolling_sd np_sqrt w xs i Hlt) as Hsd.
  assert (Hcell : forall c vs v, lookup c (spc_series np_sqrt w xs) = Some vs ->
                                 nth_error vs i = Some v -> cell c r' = v).
  { intros c vs v Hc Hv. specialize (Ecol c). rewrite Hc in Ecol.
    destruct Ecol as [Ecol _].
    pose proof (map_eq_nth_error _ _ _ _ _ Ecol Hi) as H. congruence. }
  assert (Hu : forall k, nth_error (map VFloat (map2 (ucl k) (rolling_cl w xs)
                                                  (rolling_sd np_sqrt w xs))) i
                         = Some (VFloat (ucl k (roll_mean w (window w i xs))
                                           (roll_std np_sqrt w (window w i xs)))))
    by (intros k; rewrite nth_error_map, (nth_error_map2 _ _ _ _ _ _ Hcl Hsd);
        reflexivity).
  assert (Hl' : forall k, nth_error (map VFloat (map2 (lcl k) (rolling_cl w xs)
                                                   (rolling_sd np_sqrt w xs))) i
                          = Some (VFloat (lcl k (roll_mean w (window w i xs))
                                            (roll_std np_sqrt w (window w i xs)))))
    by (intros k; rewrite nth_error_map, (nth_error_map2 _ _ _ _ _ _ Hcl Hsd);
        reflexivity).
  repeat split.
  - congruence.
  - intros c Hc. specialize (Ecol c).
    rewrite (lookup_spc_series_None _ _ _ _ Hc) in Ecol. destruct Ecol as [Ecol _].
    pose proof (map_eq_nth_error _ _ _ _ _ Ecol Hi) as H.
    rewrite nth_error_map, Hr in H. simpl in H. congruence.
  - apply (Hcell "Rolling_CL" _ _ eq_refl). now rewrite nth_error_map, Hcl.
  - apply (Hcell "Rolling_Std" _ _ eq_refl). now rewrite nth_error_map, Hsd.
  - destruct H as [<-|[<-|[<-|[]]]].
    + apply (Hcell "Rolling_UCL_1STD" _ _ eq_refl (Hu 1)).
    + apply (Hcell "Rolling_UCL_2STD" _ _ eq_refl (Hu 2)).
    + apply (Hcell "Rolling_UCL_3STD" _ _ eq_refl (Hu 3)).
  - destruct H as [<-|[<-|[<-|[]]]].
    + apply (Hcell "Rolling_LCL_1STD" _ _ eq_refl (Hl' 1)).
    + apply (Hcell "Rolling_LCL_2STD" _ _ eq_refl (Hl' 2)).
    + apply (Hcell "Rolling_LCL_3STD" _ _ eq_refl (Hl' 3)).
Qed.

Lemma cell_null_spc_other (c : string) (r : Row) :
  ~ In c spc_cols -> cell c (null_spc r) = cell c r.
Proof.
  intros H. unfold null_spc.
  assert (Hall : forall cs, (forall x, In x cs -> In x spc_cols) ->
            cell c (fold_right (fun c r' => set_cell c (VFloat NaN) r') r cs) = cell c r).
  { induction cs as [|x cs IH]; intros Hcs; simpl; [reflexivity|].
    rewrite cell_set_cell_other.
    - apply IH. intros y Hy. apply Hcs. now right.
    - destruct (String.eqb c x) eqn:E; [|reflexivity].
      apply String.eqb_eq in E. subst x. exfalso. apply H, Hcs. now left. }
  apply Hall. auto.
Qed.

Lemma cell_null_spc (c : string) (r : Row) :
  In c spc_cols -> cell c (null_spc r) = VFloat NaN.
Proof.
  unfold null_spc, spc_cols. cbn [fold_right In].
  intros H.
  repeat (destruct H as [<-|H];
          [rewrite ?cell_set_cell_other by reflexivity; apply cell_set_cell_same|]).
  destruct H.
Qed.

Lemma null_spc_row (cl sd : f64) (r r' : Row) :
  row_with_spc cl sd r r' -> row_with_spc NaN NaN r (null_spc r').
Proof.
  intros (Hl & Hc & _). repeat split.
  - exact Hl.
  - intros c H. rewrite cell_null_spc_other by exact H. now apply Hc.
  - apply cell_null_spc. simpl. tauto.
  - apply cell_null_spc. simpl. tauto.
  - destruct H as [<-|[<-|[<-|[]]]]; apply cell_null_spc; simpl; tauto.
  - destruct H as [<-|[<-|[<-|[]]]]; apply cell_null_spc; simpl; tauto.
Qed.

Lemma row_with_spc_is_year (cl sd : f64) (r r' : Row) :
  row_with_spc cl sd r r' -> is_year r' = is_year r.
Proof.
  intros (_ & Hc & _). unfold is_year. rewrite (Hc "frequency"); [reflexivity|].
  simpl. intros H. repeat (destruct H as [H|H]; [discriminate|]). destruct H.
Qed.

(** ** groupby.apply of [calc_rolling] *)

Lemma mapM_total {A B : Type} (f : A -> result B) (l : list A) :
  (forall a, In a l -> exists b, f a = inr b) -> exists l', mapM f l = inr l'.
Proof.
  induction l as [|a l IH]; simpl; intros H; [now exists []|].
  destruct (H a (or_introl eq_refl)) as (b & ->).
  destruct IH as (bs & ->); [intros; apply H; now right|].
  simpl. now exists (b :: bs).
Qed.

Lemma In_union_columns_acc (c : string) (ls : list (list string)) (acc : list string) :
  In c (fold_left (fun acc cs => fold_left (fun a c => add_column c a) cs acc) ls acc)
  <-> In c acc \/ exists cs, In cs ls /\ In c cs.
Proof.
  revert acc. induction ls as [|cs ls IH]; simpl; intros acc.
  - split; [auto|]. intros [H|(cs & [] & _)]. exact H.
  - rewrite IH, In_add_columns. split.
    + intros [[H|H]|(cs' & H1 & H2)]; eauto 6.
    + intros [H|(cs' & [->|H1] & H2)]; eauto 6.
Qed.

Lemma f64_values_rates (e : exn) (rs : list Row) :
  forallb numeric_rate rs = true ->
  f64_values e (map (cell "Rate") rs) = inr (map rate rs).
Proof.
  intros H. unfold f64_values. rewrite <- (map_map (cell "Rate") fnum).
  apply mapM_inr. intros v Hv. apply in_map_iff in Hv. destruct Hv as (r & <- & Hr).
  rewrite forallb_forall in H. specialize (H r Hr).
  unfold numeric_rate in H. unfold fnum.
  now destruct (num_of (cell "Rate" r)).
Qed.

Lemma forallb_filter {A : Type} (p q : A -> bool) (l : list A) :
  forallb p l = true -> forallb p (filter q l) = true.
Proof.
  rewrite !forallb_forall. intros H x Hx. apply filter_In in Hx. now apply H.
Qed.

Lemma window_firstn {A : Type} (w i : nat) (xs : list A) :
  (i <= List.length xs)%nat -> window w i xs = last_n w (firstn i xs).
Proof.
  intros H. unfold window, last_n. now rewrite length_firstn, Nat.min_l by lia.
Qed.

Lemma groupby_apply_calc_rolling (np_sqrt : Q -> Q) (w : Z) (d : DataFrame) :
  has_column "Measure" d = true -> has_column "Rate" d = true -> 0 <= w ->
  forallb numeric_rate (rows d) = true ->
  nodupb (map label (filter has_measure (rows d))) = true ->
  exists d1,
    groupby_apply "Measure" (calc_rolling np_sqrt w) d = inr d1
    /\ (forall c, has_column c d = true -> has_column c d1 = true)
    /\ List.length (rows d1) = List.length (filter has_measure (rows d))
    /\ forall j r,
         nth_error (filter has_measure (rows d)) j = Some r ->
         exists r',
           nth_error (rows d1) j = Some r'
           /\ row_with_spc
                (roll_mean (Z.to_nat w)
                   (last_n (Z.to_nat w) (map rate (prior (filter has_measure (rows d)) j r))))
                (roll_std np_sqrt (Z.to_nat w)
                   (last_n (Z.to_nat w) (map rate (prior (filter has_measure (rows d)) j r))))
                r r'.
Proof.
  intros HM HR Hw Hnum Hnd.
  set (R := rows d) in *. set (kept := filter has_measure R) in *.
  set (keys := group_keys ["Measure"] R).
  set (G := fun k => group_rows ["Measure"] k R).
  assert (Hkept_ext : filter (fun r => no_null (row_key ["Measure"] r)) R = kept).
  { apply filter_ext. intros r. unfold has_measure. simpl. apply andb_true_r. }
  (* the groups are taken among the rows that have a Measure *)
  assert (F1 : forall k, In k keys ->
             G k = filter (fun r => key_eqb (row_key ["Measure"] r) k) kept).
  { intros k Hk. unfold G, group_rows, kept. symmetry. apply filter_filter_impl.
    intros x Hx. apply group_keys_sound in Hk. destruct Hk as (r0 & _ & -> & _).
    simpl in Hx. rewrite andb_true_r in Hx. unfold has_measure.
    now rewrite (value_eqb_notnull _ _ Hx). }
  (* calc_rolling returns on every group *)
  assert (F2 : forall k, exists g',
             calc_rolling np_sqrt w (mkDF (columns d) (G k)) = inr g'
             /\ extends (mkDF (columns d) (G k)) g'
                  (spc_series np_sqrt (Z.to_nat w) (map rate (G k)))).
  { intros k. apply calc_rolling_spec; [exact HR|exact Hw|].
    apply f64_values_rates. cbn [rows]. now apply forallb_filter. }
  destruct (mapM_total (fun k => calc_rolling np_sqrt w (mkDF (columns d) (G k))) keys)
    as (parts & Hparts).
  { intros k _. destruct (F2 k) as (g' & Hg & _). eauto. }
  (* every row of every part comes from a row that has a Measure *)
  assert (HQ : forall j r y,
             nth_error kept j = Some r -> In y (flat_map rows parts) ->
             label y = label r ->
             row_with_spc
               (roll_mean (Z.to_nat w) (last_n (Z.to_nat w) (map rate (prior kept j r))))
               (roll_std np_sqrt (Z.to_nat w) (last_n (Z.to_nat w) (map rate (prior kept j r))))
               r y).
  { intros j r y Hj Hy Hlab. apply in_flat_map in Hy. destruct Hy as (g' & Hg' & Hy).
    destruct (mapM_In _ _ _ _ Hparts Hg') as (k & Hk & Hck).
    destruct (F2 k) as (g'' & Hg'' & E). assert (g'' = g') by congruence. subst g''.
    apply In_nth_error in Hy. destruct Hy as (i & Hi).
    destruct (extends_row _ _ _ _ _ _ _ E (length_map rate (G k)) Hi) as (r0 & Hr0 & Hrow).
    cbn [rows] in Hr0. rewrite (F1 k Hk) in Hr0.
    destruct (nth_error_filter _ _ _ _ Hr0) as (j' & Hj' & Hp & Hf).
    assert (j' = j).
    { apply (NoDup_map_nth_error label kept j' j r0 r); auto.
      - now apply nodupb_NoDup.
      - destruct Hrow as (Hl & _). congruence. }
    subst j'. assert (r0 = r) by congruence. subst r0.
    assert (Hsame : forall x, key_eqb (row_key ["Measure"] x) k = same_measure r x).
    { intros x. apply group_keys_sound in Hk. destruct Hk as (r1 & _ & -> & _).
      simpl in Hp |- *. rewrite andb_true_r in Hp |- *. unfold same_measure.
      symmetry. now apply value_eqb_cong. }
    assert (Hwin : window (Z.to_nat w) i (map rate (G k))
                   = last_n (Z.to_nat w) (map rate (prior kept j r))).
    { rewrite window_firstn.
      - rewrite firstn_map, (F1 k Hk), Hf. unfold prior.
        now rewrite (filter_ext _ _ Hsame).
      - rewrite length_map, (F1 k Hk). apply Nat.lt_le_incl, nth_error_Some. congruence. }
    now rewrite Hwin in Hrow. }
  (* every row that has a Measure has its row in some part *)
  assert (HE : forall j r, nth_error kept j = Some r ->
             exists y, In y (flat_map rows parts) /\ label y = label r).
  { intros j r Hj. assert (Hin : In r kept) by (eapply nth_error_In; eauto).
    unfold kept in Hin. apply filter_In in Hin. destruct Hin as [Hin Hm].
    destruct (group_keys_complete "Measure" R r Hin) as (k & Hk & He).
    { unfold has_measure in Hm. now apply negb_true_iff. }
    fold keys in Hk.
    assert (HrG : In r (G k)) by (apply filter_In; split; assumption).
    apply In_nth_error in HrG. destruct HrG as (i & Hi).
    apply In_nth_error in Hk. destruct Hk as (a & Ha).
    destruct (mapM_nth_error _ _ _ _ _ Hparts Ha) as (g' & Hg' & Hpa).
    destruct (F2 k) as (g'' & Hg'' & E). assert (g'' = g') by congruence. subst g''.
    pose proof (extends_length _ _ _ E) as Hl. cbn [rows] in Hl.
    destruct (nth_error (rows g') i) as [y|] eqn:Hy.
    2:{ apply nth_error_None in Hy. assert (i < List.length (G k))%nat
          by (apply nth_error_Some; congruence). lia. }
    exists y. split.
    - apply in_flat_map. exists g'. split; [eapply nth_error_In; eauto|].
      eapply nth_error_In; eauto.
    - destruct (extends_row _ _ _ _ _ _ _ E (length_map rate (G k)) Hy)
        as (r0 & Hr0 & Hl0 & _).
      cbn [rows] in Hr0. congruence. }
  unfold groupby_apply. rewrite HM. fold R keys. fold G in Hparts.
  change (mapM (fun k => calc_rolling np_sqrt w (mkDF (columns d) (group_rows ["Measure"] k R))) keys)
    with (mapM (fun k => calc_rolling np_sqrt w (mkDF (columns d) (G k))) keys).
  rewrite Hparts. cbn [rbind].
  destruct parts as [|p0 parts'] eqn:Eparts.
  - (* no group: no row has a Measure *)
    assert (Hk0 : kept = []).
    { destruct kept as [|r kept'] eqn:Ek; [reflexivity|].
      destruct (HE 0%nat r eq_refl) as (y & [] & _). }
    exists (mkDF (columns d) []). rewrite Hk0. repeat split; auto.
    intros j r Hj. destruct j; discriminate.
  - rewrite <- Eparts in *. rewrite Hkept_ext, Hnd.
    destruct (mapM_total
                (fun l => match find_label l (flat_map rows parts) with
                          | Some r => inr r
                          | None => inl (Unmodelled "apply changed the index")
                          end) (map label kept)) as (rs & Hrs).
    { intros l Hl. apply in_map_iff in Hl. destruct Hl as (r & <- & Hr).
      apply In_nth_error in Hr. destruct Hr as (j & Hj).
      destruct (find_label_spec (fun _ => True) (label r) (flat_map rows parts))
        as (x & -> & _); eauto. }
    rewrite Hrs. cbn [rbind]. eexists. split; [reflexivity|]. cbn [rows].
    pose proof (mapM_length _ _ _ Hrs) as Hlen. rewrite length_map in Hlen.
    repeat split.
    + intros c Hc. unfold has_column. cbn [columns].
      apply existsb_eqb_In. apply In_union_columns_acc. right.
      exists (columns p0). split; [rewrite Eparts; now left|].
      assert (Hp0 : In p0 parts) by (rewrite Eparts; now left).
      destruct (mapM_In _ _ _ _ Hparts Hp0) as (k & Hk & Hck).
      destruct (F2 k) as (g'' & Hg'' & E). assert (g'' = p0) by congruence. subst g''.
      destruct E as [_ E]. specialize (E c). apply existsb_eqb_In.
      fold (has_column c p0).
      destruct (lookup c _); destruct E as [_ E]; [exact E|]. now rewrite E.
    + exact Hlen.
    + intros j r Hj.
      assert (Hjl : nth_error (map label kept) j = Some (label r))
        by now rewrite nth_error_map, Hj.
      destruct (mapM_nth_error _ _ _ _ _ Hrs Hjl) as (r' & Hf & Hr').
      exists r'. split; [exact Hr'|].
      destruct (find_label_spec
                  (fun y => row_with_spc
                     (roll_mean (Z.to_nat w) (last_n (Z.to_nat w) (map rate (prior kept j r))))
                     (roll_std np_sqrt (Z.to_nat w) (last_n (Z.to_nat w) (map rate (prior kept j r))))
                     r y)
                  (label r) (flat_map rows parts)) as (x & Hx & HQx); eauto.
      rewrite Hx in Hf. now injection Hf as <-.
Qed.

(** ** The frame [rolling_spc_agg] returns *)

Lemma rolling_spc_agg_run (np_sqrt : Q -> Q) (df : ref) (w sigma : Z) (h : store)
  (d : DataFrame) :
  nth_error h df = Some d ->
  rolling_spc_agg np_sqrt df w sigma h
  = match spc_frame np_sqrt w d with
    | inl e => inl e
    | inr out => inr (List.length h, h ++ [out])
    end.
Proof.
  intros Hd. unfold rolling_spc_agg, spc_frame.
  unfold bind at 1. rewrite (derive_run _ _ _ _ Hd).
  destruct (groupby_apply "Measure" (calc_rolling np_sqrt w) d) as [e|d1]; [reflexivity|].
  cbn [rbind]. unfold bind at 1.
  rewrite (getitem_run _ _ _ _ (nth_error_snoc_new h d1)).
  destruct (getcol "frequency" d1) as [e|f]; [reflexivity|].
  cbn [rbind]. unfold bind at 1.
  rewrite (modify_run _ _ _ _ (nth_error_snoc_new h d1)).
  destruct (loc_set_scalar _ _ _ d1) as [e|d2]; [reflexivity|].
  unfold ret. now rewrite update_snoc_new.
Qed.

Lemma rolling_spc_agg_inv (np_sqrt : Q -> Q) (df : ref) (w sigma : Z) (h h' : store)
  (r : ref) :
  rolling_spc_agg np_sqrt df w sigma h = inr (r, h') ->
  exists d out, nth_error h df = Some d /\ spc_frame np_sqrt w d = inr out
                /\ r = List.length h /\ h' = h ++ [out].
Proof.
  intros H. destruct (nth_error h df) as [d|] eqn:Hd.
  - rewrite (rolling_spc_agg_run _ _ _ _ _ _ Hd) in H.
    destruct (spc_frame np_sqrt w d) as [e|out] eqn:E; [discriminate|].
    injection H as <- <-. now exists d, out.
  - unfold rolling_spc_agg, bind at 1, derive, bind, read in H.
    rewrite Hd in H. discriminate.
Qed.

Lemma series_eq_str_is_year (rs : list Row) :
  series_eq_str (map (cell "frequency") rs) "Year" = map is_year rs.
Proof. unfold series_eq_str. rewrite map_map. reflexivity. Qed.

Lemma map2_map_l_same {A B C : Type} (f : B -> A -> C) (g : A -> B) (l : list A) :
  map2 f (map g l) l = map (fun a => f (g a) a) l.
Proof. induction l as [|a l IH]; simpl; [reflexivity|]. now rewrite IH. Qed.

Lemma spc_frame_spec (np_sqrt : Q -> Q) (w : Z) (d : DataFrame) :
  has_column "Measure" d = true -> has_column "Rate" d = true ->
  has_column "frequency" d = true -> 0 <= w ->
  forallb numeric_rate (rows d) = true ->
  nodupb (map label (filter has_measure (rows d))) = true ->
  exists out,
    spc_frame np_sqrt w d = inr out
    /\ List.length (rows out) = List.length (filter has_measure (rows d))
    /\ forall j r,
         nth_error (filter has_measure (rows d)) j = Some r ->
         exists r',
           nth_error (rows out) j = Some r'
           /\ let win := last_n (Z.to_nat w)
                           (map rate (prior (filter has_measure (rows d)) j r)) in
              row_with_spc
                (if is_year r then NaN else roll_mean (Z.to_nat w) win)
                (if is_year r then NaN else roll_std np_sqrt (Z.to_nat w) win)
                r r'.
Proof.
  intros HM HR HF Hw Hnum Hnd.
  destruct (groupby_apply_calc_rolling np_sqrt w d HM HR Hw Hnum Hnd)
    as (d1 & Hd1 & Hcols & Hlen & Hrows).
  unfold spc_frame. rewrite Hd1. cbn [rbind].
  unfold getcol. rewrite (Hcols _ HF). cbn [rbind].
  unfold loc_set_scalar. rewrite series_eq_str_is_year, length_map, Nat.eqb_refl.
  eexists. split; [reflexivity|]. cbn [rows]. rewrite map2_map_l_same.
  split; [now rewrite length_map|].
  intros j r Hj. destruct (Hrows j r Hj) as (r1 & Hr1 & Hrow).
  eexists. split; [rewrite nth_error_map, Hr1; reflexivity|].
  cbv zeta. rewrite (row_with_spc_is_year _ _ _ _ Hrow).
  destruct (is_year r); [|exact Hrow].
  exact (null_spc_row _ _ _ _ Hrow).
Qed.

(** ** Control limits (C4) *)

Lemma groupby_apply_calc_rolling_rows (np_sqrt : Q -> Q) (w : Z) (d d1 : DataFrame) (r1 : Row) :
  groupby_apply "Measure" (calc_rolling np_sqrt w) d = inr d1 ->
  In r1 (rows d1) ->
  exists r0 cl sd, row_with_spc cl sd r0 r1.
Proof.
  unfold groupby_apply. destruct (has_column "Measure" d); [|discriminate].
  destruct (mapM _ (group_keys ["Measure"] (rows d))) as [e|parts] eqn:Hparts;
    [discriminate|].
  cbn [rbind]. destruct parts as [|p0 parts'] eqn:Eparts.
  - intros [= <-] [].
  - rewrite <- Eparts in *. destruct (nodupb _); [|discriminate].
    destruct (mapM _ (map label _)) as [e|rs] eqn:Hrs; [discriminate|].
    cbn [rbind]. intros [= <-] Hr1. cbn [rows] in Hr1.
    destruct (mapM_In _ _ _ _ Hrs Hr1) as (l & _ & Hf).
    destruct (find_label l (flat_map rows parts)) as [x|] eqn:Hx; [|discriminate].
    injection Hf as ->. apply find_some in Hx. destruct Hx as [Hx _].
    apply in_flat_map in Hx. destruct Hx as (g' & Hg' & Hx).
    destruct (mapM_In _ _ _ _ Hparts Hg') as (k & _ & Hck).
    destruct (calc_rolling_inv _ _ _ _ Hck) as (HR & Hw & xs & Hxs).
    destruct (calc_rolling_spec np_sqrt w _ xs HR Hw Hxs) as (g'' & Hg'' & E).
    assert (g'' = g') by congruence. subst g''.
    apply In_nth_error in Hx. destruct Hx as (i & Hi).
    assert (Hlen : List.length xs = List.length (rows (mkDF (columns d)
              (group_rows ["Measure"] k (rows d)))))
      by (rewrite (mapM_length _ _ _ Hxs); apply length_map).
    destruct (extends_row _ _ _ _ _ _ _ E Hlen Hi) as (r0 & _ & Hrow).
    eauto.
Qed.

Lemma spc_frame_rows (np_sqrt : Q -> Q) (w : Z) (d out : DataFrame) (r : Row) :
  spc_frame np_sqrt w d = inr out -> In r (rows out) ->
  exists r0 cl sd, row_with_spc cl sd r0 r.
Proof.
  unfold spc_frame.
  destruct (groupby_apply "Measure" (calc_rolling np_sqrt w) d) as [e|d1] eqn:Hd1;
    [discriminate|].
  cbn [rbind]. unfold getcol. destruct (has_column "frequency" d1); [|discriminate].
  cbn [rbind]. unfold loc_set_scalar.
  rewrite series_eq_str_is_year, length_map, Nat.eqb_refl.
  intros [= <-]. cbn [rows]. rewrite map2_map_l_same. intros Hr.
  apply in_map_iff in Hr. destruct Hr as (r1 & <- & Hr1).
  destruct (groupby_apply_calc_rolling_rows _ _ _ _ _ Hd1 Hr1) as (r0 & cl & sd & Hrow).
  destruct (is_year r1).
  - exists r0, NaN, NaN. exact (null_spc_row _ _ _ _ Hrow).
  - eauto.
Qed.

Lemma clip_lower0_not_negative (x : f64) : flt (clip_lower0 x) (f64_of_Z 0) = false.
Proof.
  unfold clip_lower0. destruct (flt x (f64_of_Z 0)) eqn:E; [reflexivity|exact E].
Qed.

Lemma clip_lower0_finite (x : f64) (q : Q) : clip_lower0 x = Fin q -> (0 <= q)%Q.
Proof.
  unfold clip_lower0. destruct (flt x (f64_of_Z 0)) eqn:E.
  - intros [= <-]. apply Qle_refl.
  - intros ->. simpl in E. destruct (q ?= inject_Z 0)%Q eqn:C; try discriminate.
    + apply Qeq_alt in C. rewrite C. apply Qle_refl.
    + apply Qgt_alt in C. now apply Qlt_le_weak.
Qed.

(** C4.  Every row of the frame the Rolling SPC Engine returns holds, for
    k = 1, 2 and 3, Rolling_UCL_kSTD = Rolling_CL + k * Rolling_Std and
    Rolling_LCL_kSTD = (Rolling_CL - k * Rolling_Std) clipped below at 0,
    which is max(0, Rolling_CL - k * Rolling_Std) on numbers and stays
    missing when the difference is missing; the lower limit is never
    negative, and when it is a number that number is at least 0. *)
Theorem rolling_spc_agg_control_limits :
  forall (np_sqrt : Q -> Q) (df : ref) (window_size sigma : Z) (h h' : store) (r : ref),
    rolling_spc_agg np_sqrt df window_size sigma h = inr (r, h') ->
    exists out,
      nth_error h' r = Some out
      /\ forall row, In row (rows out) ->
           exists cl sd,
             cell "Rolling_CL" row = VFloat cl
             /\ cell "Rolling_Std" row = VFloat sd
             /\ forall k, In k [1; 2; 3] ->
                  cell (ucl_col k) row = VFloat (fadd cl (fmul (f64_of_Z k) sd))
                  /\ cell (lcl_col k) row
                     = VFloat (clip_lower0 (fsub cl (fmul (f64_of_Z k) sd)))
                  /\ flt (clip_lower0 (fsub cl (fmul (f64_of_Z k) sd))) (f64_of_Z 0) = false
                  /\ forall q, clip_lower0 (fsub cl (fmul (f64_of_Z k) sd)) = Fin q ->
                               (0 <= q)%Q.
Proof.
  intros np_sqrt df w sigma h h' r H.
  destruct (rolling_spc_agg_inv _ _ _ _ _ _ _ H) as (d & out & Hd & Hout & -> & ->).
  exists out. split; [apply nth_error_snoc_new|].
  intros row Hrow.
  destruct (spc_frame_rows _ _ _ _ _ Hout Hrow) as (r0 & cl & sd & _ & _ & Hcl & Hsd & Hk).
  exists cl, sd. repeat split; try assumption.
  - now apply Hk.
  - now apply Hk.
  - apply clip_lower0_not_negative.
  - apply clip_lower0_finite.
Qed.

Lemma rolling_spc_agg_control_limits_witness :
  exists out,
    nth_error [Sample.six_months; Sample.six_months_spc] 1 = Some out
    /\ forall row, In row (rows out) ->
         exists cl sd,
           cell "Rolling_CL" row = VFloat cl
           /\ cell "Rolling_Std" row = VFloat sd
           /\ forall k, In k [1; 2; 3] ->
                cell (ucl_col k) row = VFloat (fadd cl (fmul (f64_of_Z k) sd))
                /\ cell (lcl_col k) row
                   = VFloat (clip_lower0 (fsub cl (fmul (f64_of_Z k) sd)))
                /\ flt (clip_lower0 (fsub cl (fmul (f64_of_Z k) sd))) (f64_of_Z 0) = false
                /\ forall q, clip_lower0 (fsub cl (fmul (f64_of_Z k) sd)) = Fin q ->
                             (0 <= q)%Q.
Proof.
  apply (rolling_spc_agg_control_limits Sample.sqrt_q 0%nat 3 3 [Sample.six_months]).
  vm_compute. reflexivity.
Defined.

(** ** Windows and their statistics *)

Lemma length_last_n {A : Type} (w : nat) (l : list A) :
  List.length (last_n w l) = Nat.min w (List.length l).
Proof. unfold last_n. rewrite length_skipn. lia. Qed.



Lemma length_observations_le (l : list f64) :
  (List.length (observations l) <= List.length l)%nat.
Proof.
  induction l as [|x l IH]; simpl; [lia|].
  destruct x; simpl; lia.
Qed.


(** Fewer than [w] rows before: no value. *)
Lemma roll_short (np_sqrt : Q -> Q) (w : nat) (win : list f64) :
  (List.length win < w)%nat ->
  roll_mean w win = NaN /\ roll_std np_sqrt w win = NaN.
Proof.
  intros H. pose proof (length_observations_le win) as Ho.
  unfold roll_mean, roll_std.
  replace (w <=? List.length (observations win))%nat with false
    by (symmetry; apply Nat.leb_gt; lia).
  auto.
Qed.





Lemma finite_rate_numeric (rs : list Row) :
  forallb finite_rate rs = true -> forallb numeric_rate rs = true.
Proof.
  rewrite !forallb_forall. intros H r Hr. specialize (H r Hr).
  unfold finite_rate in H. unfold numeric_rate.
  now destruct (num_of (cell "Rate" r)).
Qed.

Lemma finite_rate_is_finite (r : Row) : finite_rate r = true -> is_finite (rate r) = true.
Proof.
  unfold finite_rate, rate, fnum. destruct (num_of (cell "Rate" r)) as [[| | |]|];
    try discriminate. reflexivity.
Qed.

Lemma forallb_map {A B : Type} (f : A -> B) (p : B -> bool) (l : list A) :
  forallb p (map f l) = forallb (fun a => p (f a)) l.
Proof. induction l as [|a l IH]; simpl; [reflexivity|]. now rewrite IH. Qed.

Lemma forallb_impl {A : Type} (p q : A -> bool) (l : list A) :
  (forall a, p a = true -> q a = true) -> forallb p l = true -> forallb q l = true.
Proof. rewrite !forallb_forall. auto. Qed.

Lemma forallb_firstn {A : Type} (p : A -> bool) (n : nat) (l : list A) :
  forallb p l = true -> forallb p (firstn n l) = true.
Proof.
  intros H. rewrite <- (firstn_skipn n l), forallb_app in H.
  now apply andb_prop in H.
Qed.

Lemma forallb_skipn {A : Type} (p : A -> bool) (n : nat) (l : list A) :
  forallb p l = true -> forallb p (skipn n l) = true.
Proof.
  intros H. rewrite <- (firstn_skipn n l), forallb_app in H.
  now apply andb_prop in H.
Qed.

(** ** Rolling center line and standard deviation (C1) *)

Lemma row_with_spc_null (r r' : Row) :
  row_with_spc NaN NaN r r' -> forall c, In c spc_cols -> null_cell c r'.
Proof.
  intros (_ & _ & Hcl & Hsd & Hk) c Hc. unfold null_cell.
  destruct (Hk 1) as [U1 L1]; [simpl; tauto|].
  destruct (Hk 2) as [U2 L2]; [simpl; tauto|].
  destruct (Hk 3) as [U3 L3]; [simpl; tauto|].
  simpl in Hc.
  repeat (destruct Hc as [<-|Hc]; [assumption|]). destruct Hc.
Qed.





(** ** Running [sort_by_date] *)

Lemma bind_getitem {B : Type} (r : ref) (c : string) (d : DataFrame) (k : list value -> M B)
  (h : store) :
  nth_error h r = Some d ->
  bind (getitem r c) k h = match getcol c d with
                           | inl e => inl e
                           | inr s => k s h
                           end.
Proof.
  intros H. unfold bind at 1. rewrite (getitem_run _ _ _ _ H). now destruct (getcol c d).
Qed.

Lemma bind_setitem {B : Type} (r : ref) (c : string) (s : list value) (d : DataFrame)
  (k : unit -> M B) (h : store) :
  nth_error h r = Some d ->
  bind (setitem r c s) k h = match setcol c s d with
                             | inl e => inl e
                             | inr d' => k tt (update r d' h)
                             end.
Proof.
  intros H. unfold bind at 1. rewrite (setitem_run _ _ _ _ _ H). now destruct (setcol c s d).
Qed.

Lemma bind_derive {B : Type} (f : DataFrame -> result DataFrame) (r : ref) (d : DataFrame)
  (k : ref -> M B) (h : store) :
  nth_error h r = Some d ->
  bind (derive f r) k h = match f d with
                          | inl e => inl e
                          | inr d' => k (List.length h) (h ++ [d'])
                          end.
Proof.
  intros H. unfold bind at 1. rewrite (derive_run _ _ _ _ H). now destruct (f d).
Qed.

Lemma update_update {A : Type} (r : nat) (x y : A) (h : list A) :
  update r y (update r x h) = update r y h.
Proof.
  revert r. induction h as [|a h IH]; intros [|r]; simpl; auto. now rewrite IH.
Qed.

Lemma nth_error_lt {A : Type} (h : list A) (r : nat) (d : A) :
  nth_error h r = Some d -> (r < List.length h)%nat.
Proof. intros H. apply nth_error_Some. congruence. Qed.

Lemma sort_by_date_run (df_subset : ref) (frequency : string) (h : store) (d : DataFrame) :
  nth_error h df_subset = Some d ->
  sort_by_date df_subset frequency h
  = match sort_frames frequency d with
    | inl e => inl e
    | inr (a, b, c) => inr (S (List.length h), update df_subset a h ++ [b; c])
    end.
Proof.
  intros Hd. pose proof (nth_error_lt _ _ _ Hd) as Hlt.
  assert (Hup : forall x, nth_error (update df_subset x h) df_subset = Some x)
    by (intros; now apply nth_error_update_same).
  assert (Hfin : forall a b c,
             bind (derive (sort_values b) df_subset)
               (fun r1 => bind (derive (drop_columns c) r1) (fun r2 => ret r2))
               (update df_subset a h)
             = match (let! d5 := sort_values b a in
                      let! d6 := drop_columns c d5 in inr (a, d5, d6)) with
               | inl e => inl e
               | inr (a, b, c) => inr (S (List.length h), update df_subset a h ++ [b; c])
               end).
  { intros a b c. rewrite (bind_derive _ _ _ _ _ (Hup a)).
    destruct (sort_values b a) as [e|d5]; [reflexivity|]. cbn [rbind].
    rewrite length_update.
    assert (Hn : nth_error (update df_subset a h ++ [d5]) (List.length h) = Some d5).
    { rewrite <- (length_update df_subset a h). apply nth_error_snoc_new. }
    rewrite (bind_derive _ _ _ _ _ Hn).
    destruct (drop_columns c d5) as [e|d6]; [reflexivity|]. cbn [rbind]. unfold ret.
    rewrite length_app, length_update, <- app_assoc. simpl.
    now rewrite Nat.add_1_r. }
  unfold sort_by_date, sort_frames.
  destruct (String.eqb frequency "Year").
  - rewrite (bind_getitem _ _ _ _ _ Hd).
    destruct (getcol "Date" d) as [e|dcol]; [reflexivity|]. cbn [rbind].
    rewrite bind_lift. destruct (astype_int dcol) as [e|y]; [reflexivity|]. cbn [rbind].
    rewrite (bind_setitem _ _ _ _ _ _ Hd).
    destruct (setcol "Year" y d) as [e|d1]; [reflexivity|]. cbn [rbind].
    apply Hfin.
  - assert (Hsub : sub_col frequency
                   = if String.eqb frequency "Quarter" then "QuarterNum" else "MonthNum")
      by reflexivity.
    assert (Hgen : forall sub,
      bind (getitem df_subset "Date") (fun d0 =>
        bind (lift (str_split_expand d0)) (fun parts =>
          bind (setitem_frame df_subset ["Year"; sub] parts) (fun _ =>
            bind (getitem df_subset "Year") (fun y =>
              bind (lift (astype_int y)) (fun y0 =>
                bind (setitem df_subset "Year" y0) (fun _ =>
                  bind (getitem df_subset sub) (fun q =>
                    bind (lift (astype_int q)) (fun q0 =>
                      bind (setitem df_subset sub q0) (fun _ =>
                        bind (derive (sort_values ["Measure"; "Year"; sub]) df_subset)
                          (fun r1 => bind (derive (drop_columns ["Year"; sub]) r1)
                                       (fun r2 => ret r2))))))))))) h
      = match (let! dcol := getcol "Date" d in
               let! parts := str_split_expand dcol in
               match parts with
               | [p0; p1] =>
                   let! d1 := setcol "Year" p0 d in
                   let! d2 := setcol sub p1 d1 in
                   let! y := getcol "Year" d2 in
                   let! y := astype_int y in
                   let! d3 := setcol "Year" y d2 in
                   let! q := getcol sub d3 in
                   let! q := astype_int q in
                   let! d4 := setcol sub q d3 in
                   let! d5 := sort_values ["Measure"; "Year"; sub] d4 in
                   let! d6 := drop_columns ["Year"; sub] d5 in
                   inr (d4, d5, d6)
               | _ => inl (ValueError "Columns must be same length as key")
               end) with
        | inl e => inl e
        | inr (a, b, c) => inr (S (List.length h), update df_subset a h ++ [b; c])
        end).
    { intros sub. rewrite (bind_getitem _ _ _ _ _ Hd).
      destruct (getcol "Date" d) as [e|dcol]; [reflexivity|]. cbn [rbind].
      rewrite bind_lift. destruct (str_split_expand dcol) as [e|parts]; [reflexivity|].
      cbn [rbind]. unfold setitem_frame.
      destruct parts as [|p0 [|p1 [|p2 parts]]]; try reflexivity.
      cbn [List.length Nat.eqb setitems].
      unfold bind at 1. rewrite (bind_setitem _ _ _ _ _ _ Hd).
      destruct (setcol "Year" p0 d) as [e|d1]; [reflexivity|]. cbn [rbind].
      rewrite (bind_setitem _ _ _ _ _ _ (Hup d1)).
      destruct (setcol sub p1 d1) as [e|d2]; [reflexivity|]. cbn [rbind].
      rewrite update_update. unfold ret at 1.
      rewrite (bind_getitem _ _ _ _ _ (Hup d2)).
      destruct (getcol "Year" d2) as [e|y]; [reflexivity|]. cbn [rbind].
      rewrite bind_lift. destruct (astype_int y) as [e|y0]; [reflexivity|]. cbn [rbind].
      rewrite (bind_setitem _ _ _ _ _ _ (Hup d2)).
      destruct (setcol "Year" y0 d2) as [e|d3]; [reflexivity|]. cbn [rbind].
      rewrite update_update.
      rewrite (bind_getitem _ _ _ _ _ (Hup d3)).
      destruct (getcol sub d3) as [e|q]; [reflexivity|]. cbn [rbind].
      rewrite bind_lift. destruct (astype_int q) as [e|q0]; [reflexivity|]. cbn [rbind].
      rewrite (bind_setitem _ _ _ _ _ _ (Hup d3)).
      destruct (setcol sub q0 d3) as [e|d4]; [reflexivity|]. cbn [rbind].
      rewrite update_update.
      apply Hfin. }
    rewrite Hsub. destruct (String.eqb frequency "Quarter"); apply Hgen.
Qed.

(** ** The frames of [sort_by_date] *)

Lemma int_cast_VInt (v w : value) : int_cast v = inr w -> exists z, w = VInt z.
Proof.
  destruct v as [u|z|[q| | |]|t|]; cbn [int_cast]; unfold to_int64; try discriminate.
  - destruct (py_int u) as [z|]; [|discriminate].
    destruct (in_int64 z); [|discriminate]. intros [= <-]. eauto.
  - destruct (in_int64 z); [|discriminate]. intros [= <-]. eauto.
  - destruct (in_int64 _); [|discriminate]. intros [= <-]. eauto.
Qed.

Lemma int_cast_int_of_cell (v : value) (z : Z) :
  int_cast v = inr (VInt z) <-> int_of_cell v = Some z.
Proof.
  unfold int_of_cell. split.
  - now intros ->.
  - destruct (int_cast v) as [e|w] eqn:E; [discriminate|].
    destruct (int_cast_VInt _ _ E) as (z' & ->). now intros [= ->].
Qed.

Lemma extends_setcol_inv (g gk gk' : DataFrame) cs (c : string) (vs : list value) :
  extends g gk cs -> setcol c vs gk = inr gk' -> extends g gk' ((c, vs) :: cs).
Proof.
  intros E H.
  assert (Hlen : List.length vs = List.length (rows g)).
  { rewrite <- (extends_length _ _ _ E). unfold setcol in H.
    destruct (Nat.eqb_spec (List.length vs) (List.length (rows gk))); [assumption|discriminate]. }
  destruct (extends_setcol _ _ _ c vs E Hlen) as (gk'' & H' & E'). congruence.
Qed.

Lemma extends_nth (g g' : DataFrame) cs (i : nat) (r' : Row) :
  extends g g' cs -> nth_error (rows g') i = Some r' ->
  exists r, nth_error (rows g) i = Some r
            /\ label r' = label r
            /\ forall c, match lookup c cs with
                         | Some vs => nth_error vs i = Some (cell c r')
                         | None => cell c r' = cell c r
                         end.
Proof.
  intros [Elab Ecol] Hi.
  pose proof (map_eq_nth_error _ _ _ _ _ Elab Hi) as Hlab.
  rewrite nth_error_map in Hlab.
  destruct (nth_error (rows g) i) as [r|] eqn:Hr; [|discriminate].
  simpl in Hlab. injection Hlab as Hlab. exists r. repeat split; [congruence|].
  intros c. specialize (Ecol c). destruct (lookup c cs) as [vs|]; destruct Ecol as [Ecol _].
  - exact (map_eq_nth_error _ _ _ _ _ Ecol Hi).
  - pose proof (map_eq_nth_error _ _ _ _ _ Ecol Hi) as H.
    rewrite nth_error_map, Hr in H. simpl in H. congruence.
Qed.

Lemma missing_column_None (cols : list string) (d : DataFrame) :
  missing_column cols d = None <-> forall c, In c cols -> has_column c d = true.
Proof.
  unfold missing_column. split.
  - intros H c Hc. pose proof (find_none _ _ H c Hc) as E. now apply negb_false_iff.
  - intros H. destruct (find _ cols) as [c|] eqn:E; [|reflexivity].
    apply find_some in E. destruct E as [E1 E2]. rewrite (H c E1) in E2. discriminate.
Qed.

Lemma sort_values_inv (by_ : list string) (d b : DataFrame) :
  sort_values by_ d = inr b ->
  columns b = columns d
  /\ rows b = stable_sort (rows_leb by_) (rows d)
  /\ (forall c, In c by_ -> has_column c d = true)
  /\ forallb (fun c => sortable (map (cell c) (rows d))) by_ = true.
Proof.
  unfold sort_values. destruct (missing_column by_ d) eqn:E; [discriminate|].
  destruct (forallb _ by_) eqn:E'; [|discriminate]. intros [= <-].
  repeat split. now apply missing_column_None.
Qed.


Lemma drop_columns_inv (cols : list string) (d c : DataFrame) :
  drop_columns cols d = inr c ->
  columns c = filter (fun x => negb (existsb (String.eqb x) cols)) (columns d)
  /\ rows c = map (fun r => fold_right del_cell r cols) (rows d)
  /\ forall x, In x cols -> has_column x d = true.
Proof.
  unfold drop_columns. destruct (missing_column cols d) eqn:E; [discriminate|].
  intros [= <-]. repeat split. now apply missing_column_None.
Qed.


Lemma getcol_inv (c : string) (d : DataFrame) (s : list value) :
  getcol c d = inr s -> has_column c d = true /\ s = map (cell c) (rows d).
Proof.
  unfold getcol. destruct (has_column c d); [|discriminate]. now intros [= <-].
Qed.

Lemma fold_max_ge (l : list nat) (n : nat) :
  In n l -> (n <= fold_right Nat.max 0 l)%nat.
Proof.
  induction l as [|a l IH]; simpl; [tauto|]. intros [->|H]; [lia|].
  specialize (IH H). lia.
Qed.


Lemma Forall2_nth_error_intro {A B : Type} (P : A -> B -> Prop) (l1 : list A) (l2 : list B) :
  List.length l1 = List.length l2 ->
  (forall i b, nth_error l2 i = Some b -> exists a, nth_error l1 i = Some a /\ P a b) ->
  Forall2 P l1 l2.
Proof.
  revert l2. induction l1 as [|a l1 IH]; intros [|b l2]; simpl; try discriminate.
  - constructor.
  - intros Hlen H. constructor.
    + destruct (H 0%nat b eq_refl) as (a' & [= <-] & HP). exact HP.
    + apply IH; [lia|]. intros i b' Hi. exact (H (S i) b' Hi).
Qed.

Lemma Forall2_nth_error {A B : Type} (P : A -> B -> Prop) (l1 : list A) (l2 : list B)
  (i : nat) (a : A) :
  Forall2 P l1 l2 -> nth_error l1 i = Some a ->
  exists b, nth_error l2 i = Some b /\ P a b.
Proof.
  intros H. revert i. induction H as [|x y l1 l2 HP H IH]; intros [|i]; simpl;
    try discriminate.
  - intros [= <-]. eauto.
  - apply IH.
Qed.

Lemma sub_col_not_Year (frequency : string) :
  String.eqb (sub_col frequency) "Year" = false
  /\ String.eqb "Year" (sub_col frequency) = false
  /\ String.eqb "Measure" (sub_col frequency) = false
  /\ String.eqb "Date" (sub_col frequency) = false.
Proof. unfold sub_col. destruct (String.eqb frequency "Quarter"); auto. Qed.

Lemma not_temp_Year (frequency c : string) :
  ~ In c (temp_cols frequency) -> String.eqb c "Year" = false.
Proof.
  intros H. destruct (String.eqb c "Year") eqn:E; [|reflexivity].
  apply String.eqb_eq in E. subst c. exfalso. apply H. unfold temp_cols.
  destruct (String.eqb frequency "Year"); simpl; auto.
Qed.

Lemma not_temp_sub (frequency c : string) :
  String.eqb frequency "Year" = false ->
  ~ In c (temp_cols frequency) -> String.eqb c (sub_col frequency) = false.
Proof.
  intros Hf H. destruct (String.eqb c (sub_col frequency)) eqn:E; [|reflexivity].
  apply String.eqb_eq in E. subst c. exfalso. apply H. unfold temp_cols.
  rewrite Hf. simpl. auto.
Qed.

Lemma decorated_period (frequency : string) (l1 l2 : list Row) :
  Forall2 (decorated frequency) l1 l2 ->
  forallb (fun r => is_some (period_key frequency r)) l1 = true.
Proof.
  induction 1 as [|r r4 l1 l2 (_ & _ & y & s & Hp & _) _ IH]; simpl; [reflexivity|].
  now rewrite Hp, IH.
Qed.

Lemma sort_frames_inv_year (frequency : string) (d a b c : DataFrame) :
  String.eqb frequency "Year" = true ->
  sort_frames frequency d = inr (a, b, c) ->
  sortable_frame frequency d = true
  /\ Forall2 (decorated frequency) (rows d) (rows a)
  /\ (forall x, has_column x a
                = has_column x d || existsb (String.eqb x) (temp_cols frequency))
  /\ columns b = columns a
  /\ rows b = stable_sort (rows_leb ("Measure" :: temp_cols frequency)) (rows a)
  /\ columns c = filter (fun x => negb (existsb (String.eqb x) (temp_cols frequency)))
                   (columns a)
  /\ rows c = map (fun r => fold_right del_cell r (temp_cols frequency)) (rows b).
Proof.
  intros Hf. unfold sort_frames, sortable_frame, temp_cols. rewrite Hf.
  destruct (getcol "Date" d) as [e|dcol] eqn:Hg; [discriminate|]. cbn [rbind].
  destruct (astype_int dcol) as [e|y] eqn:Hy; [discriminate|]. cbn [rbind].
  destruct (setcol "Year" y d) as [e|d1] eqn:Hs; [discriminate|]. cbn [rbind].
  destruct (sort_values ["Measure"; "Year"] d1) as [e|d2] eqn:Hsv; [discriminate|].
  cbn [rbind].
  destruct (drop_columns ["Year"] d2) as [e|d3] eqn:Hdr; [discriminate|]. cbn [rbind].
  intros [= <- <- <-].
  destruct (getcol_inv _ _ _ Hg) as [HD ->].
  pose proof (extends_setcol_inv _ _ _ _ _ _ (extends_refl d) Hs) as E.
  destruct (sort_values_inv _ _ _ Hsv) as (Hc2 & Hr2 & Hh2 & Hso).
  destruct (drop_columns_inv _ _ _ Hdr) as (Hc3 & Hr3 & _).
  assert (Hdec : Forall2 (decorated frequency) (rows d) (rows d1)).
  { apply Forall2_nth_error_intro; [symmetry; exact (extends_length _ _ _ E)|].
    intros i r4 Hi. destruct (extends_nth _ _ _ _ _ E Hi) as (r & Hr & Hl & Hcells).
    exists r. split; [exact Hr|]. split; [exact Hl|]. split.
    - intros x Hx. specialize (Hcells x). cbn [lookup] in Hcells.
      now rewrite (not_temp_Year _ _ Hx) in Hcells.
    - specialize (Hcells "Year"). cbn [lookup String.eqb Ascii.eqb Bool.eqb] in Hcells.
      assert (Hd : nth_error (map (cell "Date") (rows d)) i = Some (cell "Date" r))
        by now rewrite nth_error_map, Hr.
      destruct (mapM_nth_error _ _ _ _ _ Hy Hd) as (v & Hv & Hvi).
      destruct (int_cast_VInt _ _ Hv) as (z & ->).
      exists z, 0. unfold period_key. rewrite Hf.
      rewrite (proj1 (int_cast_int_of_cell _ _) Hv). repeat split.
      + congruence.
      + discriminate. }
  assert (Hcols : forall x, has_column x d1 = has_column x d || existsb (String.eqb x) ["Year"]).
  { intros x. rewrite (has_column_setcol _ _ _ _ _ Hs). simpl. now rewrite orb_false_r. }
  repeat split; try assumption.
  - rewrite HD, (decorated_period _ _ _ Hdec), orb_true_l, !andb_true_r. cbn [andb].
    pose proof (Hh2 "Measure" (or_introl eq_refl)) as HM. rewrite Hcols in HM.
    simpl in HM. rewrite orb_false_r in HM. rewrite HM. cbn [andb].
    simpl in Hso. apply andb_prop in Hso. destruct Hso as [Hso _].
    now rewrite (map_cell_setcol_other "Year" "Measure" _ _ _ Hs eq_refl) in Hso.
  - now rewrite Hc3, Hc2.
Qed.

Lemma str_split_expand_two (dcol p0 p1 : list value) :
  str_split_expand dcol = inr [p0; p1] ->
  dcol <> []
  /\ forall i v, nth_error dcol i = Some v ->
       exists a b,
         nth_error p0 i = Some a /\ nth_error p1 i = Some b
         /\ forall y s, int_cast a = inr y -> int_cast b = inr s ->
              exists u sa sb, v = VStr u /\ split_dash u = [sa; sb]
                              /\ a = VStr sa /\ b = VStr sb.
Proof.
  unfold str_split_expand.
  destruct (mapM _ dcol) as [e|pl] eqn:Hpl; [discriminate|]. cbn [rbind].
  set (width := fold_right Nat.max 0%nat (map (@List.length value) pl)).
  intros H. injection H as H. assert (Hw : width = 2%nat).
  { apply (f_equal (@List.length _)) in H. now rewrite length_map, length_seq in H. }
  assert (Hmax : forall p, In p pl -> (List.length p <= 2)%nat).
  { intros p Hp. rewrite <- Hw. apply fold_max_ge. now apply in_map. }
  rewrite Hw in H. cbn [seq map] in H. injection H as <- <-. split.
  { intros ->. simpl in Hpl. injection Hpl as <-. discriminate. }
  intros i v Hi. destruct (mapM_nth_error _ _ _ _ _ Hpl Hi) as (ps & Hps & Hpi).
  pose proof (Hmax ps (nth_error_In _ _ Hpi)) as Hlen.
  rewrite !nth_error_map, Hpi. cbn [option_map]. eexists. eexists.
  split; [reflexivity|]. split; [reflexivity|].
  intros y s Hy Hs.
  destruct v as [u|z|x|t|].
  - injection Hps as <-. exists u.
    destruct (split_dash u) as [|sa [|sb [|sc rest]]];
      simpl in *; try discriminate; try lia. now exists sa, sb.
  - simpl in Hps. discriminate.
  - destruct x; simpl in Hps; try discriminate. injection Hps as <-.
    simpl in Hy. discriminate.
  - destruct t; simpl in Hps; try discriminate. injection Hps as <-.
    simpl in Hy. discriminate.
  - simpl in Hps. injection Hps as <-. simpl in Hy. discriminate.
Qed.

Lemma sort_frames_inv_two (frequency : string) (d a b c : DataFrame) :
  String.eqb frequency "Year" = false ->
  sort_frames frequency d = inr (a, b, c) ->
  sortable_frame frequency d = true
  /\ Forall2 (decorated frequency) (rows d) (rows a)
  /\ (forall x, has_column x a
                = has_column x d || existsb (String.eqb x) (temp_cols frequency))
  /\ columns b = columns a
  /\ rows b = stable_sort (rows_leb ("Measure" :: temp_cols frequency)) (rows a)
  /\ columns c = filter (fun x => negb (existsb (String.eqb x) (temp_cols frequency)))
                   (columns a)
  /\ rows c = map (fun r => fold_right del_cell r (temp_cols frequency)) (rows b).
Proof.
  intros Hf. unfold sort_frames, sortable_frame, temp_cols. rewrite Hf.
  destruct (sub_col_not_Year frequency) as (S1 & S2 & S3 & S4).
  set (sub := sub_col frequency) in *.
  destruct (getcol "Date" d) as [e|dcol] eqn:Hg; [discriminate|]. cbn [rbind].
  destruct (str_split_expand dcol) as [e|parts] eqn:Hsp; [discriminate|]. cbn [rbind].
  destruct parts as [|p0 [|p1 [|p2 parts]]]; try discriminate.
  destruct (setcol "Year" p0 d) as [e|d1] eqn:Hs1; [discriminate|]. cbn [rbind].
  destruct (setcol sub p1 d1) as [e|d2] eqn:Hs2; [discriminate|]. cbn [rbind].
  pose proof (extends_setcol_inv _ _ _ _ _ _ (extends_refl d) Hs1) as E1.
  pose proof (extends_setcol_inv _ _ _ _ _ _ E1 Hs2) as E2.
  assert (G1 : getcol "Year" d2 = inr p0).
  { apply (extends_getcol _ _ _ _ _ E2). cbn [lookup]. now rewrite S2. }
  rewrite G1. cbn [rbind].
  destruct (astype_int p0) as [e|y0] eqn:Hy; [discriminate|]. cbn [rbind].
  destruct (setcol "Year" y0 d2) as [e|d3] eqn:Hs3; [discriminate|]. cbn [rbind].
  pose proof (extends_setcol_inv _ _ _ _ _ _ E2 Hs3) as E3.
  assert (G2 : getcol sub d3 = inr p1).
  { apply (extends_getcol _ _ _ _ _ E3). cbn [lookup]. now rewrite S1, String.eqb_refl. }
  rewrite G2. cbn [rbind].
  destruct (astype_int p1) as [e|q0] eqn:Hq; [discriminate|]. cbn [rbind].
  destruct (setcol sub q0 d3) as [e|d4] eqn:Hs4; [discriminate|]. cbn [rbind].
  pose proof (extends_setcol_inv _ _ _ _ _ _ E3 Hs4) as E4.
  destruct (sort_values ["Measure"; "Year"; sub] d4) as [e|d5] eqn:Hsv; [discriminate|].
  cbn [rbind].
  destruct (drop_columns ["Year"; sub] d5) as [e|d6] eqn:Hdr; [discriminate|]. cbn [rbind].
  intros [= <- <- <-].
  destruct (getcol_inv _ _ _ Hg) as [HD ->].
  destruct (sort_values_inv _ _ _ Hsv) as (Hc5 & Hr5 & Hh5 & Hso).
  destruct (drop_columns_inv _ _ _ Hdr) as (Hc6 & Hr6 & _).
  destruct (str_split_expand_two _ _ _ Hsp) as (Hne & Hsplit).
  assert (Hdec : Forall2 (decorated frequency) (rows d) (rows d4)).
  { apply Forall2_nth_error_intro; [symmetry; exact (extends_length _ _ _ E4)|].
    intros i r4 Hi. destruct (extends_nth _ _ _ _ _ E4 Hi) as (r & Hr & Hl & Hcells).
    exists r. split; [exact Hr|]. split; [exact Hl|]. split.
    - intros x Hx. specialize (Hcells x). cbn [lookup] in Hcells.
      pose proof (not_temp_Year _ _ Hx) as X1.
      pose proof (not_temp_sub _ _ Hf Hx) as X2. fold sub in X2.
      now rewrite X1, X2 in Hcells.
    - assert (Hd : nth_error (map (cell "Date") (rows d)) i = Some (cell "Date" r))
        by now rewrite nth_error_map, Hr.
      destruct (Hsplit _ _ Hd) as (va & vb & Ha & Hb & Hab).
      destruct (mapM_nth_error _ _ _ _ _ Hy Ha) as (vy & Hvy & Hyi).
      destruct (mapM_nth_error _ _ _ _ _ Hq Hb) as (vs & Hvs & Hqi).
      destruct (Hab _ _ Hvy Hvs) as (u & sa & sb & Hu & Hspl & -> & ->).
      destruct (int_cast_VInt _ _ Hvy) as (y & ->).
      destruct (int_cast_VInt _ _ Hvs) as (z & ->).
      exists y, z. unfold period_key. rewrite Hf, Hu, Hspl.
      rewrite (proj1 (int_cast_int_of_cell _ _) Hvy), (proj1 (int_cast_int_of_cell _ _) Hvs).
      split; [reflexivity|].
      pose proof (Hcells "Year") as CY. pose proof (Hcells sub) as CS.
      cbn [lookup] in CY, CS. rewrite S2 in CY. cbn [String.eqb Ascii.eqb Bool.eqb] in CY.
      rewrite String.eqb_refl in CS. split; [congruence|]. intros _.
      fold sub. congruence. }
  assert (Hcols : forall x, has_column x d4
                            = has_column x d || existsb (String.eqb x) ["Year"; sub]).
  { intros x. rewrite (has_column_setcol _ _ _ _ _ Hs4), (has_column_setcol _ _ _ _ _ Hs3),
      (has_column_setcol _ _ _ _ _ Hs2), (has_column_setcol _ _ _ _ _ Hs1). simpl.
    destruct (has_column x d), (String.eqb x "Year"), (String.eqb x sub); reflexivity. }
  assert (HMcell : map (cell "Measure") (rows d4) = map (cell "Measure") (rows d)).
  { destruct E4 as [_ E4]. specialize (E4 "Measure"). cbn [lookup] in E4.
    rewrite S3 in E4. cbn [String.eqb Ascii.eqb Bool.eqb] in E4.
    now destruct E4. }
  repeat split; try assumption.
  - rewrite HD, (decorated_period _ _ _ Hdec). cbn [andb orb].
    pose proof (Hh5 "Measure" (or_introl eq_refl)) as HM. rewrite Hcols in HM.
    assert (HMt : existsb (String.eqb "Measure") ["Year"; sub] = false)
      by (cbn [existsb]; rewrite S3; reflexivity).
    rewrite HMt, orb_false_r in HM. rewrite HM. cbn [andb].
    cbn [forallb] in Hso. apply andb_prop in Hso. destruct Hso as [Hso _].
    rewrite HMcell in Hso. rewrite Hso. cbn [andb].
    destruct (rows d); [now elim Hne|reflexivity].
  - now rewrite Hc6, Hc5.
Qed.

Lemma sort_frames_inv (frequency : string) (d a b c : DataFrame) :
  sort_frames frequency d = inr (a, b, c) ->
  sortable_frame frequency d = true
  /\ Forall2 (decorated frequency) (rows d) (rows a)
  /\ (forall x, has_column x a
                = has_column x d || existsb (String.eqb x) (temp_cols frequency))
  /\ columns b = columns a
  /\ rows b = stable_sort (rows_leb ("Measure" :: temp_cols frequency)) (rows a)
  /\ columns c = filter (fun x => negb (existsb (String.eqb x) (temp_cols frequency)))
                   (columns a)
  /\ rows c = map (fun r => fold_right del_cell r (temp_cols frequency)) (rows b).
Proof.
  destruct (String.eqb frequency "Year") eqn:Hf.
  - now apply sort_frames_inv_year.
  - now apply sort_frames_inv_two.
Qed.



Lemma extends_has_column (g g' : DataFrame) cs (c : string) :
  extends g g' cs ->
  has_column c g' = match lookup c cs with Some _ => true | None => has_column c g end.
Proof. intros [_ E]. specialize (E c). destruct (lookup c cs); now destruct E. Qed.

Lemma getcol_ok (c : string) (d : DataFrame) :
  has_column c d = true -> getcol c d = inr (map (cell c) (rows d)).
Proof. intros H. unfold getcol. now rewrite H. Qed.



(** ** The Period Sorter sorts (C6) *)



Lemma value_leb_refl (a : value) : value_leb a a = true.
Proof. now destruct (value_leb_total a a). Qed.

Lemma temp_cols_cases (frequency c : string) :
  In c (temp_cols frequency) -> c = "Year" \/ c = "QuarterNum" \/ c = "MonthNum".
Proof.
  unfold temp_cols, sub_col.
  destruct (String.eqb frequency "Year"), (String.eqb frequency "Quarter"); simpl;
    intuition.
Qed.

Lemma Date_not_temp (frequency : string) : ~ In "Date" (temp_cols frequency).
Proof. intros H. apply temp_cols_cases in H. destruct H as [H|[H|H]]; discriminate. Qed.

Lemma Measure_not_temp (frequency : string) : ~ In "Measure" (temp_cols frequency).
Proof. intros H. apply temp_cols_cases in H. destruct H as [H|[H|H]]; discriminate. Qed.

Lemma period_key_ext (frequency : string) (r1 r2 : Row) :
  cell "Date" r1 = cell "Date" r2 -> period_key frequency r1 = period_key frequency r2.
Proof. intros H. unfold period_key. now rewrite H. Qed.

Lemma cell_strip_other (cs : list string) (c : string) (r : Row) :
  ~ In c cs -> cell c (fold_right del_cell r cs) = cell c r.
Proof.
  induction cs as [|x cs IH]; simpl; intros H; [reflexivity|].
  rewrite cell_del_cell_other.
  - apply IH. tauto.
  - destruct (String.eqb c x) eqn:E; [|reflexivity].
    apply String.eqb_eq in E. subst. tauto.
Qed.

Lemma lookup_strip (cs : list string) (c : string) (r : Row) :
  In c cs -> lookup c (cells (fold_right del_cell r cs)) = None.
Proof.
  induction cs as [|x cs IH]; simpl; [tauto|]. intros H.
  destruct (String.eqb c x) eqn:E.
  - apply String.eqb_eq in E. subst x. apply lookup_del_same.
  - rewrite lookup_del_other by exact E.
    apply IH. destruct H as [->|H]; [|exact H]. rewrite String.eqb_refl in E. discriminate.
Qed.

Lemma label_strip (cs : list string) (r : Row) : label (fold_right del_cell r cs) = label r.
Proof. induction cs as [|x cs IH]; simpl; auto. Qed.

Lemma decorated_strip (frequency : string) (r r4 : Row) :
  decorated frequency r r4 -> same_but_temp frequency r (strip_temp frequency r4).
Proof.
  intros (Hl & Hc & _). unfold strip_temp. repeat split.
  - now rewrite label_strip.
  - intros c H. rewrite cell_strip_other by exact H. now apply Hc.
  - intros c H. now apply lookup_strip.
Qed.

Lemma same_but_temp_period (frequency : string) (r o : Row) :
  same_but_temp frequency r o -> period_key frequency o = period_key frequency r.
Proof.
  intros (_ & Hc & _). apply period_key_ext. apply Hc, Date_not_temp.
Qed.

Lemma chron_leb_strip (frequency : string) (r r' r4 r4' : Row) :
  decorated frequency r r4 -> decorated frequency r' r4' ->
  chron_leb frequency (strip_temp frequency r4) (strip_temp frequency r4')
  = rows_leb ("Measure" :: temp_cols frequency) r4 r4'.
Proof.
  intros D D'.
  pose proof (same_but_temp_period _ _ _ (decorated_strip _ _ _ D)) as P.
  pose proof (same_but_temp_period _ _ _ (decorated_strip _ _ _ D')) as P'.
  destruct (decorated_strip _ _ _ D) as (_ & C & _).
  destruct (decorated_strip _ _ _ D') as (_ & C' & _).
  destruct D as (_ & Hc & y & s & Hp & Hy & Hs).
  destruct D' as (_ & Hc' & y' & s' & Hp' & Hy' & Hs').
  unfold chron_leb, chron_key, rows_leb. rewrite P, P', Hp, Hp'.
  rewrite (C "Measure" (Measure_not_temp _)), (C' "Measure" (Measure_not_temp _)).
  rewrite <- (Hc "Measure" (Measure_not_temp _)), <- (Hc' "Measure" (Measure_not_temp _)).
  unfold temp_cols in *. destruct (String.eqb frequency "Year") eqn:Hf.
  - unfold period_key in Hp, Hp'. rewrite Hf in Hp, Hp'.
    destruct (int_of_cell (cell "Date" r)); [|discriminate].
    destruct (int_of_cell (cell "Date" r')); [|discriminate].
    injection Hp as <- <-. injection Hp' as <- <-.
    cbn [row_key map key_leb]. rewrite Hy, Hy', value_leb_refl. reflexivity.
  - cbn [row_key map key_leb]. rewrite Hy, Hy', (Hs eq_refl), (Hs' eq_refl). reflexivity.
Qed.

Lemma StronglySorted_map_in {A B : Type} (R : A -> A -> Prop) (R' : B -> B -> Prop)
  (f : A -> B) (l : list A) :
  StronglySorted R l ->
  (forall x y, In x l -> In y l -> R x y -> R' (f x) (f y)) ->
  StronglySorted R' (map f l).
Proof.
  induction 1 as [|a l Hs IH Ha]; intros H; simpl; constructor.
  - apply IH. intros x y Hx Hy. apply H; now right.
  - apply Forall_map. rewrite Forall_forall in *. intros y Hy.
    apply H; [now left|now right|now apply Ha].
Qed.


Lemma Forall2_In_r {A B : Type} (P : A -> B -> Prop) (l1 : list A) (l2 : list B) (b : B) :
  Forall2 P l1 l2 -> In b l2 -> exists a, In a l1 /\ P a b.
Proof.
  induction 1 as [|x y l1 l2 HP H IH]; simpl; [tauto|].
  intros [<-|Hb]; [eauto|]. destruct (IH Hb) as (a & Ha & HPa). eauto.
Qed.

Lemma Forall2_map_r {A B C : Type} (P : A -> B -> Prop) (Q : A -> C -> Prop) (f : B -> C)
  (l1 : list A) (l2 : list B) :
  Forall2 P l1 l2 -> (forall a b, P a b -> Q a (f b)) -> Forall2 Q l1 (map f l2).
Proof. induction 1; intros HPQ; simpl; constructor; auto. Qed.


(** What the frames of a run of [sort_by_date] that returns are like. *)
Lemma sort_frames_sorted (frequency : string) (d a b out : DataFrame) :
  sort_frames frequency d = inr (a, b, out) ->
  (exists l, Permutation (rows d) l
             /\ Forall2 (same_but_temp frequency) l (rows out))
  /\ StronglySorted (fun r1 r2 => chron_leb frequency r1 r2 = true) (rows out)
  /\ (forall r, In r (rows out) -> exists p, period_key frequency r = Some p)
  /\ (forall c, In c (temp_cols frequency) -> has_column c a = true)
  /\ (forall c, In c (temp_cols frequency) -> has_column c out = false)
  /\ (forall c, ~ In c (temp_cols frequency) -> has_column c out = has_column c d).
Proof.
  intros Hsf.
  destruct (sort_frames_inv _ _ _ _ _ Hsf) as (Hwf & Hdec & Hcols & Hcb & Hrb & Hco & Hro).
  change (rows out = map (strip_temp frequency) (rows b)) in Hro.
  assert (Hperm : Permutation (rows a) (rows b))
    by (rewrite Hrb; symmetry; apply stable_sort_perm).
  destruct (Permutation_Forall2 Hperm (Forall2_flip Hdec)) as (l & Hl & Hfl).
  apply Forall2_flip in Hfl.
  assert (Hsrt : StronglySorted (fun r1 r2 => chron_leb frequency r1 r2 = true) (rows out)).
  { rewrite Hro.
    apply StronglySorted_map_in
      with (R := fun r1 r2 => rows_leb ("Measure" :: temp_cols frequency) r1 r2 = true).
    - rewrite Hrb. apply stable_sort_sorted; [apply rows_leb_total|apply rows_leb_trans].
    - intros x y Hx Hy Hxy.
      destruct (Forall2_In_r _ _ _ _ Hfl Hx) as (rx & _ & Dx).
      destruct (Forall2_In_r _ _ _ _ Hfl Hy) as (ry & _ & Dy).
      now rewrite (chron_leb_strip _ _ _ _ _ Dx Dy). }
  assert (Hsame : Forall2 (same_but_temp frequency) l (rows out)).
  { rewrite Hro. apply (Forall2_map_r _ _ _ _ _ Hfl). apply decorated_strip. }
  split; [exists l; split; assumption|]. split; [exact Hsrt|].
  split; [|split; [|split]].
  - intros r Hr. destruct (Forall2_In_r _ _ _ _ Hsame Hr) as (r0 & Hr0 & S0).
    rewrite (same_but_temp_period _ _ _ S0).
    apply (Permutation_in _ (Permutation_sym Hl)) in Hr0.
    unfold sortable_frame in Hwf.
    apply andb_prop in Hwf. destruct Hwf as [Hwf _].
    apply andb_prop in Hwf. destruct Hwf as [_ HP].
    rewrite forallb_forall in HP. specialize (HP r0 Hr0).
    destruct (period_key frequency r0); [eauto|discriminate].
  - intros c Hc. rewrite Hcols. apply existsb_eqb_In in Hc. rewrite Hc. apply orb_true_r.
  - intros c Hc. unfold has_column. rewrite Hco.
    apply not_true_is_false. intros H. apply existsb_eqb_In, filter_In in H.
    destruct H as [_ H]. apply negb_true_iff in H.
    apply existsb_eqb_In in Hc. congruence.
  - intros c Hc.
    assert (Hn : existsb (String.eqb c) (temp_cols frequency) = false).
    { apply not_true_is_false. intros H. now apply existsb_eqb_In in H. }
    pose proof (Hcols c) as Ha. rewrite Hn, orb_false_r in Ha. rewrite <- Ha.
    unfold has_column. rewrite Hco.
    destruct (existsb (String.eqb c) (columns a)) eqn:E.
    + apply existsb_eqb_In, filter_In. split; [now apply existsb_eqb_In|].
      now rewrite Hn.
    + apply not_true_is_false. intros H. apply existsb_eqb_In, filter_In in H.
      destruct H as [H _]. apply existsb_eqb_In in H. congruence.
Qed.


(** A run of [sort_by_date] that returns leaves its helper columns in the
    frame it was given. *)
Lemma sort_by_date_changes_argument (df_subset : ref) (frequency : string)
  (h h' : store) (r : ref) :
  sort_by_date df_subset frequency h = inr (r, h') ->
  exists d a, nth_error h df_subset = Some d
              /\ nth_error h' df_subset = Some a
              /\ has_column "Year" a = true
              /\ r <> df_subset.
Proof.
  intros H. destruct (nth_error h df_subset) as [d|] eqn:Hd.
  - rewrite (sort_by_date_run _ _ _ _ Hd) in H.
    destruct (sort_frames frequency d) as [e|[[a b] c]] eqn:Hsf; [discriminate|].
    injection H as <- <-. exists d, a. split; [reflexivity|].
    pose proof (nth_error_lt _ _ _ Hd) as Hlt.
    split; [|split].
    + rewrite nth_error_app1 by (now rewrite length_update).
      now apply nth_error_update_same.
    + destruct (sort_frames_sorted _ _ _ _ _ Hsf) as (_ & _ & _ & Ha & _).
      apply Ha. unfold temp_cols. destruct (String.eqb frequency "Year"); simpl; auto.
    + lia.
  - exfalso. unfold sort_by_date in H.
    destruct (String.eqb frequency "Year"); [|destruct (String.eqb frequency "Quarter")];
      unfold bind at 1, getitem, bind, read in H; rewrite Hd in H; discriminate.
Qed.


(** C3.  The Period Sorter changes the frame it is given: after
    [sort_by_date] on a two-row yearly table, the caller's frame has gained
    the helper column "Year", and the frame returned is another object. *)
Theorem sort_by_date_mutates_argument :
  exists r h' after,
    sort_by_date 0%nat "Year" [Sample.two_years] = inr (r, h')
    /\ nth_error h' 0 = Some after
    /\ columns Sample.two_years = ["Measure"; "Date"; "frequency"; "Rate"]
    /\ columns after = ["Measure"; "Date"; "frequency"; "Rate"; "Year"]
    /\ map (cell "Year") (rows after) = [VInt 2024; VInt 2023]
    /\ r <> 0%nat.
Proof.
  do 3 eexists. split; [vm_compute; reflexivity|].
  split; [vm_compute; reflexivity|].
  repeat split; try (vm_compute; reflexivity). discriminate.
Qed.

(** C6.  On a table with no row the Period Sorter raises for the
    frequencies "Quarter" and "Month": the split of an empty Date column has
    no column to assign to the two helper columns.  For "Year" it returns
    the empty table. *)
Theorem sort_by_date_no_rows :
  sort_by_date 0%nat "Quarter" [Sample.no_rows]
  = inl (ValueError "Columns must be same length as key")
  /\ sort_by_date 0%nat "Month" [Sample.no_rows]
     = inl (ValueError "Columns must be same length as key")
  /\ exists r h', sort_by_date 0%nat "Year" [Sample.no_rows] = inr (r, h')
                  /\ nth_error h' r = Some Sample.no_rows.
Proof.
  split; [vm_compute; reflexivity|]. split; [vm_compute; reflexivity|].
  do 2 eexists. split; vm_compute; reflexivity.
Qed.

(** ** Running [aggregate_dataframe] *)

Lemma nth_error_snoc_at {A : Type} (X : list A) (x : A) (n : nat) :
  List.length X = n -> nth_error (X ++ [x]) n = Some x.
Proof. intros <-. apply nth_error_snoc_new. Qed.

Lemma update_snoc_at {A : Type} (X : list A) (x y : A) (n : nat) :
  List.length X = n -> update n y (X ++ [x]) = X ++ [y].
Proof. intros <-. apply update_snoc_new. Qed.

Lemma bind_setitem_scalar {B : Type} (r : ref) (c : string) (v : value) (d : DataFrame)
  (k : unit -> M B) (h : store) :
  nth_error h r = Some d ->
  bind (setitem_scalar r c v) k h = k tt (update r (setcol_scalar c v d) h).
Proof.
  intros H. unfold bind at 1, setitem_scalar. now rewrite (bind_read _ _ _ _ H).
Qed.

Lemma aggregate_dataframe_run (df : ref) (date_col : string)
  (group_by_cols sum_cols : list string) (frequency : string) (h : store) (d : DataFrame) :
  nth_error h df = Some d ->
  aggregate_dataframe df date_col group_by_cols sum_cols frequency h
  = match agg_frames date_col group_by_cols sum_cols frequency d with
    | inl e => inl e
    | inr (sub, agg1, agg2) =>
        match sort_frames frequency agg2 with
        | inl e => inl e
        | inr (a, b, c) =>
            match with_row_numbers c with
            | inl e => inl e
            | inr out => inr ((List.length h + 4)%nat, h ++ [sub; agg1; a; b; out])
            end
        end
    end.
Proof.
  intros Hd. unfold aggregate_dataframe, agg_frames.
  set (gcols := if existsb (String.eqb date_col) group_by_cols
                then group_by_cols else group_by_cols ++ [date_col]).
  rewrite (bind_derive _ _ _ _ _ Hd).
  destruct (select (gcols ++ sum_cols) d) as [e|sub]; [reflexivity|]. cbn [rbind].
  rewrite (bind_derive _ _ _ _ _ (nth_error_snoc_new h sub)).
  destruct (groupby_sum_reset_index gcols sum_cols sub) as [e|agg0]; [reflexivity|].
  cbn [rbind]. set (h1 := h ++ [sub]).
  rewrite (bind_setitem_scalar _ _ _ _ _ _ (nth_error_snoc_new h1 agg0)), update_snoc_new.
  set (agg := setcol_scalar "frequency" (VStr frequency) agg0).
  rewrite (bind_getitem _ _ _ _ _ (nth_error_snoc_new h1 agg)).
  destruct (getcol "Numerator" agg) as [e|n]; [reflexivity|]. cbn [rbind].
  rewrite (bind_getitem _ _ _ _ _ (nth_error_snoc_new h1 agg)).
  destruct (getcol "Denominator" agg) as [e|dn]; [reflexivity|]. cbn [rbind].
  rewrite bind_lift. destruct (series_binop fdiv n dn) as [e|nd]; [reflexivity|].
  cbn [rbind].
  rewrite (bind_getitem _ _ _ _ _ (nth_error_snoc_new h1 agg)).
  destruct (getcol "Multiplier" agg) as [e|m]; [reflexivity|]. cbn [rbind].
  rewrite bind_lift. destruct (series_binop fmul nd m) as [e|rate]; [reflexivity|].
  cbn [rbind].
  rewrite (bind_setitem _ _ _ _ _ _ (nth_error_snoc_new h1 agg)).
  destruct (setcol "Rate" rate agg) as [e|agg1]; [reflexivity|]. cbn [rbind].
  rewrite update_snoc_new.
  rewrite (bind_derive _ _ _ _ _ (nth_error_snoc_new h1 agg1)). cbn [rbind].
  set (h2 := h1 ++ [agg1]). set (agg2 := rename_column date_col "Date" agg1).
  unfold bind at 1. rewrite (sort_by_date_run _ _ _ _ (nth_error_snoc_new h2 agg2)).
  destruct (sort_frames frequency agg2) as [e|[[a b] c]]; [reflexivity|].
  rewrite update_snoc_new.
  assert (Hl : List.length ((h2 ++ [a]) ++ [b]) = S (List.length (h2 ++ [agg2])))
    by (rewrite !length_app; simpl; lia).
  replace ((h2 ++ [a]) ++ [b; c]) with (((h2 ++ [a]) ++ [b]) ++ [c])
    by (now rewrite <- !app_assoc).
  rewrite (bind_read _ _ _ _ (nth_error_snoc_at _ c _ Hl)).
  unfold with_row_numbers. rewrite bind_lift.
  destruct (groupby_cumcount_desc "Measure" c) as [e|cc]; [reflexivity|]. cbn [rbind].
  rewrite bind_lift. destruct (series_add_int 1 cc) as [e|rn]; [reflexivity|].
  cbn [rbind]. rewrite (bind_setitem _ _ _ _ _ _ (nth_error_snoc_at _ c _ Hl)).
  destruct (setcol "RowNumber" rn c) as [e|out]; [reflexivity|].
  rewrite (update_snoc_at _ _ _ _ Hl). unfold ret. f_equal. f_equal.
  - unfold h2, h1. rewrite !length_app. simpl. lia.
  - unfold h2, h1. now rewrite <- !app_assoc.
Qed.

(** ** The aggregated frame has a Measure on every row *)

Lemma group_keys_sound_gen (by_ : list string) (rs : list Row) (k : list value) :
  In k (group_keys by_ rs) ->
  exists r0, In r0 rs /\ k = row_key by_ r0 /\ no_null k = true.
Proof.
  unfold group_keys. intros H. apply stable_sort_In, distinct_keys_In, filter_In in H.
  destruct H as [H Hn]. apply in_map_iff in H. destruct H as (r0 & <- & Hr0). eauto.
Qed.

Lemma In_enumerate_from {A : Type} (n i : nat) (a : A) (l : list A) :
  In (i, a) (enumerate_from n l) -> In a l.
Proof.
  revert n. induction l as [|x l IH]; simpl; intros n; [tauto|].
  intros [[= _ <-]|H]; [now left|right; eauto].
Qed.

Lemma lookup_app_some {V : Type} (c : string) (kv kv' : list (string * V)) (v : V) :
  lookup c kv = Some v -> lookup c (kv ++ kv') = Some v.
Proof.
  induction kv as [|[k w] kv IH]; simpl; [discriminate|].
  destruct (String.eqb c k); auto.
Qed.

Lemma lookup_combine_In (c : string) (cs : list string) (vs : list value) :
  In c cs -> List.length cs = List.length vs ->
  exists v, lookup c (combine cs vs) = Some v /\ In v vs.
Proof.
  revert vs. induction cs as [|x cs IH]; intros [|v vs]; simpl; try tauto; try discriminate.
  intros Hc Hl. destruct (String.eqb c x) eqn:E; [eauto|].
  destruct Hc as [->|Hc]; [rewrite String.eqb_refl in E; discriminate|].
  destruct (IH vs Hc) as (w & Hw & Hin); [lia|]. eauto.
Qed.

Lemma groupby_sum_keys_not_null (by_ sum_cols : list string) (d agg : DataFrame)
  (c : string) (row : Row) :
  groupby_sum_reset_index by_ sum_cols d = inr agg ->
  In c by_ -> In row (rows agg) -> isnull (cell c row) = false.
Proof.
  unfold groupby_sum_reset_index.
  destruct (missing_column _ d); [discriminate|].
  destruct (existsb _ sum_cols); [discriminate|].
  destruct (mapM _ (enumerate_from 0 _)) as [e|rs] eqn:Hrs; [discriminate|].
  cbn [rbind]. intros [= <-] Hc Hrow. cbn [rows] in Hrow.
  destruct (mapM_In _ _ _ _ Hrs Hrow) as ([i k] & Hik & Hf). cbn [fst snd] in Hf.
  destruct (mapM _ sum_cols) as [e|sums]; [discriminate|]. cbn [rbind] in Hf.
  injection Hf as <-. apply In_enumerate_from in Hik.
  destruct (group_keys_sound_gen _ _ _ Hik) as (r0 & _ & -> & Hn).
  destruct (lookup_combine_In c by_ (row_key by_ r0) Hc) as (v & Hv & Hin).
  { unfold row_key. now rewrite length_map. }
  unfold cell. cbn [cells]. rewrite (lookup_app_some _ _ _ _ Hv).
  unfold no_null in Hn. rewrite forallb_forall in Hn.
  now apply negb_true_iff, Hn.
Qed.

Lemma lookup_rename (old new c : string) (kv : list (string * value)) :
  String.eqb c old = false -> String.eqb c new = false ->
  lookup c (map (fun kv => (if String.eqb (fst kv) old then new else fst kv, snd kv)) kv)
  = lookup c kv.
Proof.
  intros H1 H2. induction kv as [|[k w] kv IH]; simpl; [reflexivity|].
  destruct (String.eqb k old) eqn:E.
  - apply String.eqb_eq in E. subst k. now rewrite H2, H1.
  - now rewrite IH.
Qed.

Lemma cell_rename (old new c : string) (d : DataFrame) :
  String.eqb c old = false -> String.eqb c new = false ->
  map (cell c) (rows (rename_column old new d)) = map (cell c) (rows d).
Proof.
  intros H1 H2. unfold rename_column. cbn [rows]. rewrite map_map.
  apply map_ext. intros r. unfold cell. cbn [cells]. now rewrite lookup_rename.
Qed.

Lemma has_column_rename (old new c : string) (d : DataFrame) :
  String.eqb c new = false ->
  has_column c (rename_column old new d) = true ->
  String.eqb c old = false /\ has_column c d = true.
Proof.
  intros Hn H. unfold has_column, rename_column in H. cbn [columns] in H.
  apply existsb_eqb_In, in_map_iff in H. destruct H as (k & Hk & Hin).
  destruct (String.eqb k old) eqn:E.
  - subst c. rewrite String.eqb_refl in Hn. discriminate.
  - subst k. split; [exact E|]. now apply existsb_eqb_In.
Qed.

Lemma agg_frames_measure (date_col : string) (group_by_cols sum_cols : list string)
  (frequency : string) (d sub agg1 agg2 : DataFrame) :
  agg_frames date_col group_by_cols sum_cols frequency d = inr (sub, agg1, agg2) ->
  In "Measure" group_by_cols ->
  has_column "Measure" agg2 = true ->
  forallb has_measure (rows agg2) = true.
Proof.
  unfold agg_frames.
  set (gcols := if existsb (String.eqb date_col) group_by_cols
                then group_by_cols else group_by_cols ++ [date_col]).
  destruct (select (gcols ++ sum_cols) d) as [e|sub0]; [discriminate|]. cbn [rbind].
  destruct (groupby_sum_reset_index gcols sum_cols sub0) as [e|agg0] eqn:Hg;
    [discriminate|]. cbn [rbind].
  destruct (getcol "Numerator" _) as [e|n]; [discriminate|]. cbn [rbind].
  destruct (getcol "Denominator" _) as [e|dn]; [discriminate|]. cbn [rbind].
  destruct (series_binop fdiv n dn) as [e|nd]; [discriminate|]. cbn [rbind].
  destruct (getcol "Multiplier" _) as [e|m]; [discriminate|]. cbn [rbind].
  destruct (series_binop fmul nd m) as [e|rate]; [discriminate|]. cbn [rbind].
  destruct (setcol "Rate" rate _) as [e|agg] eqn:Hs; [discriminate|]. cbn [rbind].
  intros [= <- <- <-] HM Hcol.
  destruct (has_column_rename date_col "Date" "Measure" _ eq_refl Hcol) as [Hdc _].
  assert (HMg : In "Measure" gcols).
  { unfold gcols. destruct (existsb _ group_by_cols); [exact HM|].
    apply in_or_app. now left. }
  rewrite <- (forallb_map (cell "Measure") (fun v => negb (isnull v))).
  rewrite (cell_rename date_col "Date" "Measure" _ Hdc eq_refl).
  rewrite (map_cell_setcol_other "Rate" "Measure" _ _ _ Hs eq_refl).
  unfold setcol_scalar. cbn [rows]. rewrite map_map.
  apply forallb_forall. intros v Hv. apply in_map_iff in Hv.
  destruct Hv as (row & <- & Hrow).
  rewrite cell_set_cell_other by reflexivity.
  now rewrite (groupby_sum_keys_not_null _ _ _ _ _ _ Hg HMg Hrow).
Qed.

(** ** RowNumber (C5) *)

Lemma lookup_combine_map {V : Type} (f : string -> V) (c : string) (cs : list string) :
  In c cs -> lookup c (combine cs (map f cs)) = Some (f c).
Proof.
  induction cs as [|x cs IH]; simpl; [tauto|]. intros H.
  destruct (String.eqb c x) eqn:E.
  - apply String.eqb_eq in E. now subst.
  - destruct H as [->|H]; [rewrite String.eqb_refl in E; discriminate|auto].
Qed.

Lemma lookup_map_pair {V : Type} (f : string -> V) (c : string) (cs : list string) :
  In c cs -> lookup c (map (fun x => (x, f x)) cs) = Some (f c).
Proof.
  induction cs as [|x cs IH]; simpl; [tauto|]. intros H.
  destruct (String.eqb c x) eqn:E.
  - apply String.eqb_eq in E. now subst.
  - destruct H as [->|H]; [rewrite String.eqb_refl in E; discriminate|auto].
Qed.




Lemma cell_select (cols : list string) (d sub : DataFrame) (c : string) :
  select cols d = inr sub -> In c cols ->
  map (cell c) (rows sub) = map (cell c) (rows d).
Proof.
  unfold select. destruct (missing_column cols d); [discriminate|].
  intros [= <-] Hc. cbn [rows]. rewrite map_map. apply map_ext. intros r.
  unfold cell at 1. cbn [cells]. now rewrite (lookup_map_pair (fun c => cell c r)).
Qed.









Lemma length_later_in_group (c : string) (rs : list Row) :
  List.length (later_in_group c rs) = List.length rs.
Proof. induction rs as [|a rs IH]; simpl; auto. Qed.



Lemma with_row_numbers_spec (c : DataFrame) :
  has_column "Measure" c = true ->
  forallb has_measure (rows c) = true ->
  exists out,
    with_row_numbers c = inr out
    /\ extends c out
         [("RowNumber",
           map (fun n => VInt (wrap64 (Z.of_nat n + 1))) (later_in_group "Measure" (rows c)))].
Proof.
  intros HM Hn. unfold with_row_numbers, groupby_cumcount_desc. rewrite HM.
  replace (existsb (fun r => isnull (cell "Measure" r)) (rows c)) with false.
  2:{ symmetry. apply not_true_is_false. intros H. apply existsb_exists in H.
      destruct H as (r & Hr & Hnull). rewrite forallb_forall in Hn.
      specialize (Hn r Hr). unfold has_measure in Hn. rewrite Hnull in Hn. discriminate. }
  cbn [rbind]. unfold series_add_int.
  rewrite (mapM_inr _ (fun v => match v with
                                | VInt z => VInt (wrap64 (z + 1))
                                | _ => v
                                end)).
  2:{ intros v Hv. apply in_map_iff in Hv. destruct Hv as (n & <- & _). reflexivity. }
  cbn [rbind]. rewrite map_map.
  apply (extends_setcol c c [] "RowNumber" _ (extends_refl c)).
  now rewrite length_map, length_later_in_group.
Qed.



(** ** The Rate of an aggregated row (C7) *)




Lemma rate_of_sums_ext (f : string) (r r' : Row) :
  (forall c, In c rate_cols -> cell c r' = cell c r) ->
  cell "frequency" r = VStr f /\ rate_of_sums r ->
  cell "frequency" r' = VStr f /\ rate_of_sums r'.
Proof.
  intros H [Hf (n & dn & m & H1 & H2 & H3 & H4)].
  assert (E1 := H "Numerator"). assert (E2 := H "Denominator").
  assert (E3 := H "Multiplier"). assert (E4 := H "Rate"). assert (E5 := H "frequency").
  unfold rate_cols in *. cbn [In] in *.
  split; [rewrite E5; tauto|]. exists n, dn, m.
  rewrite E1, E2, E3, E4; tauto.
Qed.

Lemma rate_col_not_temp (frequency c : string) :
  In c rate_cols -> ~ In c (temp_cols frequency).
Proof.
  intros Hc H. apply temp_cols_cases in H. unfold rate_cols in Hc. cbn [In] in Hc.
  destruct Hc as [<-|[<-|[<-|[<-|[<-|[]]]]]]; destruct H as [H|[H|H]]; discriminate.
Qed.

Lemma mapM_map_eq {A B C : Type} (f : A -> result B) (g : B -> C) (k : A -> C)
  (l : list A) (l' : list B) :
  mapM f l = inr l' -> (forall a b, f a = inr b -> g b = k a) -> map g l' = map k l.
Proof.
  revert l'. induction l as [|a l IH]; simpl; intros l' H Hgk.
  - now injection H as <-.
  - destruct (f a) as [e|b] eqn:Ea; [discriminate|]. cbn [rbind] in H.
    destruct (mapM f l) as [e|bs]; [discriminate|]. cbn [rbind] in H.
    injection H as <-. simpl. f_equal; auto.
Qed.

Lemma map_fst_enumerate_from {A : Type} (n : nat) (l : list A) :
  map fst (enumerate_from n l) = seq n (List.length l).
Proof. revert n. induction l as [|a l IH]; simpl; intros n; [reflexivity|]. now rewrite IH. Qed.

Lemma groupby_sum_labels (by_ sum_cols : list string) (d agg : DataFrame) :
  groupby_sum_reset_index by_ sum_cols d = inr agg -> NoDup (map label (rows agg)).
Proof.
  unfold groupby_sum_reset_index.
  destruct (missing_column (by_ ++ sum_cols) d); [discriminate|].
  destruct (existsb _ sum_cols); [discriminate|].
  destruct (mapM _ (enumerate_from 0 (group_keys by_ (rows d)))) as [e|rs] eqn:E;
    [discriminate|].
  cbn [rbind]. intros [= <-]. cbn [rows].
  rewrite (mapM_map_eq _ label fst _ _ E).
  - rewrite map_fst_enumerate_from. apply seq_NoDup.
  - intros ik b Hb. destruct (mapM _ sum_cols); [discriminate|].
    cbn [rbind] in Hb. now injection Hb as <-.
Qed.

Lemma has_column_rename_other (old new c : string) (d : DataFrame) :
  String.eqb c old = false -> has_column c d = true ->
  has_column c (rename_column old new d) = true.
Proof.
  unfold has_column, rename_column. cbn [columns]. intros Hc H.
  apply existsb_exists in H. destruct H as (x & Hx & E). apply String.eqb_eq in E. subst x.
  apply existsb_exists. exists c. split; [|apply String.eqb_refl].
  apply in_map_iff. exists c. now rewrite Hc.
Qed.

Lemma cell_rename_row (old new c : string) (r : Row) :
  String.eqb c old = false -> String.eqb c new = false ->
  cell c (mkRow (label r)
            (map (fun kv => (if String.eqb (fst kv) old then new else fst kv, snd kv))
                 (cells r)))
  = cell c r.
Proof. intros H1 H2. unfold cell. cbn [cells]. now rewrite lookup_rename. Qed.

Lemma f64_values_nth (e : exn) (s : list value) (xs : list f64) (i : nat) (v : value) :
  f64_values e s = inr xs -> nth_error s i = Some v ->
  exists x, num_of v = Some x /\ nth_error xs i = Some x.
Proof.
  intros H Hi. destruct (mapM_nth_error _ _ _ _ _ H Hi) as (x & Hx & Hxs).
  exists x. split; [|exact Hxs]. destruct (num_of v); [now injection Hx as ->|discriminate].
Qed.

(** The frames of the aggregation, before the sort. *)
Lemma agg_frames_rows (date_col : string) (group_by_cols sum_cols : list string)
  (frequency : string) (d sub agg1 agg2 : DataFrame) :
  agg_frames date_col group_by_cols sum_cols frequency d = inr (sub, agg1, agg2) ->
  In date_col date_cols ->
  has_column "Rate" agg2 = true
  /\ has_column "frequency" agg2 = true
  /\ NoDup (map label (rows agg2))
  /\ forall row, In row (rows agg2) ->
       cell "frequency" row = VStr frequency /\ rate_of_sums row.
Proof.
  unfold agg_frames. cbv zeta.
  set (by_ := if existsb (String.eqb date_col) group_by_cols
              then group_by_cols else group_by_cols ++ [date_col]).
  destruct (select (by_ ++ sum_cols) d) as [e|sub0]; [discriminate|]. cbn [rbind].
  destruct (groupby_sum_reset_index by_ sum_cols sub0) as [e|g0] eqn:Hg; [discriminate|].
  cbn [rbind]. set (ga := setcol_scalar "frequency" (VStr frequency) g0).
  destruct (getcol "Numerator" ga) as [e|n] eqn:Hn; [discriminate|]. cbn [rbind].
  destruct (getcol "Denominator" ga) as [e|dn] eqn:Hdn; [discriminate|]. cbn [rbind].
  unfold series_binop at 1.
  destruct (f64_values _ n) as [e|xs] eqn:Hxs; [discriminate|]. cbn [rbind].
  destruct (f64_values _ dn) as [e|ys] eqn:Hys; [discriminate|]. cbn [rbind].
  destruct (getcol "Multiplier" ga) as [e|m] eqn:Hm; [discriminate|]. cbn [rbind].
  unfold series_binop. rewrite f64_values_VFloat. cbn [rbind].
  destruct (f64_values _ m) as [e|zs] eqn:Hzs; [discriminate|]. cbn [rbind].
  set (rate_ := map VFloat (map2 fmul (map2 fdiv xs ys) zs)).
  destruct (setcol "Rate" rate_ ga) as [e|g1] eqn:Hset; [discriminate|]. cbn [rbind].
  intros [= <- <- <-] Hdate.
  assert (Hold : forall c, In c rate_cols -> String.eqb c date_col = false
                                            /\ String.eqb c "Date" = false).
  { intros c Hc. unfold rate_cols, date_cols in *. cbn [In] in *.
    destruct Hc as [<-|[<-|[<-|[<-|[<-|[]]]]]];
      destruct Hdate as [<-|[<-|[<-|[]]]]; split; reflexivity. }
  pose proof (extends_setcol_inv _ _ _ _ _ _ (extends_refl ga) Hset) as E.
  apply getcol_inv in Hn, Hdn, Hm.
  destruct Hn as [_ ->], Hdn as [_ ->], Hm as [_ ->].
  split; [|split; [|split]].
  - apply has_column_rename_other; [apply (Hold "Rate"); unfold rate_cols; simpl; tauto|].
    rewrite (has_column_setcol _ "Rate" _ _ _ Hset). apply orb_true_r.
  - apply has_column_rename_other;
      [apply (Hold "frequency"); unfold rate_cols; simpl; tauto|].
    rewrite (has_column_setcol _ "frequency" _ _ _ Hset). apply orb_true_iff. left.
    unfold ga, setcol_scalar, has_column. cbn [columns].
    apply existsb_exists. exists "frequency". split; [|reflexivity].
    apply In_add_column. now right.
  - replace (map label (rows (rename_column date_col "Date" g1)))
      with (map label (rows g0)); [apply (groupby_sum_labels _ _ _ _ Hg)|].
    unfold rename_column. cbn [rows]. rewrite map_map.
    transitivity (map label (rows g1)); [|apply map_ext; reflexivity].
    destruct E as [-> _]. unfold ga, setcol_scalar. cbn [rows]. rewrite map_map.
    apply map_ext. reflexivity.
  - intros row Hrow. unfold rename_column in Hrow. cbn [rows] in Hrow.
    apply in_map_iff in Hrow. destruct Hrow as (r1 & <- & Hr1).
    apply (rate_of_sums_ext frequency r1).
    { intros c Hc. destruct (Hold c Hc). now apply cell_rename_row. }
    apply In_nth_error in Hr1. destruct Hr1 as (i & Hi).
    destruct (extends_nth _ _ _ _ _ E Hi) as (r0 & Hr0 & _ & Hcells).
    pose proof (Hcells "Numerator") as C1. pose proof (Hcells "Denominator") as C2.
    pose proof (Hcells "Multiplier") as C3. pose proof (Hcells "Rate") as C4.
    pose proof (Hcells "frequency") as C5. cbn in C1, C2, C3, C4, C5.
    destruct (f64_values_nth _ _ _ i _ Hxs (map_nth_error (cell "Numerator") _ _ Hr0))
      as (x & Nx & Hx).
    destruct (f64_values_nth _ _ _ i _ Hys (map_nth_error (cell "Denominator") _ _ Hr0))
      as (y & Ny & Hy).
    destruct (f64_values_nth _ _ _ i _ Hzs (map_nth_error (cell "Multiplier") _ _ Hr0))
      as (z & Nz & Hz).
    split.
    + rewrite C5. unfold ga, setcol_scalar in Hr0. cbn [rows] in Hr0.
      rewrite nth_error_map in Hr0. destruct (nth_error (rows g0) i); [|discriminate].
      injection Hr0 as <-. apply cell_set_cell_same.
    + exists x, y, z. rewrite C1, C2, C3. repeat split; try assumption.
      unfold rate_ in C4.
      rewrite (map_nth_error VFloat _ _
                 (nth_error_map2 fmul _ _ _ _ _ (nth_error_map2 fdiv _ _ _ _ _ Hx Hy) Hz))
        in C4.
      now injection C4.
Qed.

Lemma Forall2_same_but_temp_labels (f : string) (l1 l2 : list Row) :
  Forall2 (same_but_temp f) l1 l2 -> map label l2 = map label l1.
Proof. induction 1 as [|x y l1 l2 (H & _) _ IH]; simpl; [reflexivity|]. now rewrite H, IH. Qed.

(** What the Temporal Aggregator returns, for the Rolling SPC Engine. *)
Lemma aggregate_dataframe_rows (df : ref) (date_col : string)
  (group_by_cols sum_cols : list string) (frequency : string) (h h' : store) (r : ref) :
  In "Measure" group_by_cols -> In date_col date_cols ->
  aggregate_dataframe df date_col group_by_cols sum_cols frequency h = inr (r, h') ->
  exists out,
    nth_error h' r = Some out
    /\ has_column "Measure" out = true
    /\ has_column "Rate" out = true
    /\ has_column "frequency" out = true
    /\ forallb has_measure (rows out) = true
    /\ NoDup (map label (rows out))
    /\ forall row, In row (rows out) ->
         cell "frequency" row = VStr frequency /\ rate_of_sums row.
Proof.
  intros HMg Hdate H.
  destruct (nth_error h df) as [d|] eqn:Hd.
  2:{ unfold aggregate_dataframe in H. cbv zeta in H.
      unfold bind at 1, derive, bind, read in H. rewrite Hd in H. discriminate. }
  rewrite (aggregate_dataframe_run _ _ _ _ _ _ _ Hd) in H.
  destruct (agg_frames date_col group_by_cols sum_cols frequency d)
    as [e|[[sub agg1] agg2]] eqn:Hagg; [discriminate|].
  destruct (sort_frames frequency agg2) as [e|[[a b] c]] eqn:Hsf; [discriminate|].
  destruct (with_row_numbers c) as [e|out] eqn:Hrn; [discriminate|].
  injection H as <- <-. exists out. split.
  { replace (h ++ [sub; agg1; a; b; out]) with ((h ++ [sub; agg1; a; b]) ++ [out])
      by (now rewrite <- app_assoc).
    apply nth_error_snoc_at. rewrite length_app. simpl. lia. }
  destruct (sort_frames_inv _ _ _ _ _ Hsf) as (Hwf & _).
  assert (HM2 : has_column "Measure" agg2 = true).
  { unfold sortable_frame in Hwf.
    do 3 (apply andb_prop in Hwf; destruct Hwf as [Hwf _]).
    apply andb_prop in Hwf. now destruct Hwf. }
  pose proof (agg_frames_measure _ _ _ _ _ _ _ _ Hagg HMg HM2) as Hnn2.
  destruct (agg_frames_rows _ _ _ _ _ _ _ _ Hagg Hdate) as (HR2 & HF2 & Hnd2 & Hrows2).
  destruct (sort_frames_sorted _ _ _ _ _ Hsf) as ((l & Hl & Hsame) & _ & _ & _ & _ & Hkeep).
  assert (HMc : has_column "Measure" c = true)
    by (rewrite (Hkeep "Measure" (Measure_not_temp frequency)); exact HM2).
  assert (Hc_of : forall x, In x (rows c) ->
            exists x0, In x0 (rows agg2)
                       /\ forall k, ~ In k (temp_cols frequency) -> cell k x = cell k x0).
  { intros x Hx. destruct (Forall2_In_r _ _ _ _ Hsame Hx) as (x0 & Hx0 & (_ & Hk & _)).
    exists x0. split; [|exact Hk]. exact (Permutation_in _ (Permutation_sym Hl) Hx0). }
  assert (Hnnc : forallb has_measure (rows c) = true).
  { apply forallb_forall. intros x Hx. destruct (Hc_of x Hx) as (x0 & Hx0 & Hk).
    rewrite forallb_forall in Hnn2. specialize (Hnn2 x0 Hx0).
    unfold has_measure in *. now rewrite (Hk "Measure" (Measure_not_temp frequency)). }
  destruct (with_row_numbers_spec c HMc Hnnc) as (out' & Hout' & E).
  assert (out' = out) by congruence. subst out'.
  assert (Hout_of : forall row, In row (rows out) ->
            exists cj, In cj (rows c)
                       /\ forall k, String.eqb k "RowNumber" = false -> cell k row = cell k cj).
  { intros row Hrow. apply In_nth_error in Hrow. destruct Hrow as (j & Hj).
    destruct (extends_nth _ _ _ _ _ E Hj) as (cj & Hcj & _ & Hcells).
    exists cj. split; [eapply nth_error_In; eauto|]. intros k Hk.
    specialize (Hcells k). cbn [lookup] in Hcells. now rewrite Hk in Hcells. }
  assert (Hcol : forall k, String.eqb k "RowNumber" = false ->
                           ~ In k (temp_cols frequency) ->
                           has_column k out = has_column k agg2).
  { intros k Hk Hnt. rewrite (extends_has_column _ _ _ k E). cbn [lookup]. rewrite Hk.
    now apply Hkeep. }
  repeat split.
  - rewrite (Hcol "Measure" eq_refl (Measure_not_temp frequency)). exact HM2.
  - rewrite (Hcol "Rate" eq_refl); [exact HR2|].
    apply rate_col_not_temp. unfold rate_cols. simpl. tauto.
  - rewrite (Hcol "frequency" eq_refl); [exact HF2|].
    apply rate_col_not_temp. unfold rate_cols. simpl. tauto.
  - apply forallb_forall. intros row Hrow. destruct (Hout_of row Hrow) as (cj & Hcj & Hk).
    rewrite forallb_forall in Hnnc. specialize (Hnnc cj Hcj).
    unfold has_measure in *. now rewrite (Hk "Measure" eq_refl).
  - destruct E as [-> _]. rewrite (Forall2_same_but_temp_labels _ _ _ Hsame).
    exact (Permutation_NoDup (Permutation_map label Hl) Hnd2).
  - destruct (Hout_of row H) as (cj & Hcj & Hk). destruct (Hc_of cj Hcj) as (x0 & Hx0 & Hk0).
    apply (rate_of_sums_ext frequency x0); [|exact (Hrows2 x0 Hx0)].
    intros k Hin. rewrite Hk, Hk0; [reflexivity|now apply rate_col_not_temp|].
    unfold rate_cols in Hin. cbn [In] in Hin.
    destruct Hin as [<-|[<-|[<-|[<-|[<-|[]]]]]]; reflexivity.
  - destruct (Hout_of row H) as (cj & Hcj & Hk). destruct (Hc_of cj Hcj) as (x0 & Hx0 & Hk0).
    apply (rate_of_sums_ext frequency x0); [|exact (Hrows2 x0 Hx0)].
    intros k Hin. rewrite Hk, Hk0; [reflexivity|now apply rate_col_not_temp|].
    unfold rate_cols in Hin. cbn [In] in Hin.
    destruct Hin as [<-|[<-|[<-|[<-|[<-|[]]]]]]; reflexivity.
Qed.




Lemma filter_all {A : Type} (p : A -> bool) (l : list A) :
  forallb p l = true -> filter p l = l.
Proof.
  induction l as [|a l IH]; simpl; [reflexivity|]. intros H.
  apply andb_prop in H. destruct H as [-> H]. now rewrite IH.
Qed.

(** The Rate expression never raises on numeric columns, whatever the
    denominators. *)
Lemma rate_never_raises (n dn m : list value) :
  forallb is_num n = true -> forallb is_num dn = true -> forallb is_num m = true ->
  exists nd rate_, series_binop fdiv n dn = inr nd /\ series_binop fmul nd m = inr rate_.
Proof.
  assert (Hv : forall e s, forallb is_num s = true -> exists xs, f64_values e s = inr xs).
  { intros e s Hs. apply mapM_total. intros v Hin. rewrite forallb_forall in Hs.
    specialize (Hs v Hin). destruct v as [u|z|x|t|]; try discriminate; cbn; eauto. }
  intros Hn Hdn Hm. unfold series_binop.
  destruct (Hv (TypeError "unsupported operand type(s)") n Hn) as (xs & ->).
  destruct (Hv (TypeError "unsupported operand type(s)") dn Hdn) as (ys & ->).
  destruct (Hv (TypeError "unsupported operand type(s)") m Hm) as (zs & Hzs).
  cbn [rbind]. eexists. eexists. split; [reflexivity|].
  rewrite f64_values_VFloat, Hzs. reflexivity.
Qed.




(** ** The labels of the Period Decomposer (C10) *)

Lemma Qred_inject_Z (z : Z) : Qred (inject_Z z) = inject_Z z.
Proof.
  unfold Qred, inject_Z. cbn [Qnum Qden].
  pose proof (Z.ggcd_gcd z 1) as Hg. pose proof (Z.ggcd_correct_divisors z 1) as Hd.
  destruct (Z.ggcd z 1) as (g, (aa, bb)). cbn [fst snd] in *.
  rewrite Z.gcd_1_r in Hg. subst g. destruct Hd as [Ha Hb].
  assert (Ea : aa = z) by lia. assert (Eb : bb = 1) by lia.
  rewrite Ea, Eb. reflexivity.
Qed.

Lemma repr_f64_of_Z (z : Z) :
  Z.abs z < 10 ^ 16 -> repr_f64 (f64_of_Z z) = inr (str_of_Z z ++ ".0")%string.
Proof.
  intros H. unfold repr_f64, f64_of_Z. rewrite Qred_inject_Z. cbn [Qnum Qden inject_Z].
  rewrite Pos.eqb_refl. apply Z.ltb_lt in H. now rewrite H.
Qed.

Lemma valid_timestamp_bounds (t : Timestamp) :
  valid_timestamp t = true ->
  1677 <= ts_year t <= 2262 /\ 1 <= ts_month t <= 12 /\ 1 <= quarter_of t <= 4.
Proof.
  unfold valid_timestamp, quarter_of. intros H.
  repeat match goal with H : (_ && _)%bool = true |- _ => apply andb_prop in H; destruct H end.
  repeat match goal with H : (_ <=? _) = true |- _ => apply Z.leb_le in H end.
  repeat split; try lia.
  - pose proof (Z.div_pos (ts_month t - 1) 3). lia.
  - assert ((ts_month t - 1) / 3 < 4); [apply Z.div_lt_upper_bound; lia|lia].
Qed.

Lemma labels_checked :
  forallb (fun y => forallb (labels_check y) valid_months) valid_years = true.
Proof. vm_compute. reflexivity. Qed.

Lemma labels_of_valid (t : Timestamp) :
  valid_timestamp t = true ->
  documented t (labels false (Some t)) = true /\ unusable (labels true (Some t)) = true.
Proof.
  intros H. destruct (valid_timestamp_bounds t H) as (Hy & Hm & _).
  pose proof labels_checked as Hall. rewrite forallb_forall in Hall.
  assert (Iy : In (ts_year t) valid_years).
  { unfold valid_years. apply in_map_iff. exists (Z.to_nat (ts_year t)).
    split; [lia|]. apply in_seq. lia. }
  assert (Im : In (ts_month t) valid_months).
  { unfold valid_months. apply in_map_iff. exists (Z.to_nat (ts_month t)).
    split; [lia|]. apply in_seq. lia. }
  specialize (Hall _ Iy). rewrite forallb_forall in Hall. specialize (Hall _ Im).
  unfold labels_check in Hall. apply andb_prop in Hall.
  destruct t as [y m dd]. exact Hall.
Qed.

Lemma to_datetime_coerce_ok (to_datetime : string -> option Timestamp) (s : list value) :
  forallb (date_cell_ok to_datetime) s = true ->
  to_datetime_coerce to_datetime s = inr (map VTime (map (timestamp_of to_datetime) s)).
Proof.
  intros H. unfold to_datetime_coerce. rewrite map_map. apply mapM_inr.
  intros v Hv. rewrite forallb_forall in H. specialize (H v Hv).
  destruct v as [u|z|x|t|]; cbn in *; try discriminate; try reflexivity.
  destruct x; try discriminate. reflexivity.
Qed.

Lemma dt_values_VTime (ts : list (option Timestamp)) : dt_values (map VTime ts) = inr ts.
Proof.
  unfold dt_values.
  rewrite (mapM_inr _ (fun v => match v with VTime t => t | _ => None end)).
  - rewrite map_map. now rewrite map_id.
  - intros v Hv. apply in_map_iff in Hv. destruct Hv as (t & <- & _). reflexivity.
Qed.

Lemma astype_str_dt_field (f : Timestamp -> Z) (ts : list (option Timestamp)) :
  (forall t, In (Some t) ts -> Z.abs (f t) < 10 ^ 16) ->
  astype_str (dt_field f ts) = inr (map (component (negb (forallb is_some ts)) f) ts).
Proof.
  intros Hb. unfold astype_str, dt_field. destruct (forallb is_some ts) eqn:E; cbn [negb].
  - rewrite (mapM_inr _ (fun v => match v with VInt z => str_of_Z z | _ => "None" end)).
    + rewrite map_map. f_equal. apply map_ext_in. intros o Ho.
      rewrite forallb_forall in E. specialize (E o Ho). destruct o; [reflexivity|discriminate].
    + intros v Hv. apply in_map_iff in Hv. destruct Hv as ([t|] & <- & _); reflexivity.
  - rewrite (mapM_inr _ (fun v => match v with
                                  | VFloat (Fin q) => (str_of_Z (Qnum q) ++ ".0")%string
                                  | _ => "nan"
                                  end)).
    + rewrite map_map. f_equal. apply map_ext. intros [t|]; reflexivity.
    + intros v Hv. apply in_map_iff in Hv. destruct Hv as ([t|] & <- & Ho); [|reflexivity].
      now rewrite (repr_f64_of_Z _ (Hb t Ho)).
Qed.

Lemma bind_df_copy {B : Type} (r : ref) (d : DataFrame) (k : ref -> M B) (h : store) :
  nth_error h r = Some d -> bind (df_copy r) k h = k (List.length h) (h ++ [d]).
Proof.
  intros H. unfold df_copy, bind at 1. rewrite (bind_read _ _ _ _ H). reflexivity.
Qed.

Lemma date_cell_valid (to_datetime : string -> option Timestamp) (v : value)
  (t : Timestamp) :
  date_cell_ok to_datetime v = true -> timestamp_of to_datetime v = Some t ->
  valid_timestamp t = true.
Proof.
  destruct v as [u|z|x|t'|]; cbn [date_cell_ok timestamp_of]; try discriminate.
  intros H E. now rewrite E in H.
Qed.

(** The run of the Period Decomposer, and the three cells it adds to every
    row. *)
Lemma AddDateColumns_cells :
  forall (to_datetime : string -> option Timestamp) (df : ref) (date_col : string)
         (h : store) (d : DataFrame),
    nth_error h df = Some d ->
    has_column date_col d = true ->
    forallb (fun r => date_cell_ok to_datetime (cell date_col r)) (rows d) = true ->
    exists out,
      AddDateColumns to_datetime df date_col h = inr (List.length h, h ++ [out])
      /\ List.length (rows out) = List.length (rows d)
      /\ forall i r,
           nth_error (rows d) i = Some r ->
           exists r',
             nth_error (rows out) i = Some r'
             /\ let all_parse := forallb is_some (dates to_datetime date_col d) in
                let o := timestamp_of to_datetime (cell date_col r) in
                let l := labels (negb all_parse) o in
                cell "Year" r' = VStr (fst (fst l))
                /\ cell "Quarter" r' = VStr (snd (fst l))
                /\ cell "Month" r' = VStr (snd l).
Proof.
  intros to_datetime df date_col h d Hd HD Hok.
  set (ts := map (timestamp_of to_datetime) (map (cell date_col) (rows d))).
  assert (Hts : ts = dates to_datetime date_col d) by apply map_map.
  assert (Hlts : List.length ts = List.length (rows d))
    by (unfold ts; now rewrite !length_map).
  assert (Hvalid : forall t, In (Some t) ts -> valid_timestamp t = true).
  { intros t Ht. rewrite Hts in Ht. apply in_map_iff in Ht. destruct Ht as (r & Hr & Hin).
    rewrite forallb_forall in Hok. exact (date_cell_valid _ _ _ (Hok r Hin) Hr). }
  assert (Hten : 10 ^ 16 = 10000000000000000) by reflexivity.
  assert (Hby : forall t, In (Some t) ts -> Z.abs (ts_year t) < 10 ^ 16).
  { intros t Ht. destruct (valid_timestamp_bounds t (Hvalid t Ht)) as (? & ? & ?). lia. }
  assert (Hbm : forall t, In (Some t) ts -> Z.abs (ts_month t) < 10 ^ 16).
  { intros t Ht. destruct (valid_timestamp_bounds t (Hvalid t Ht)) as (? & ? & ?). lia. }
  assert (Hbq : forall t, In (Some t) ts -> Z.abs (quarter_of t) < 10 ^ 16).
  { intros t Ht. destruct (valid_timestamp_bounds t (Hvalid t Ht)) as (? & ? & ?). lia. }
  set (fl := negb (forallb is_some ts)).
  set (Y := map (component fl ts_year) ts).
  set (Qs := map (component fl quarter_of) ts).
  set (Ms := map (component fl ts_month) ts).
  set (Ycol := map VStr Y).
  set (Qcol := map VStr (map2 String.append (map (fun u => u ++ "-")%string Y) Qs)).
  set (Mcol := map VStr (map2 String.append (map (fun u => u ++ "-")%string Y)
                           (map (zfill 2) Ms))).
  destruct (extends_setcol d d [] date_col (map VTime ts) (extends_refl d))
    as (d1 & S1 & E1); [now rewrite length_map|].
  destruct (extends_setcol d d1 _ "Year" Ycol E1) as (d2 & S2 & E2).
  { unfold Ycol, Y. now rewrite !length_map. }
  destruct (extends_setcol d d2 _ "Quarter" Qcol E2) as (d3 & S3 & E3).
  { unfold Qcol, Y, Qs. rewrite length_map, length_map2; now rewrite !length_map. }
  destruct (extends_setcol d d3 _ "Month" Mcol E3) as (d4 & S4 & E4).
  { unfold Mcol, Y, Ms. rewrite length_map, length_map2; now rewrite !length_map. }
  exists d4. split; [|split].
  - unfold AddDateColumns. cbv zeta.
    rewrite (bind_df_copy _ _ _ _ Hd).
    rewrite (bind_getitem _ _ _ _ _ (nth_error_snoc_new h d)), (getcol_ok _ _ HD).
    rewrite bind_lift, to_datetime_coerce_ok by (now rewrite forallb_map).
    fold ts.
    rewrite (bind_setitem _ _ _ _ _ _ (nth_error_snoc_new h d)), S1, update_snoc_new.
    do 3 (rewrite (bind_getitem _ _ _ _ _ (nth_error_snoc_new h d1)),
            (getcol_setcol_same _ _ _ _ S1), bind_lift, dt_values_VTime).
    rewrite (astype_str_dt_field _ _ Hby), (astype_str_dt_field _ _ Hbq),
      (astype_str_dt_field _ _ Hbm).
    fold fl. fold Y. fold Qs. fold Ms.
    rewrite bind_lift. fold Ycol.
    rewrite (bind_setitem _ _ _ _ _ _ (nth_error_snoc_new h d1)), S2, update_snoc_new.
    rewrite !bind_lift. fold Qcol.
    rewrite (bind_setitem _ _ _ _ _ _ (nth_error_snoc_new h d2)), S3, update_snoc_new.
    rewrite !bind_lift. fold Mcol.
    rewrite (bind_setitem _ _ _ _ _ _ (nth_error_snoc_new h d3)), S4, update_snoc_new.
    reflexivity.
  - apply (extends_length _ _ _ E4).
  - intros i r Hi.
    destruct (nth_error (rows d4) i) as [r'|] eqn:Hr'.
    2:{ apply nth_error_None in Hr'. rewrite (extends_length _ _ _ E4) in Hr'.
        assert (i < List.length (rows d))%nat by (apply nth_error_Some; congruence). lia. }
    exists r'. split; [reflexivity|].
    destruct (extends_nth _ _ _ _ _ E4 Hr') as (r0 & Hr0 & _ & Hcells).
    assert (r0 = r) by congruence. subst r0. cbv zeta. rewrite <- Hts. fold fl.
    set (o := timestamp_of to_datetime (cell date_col r)).
    assert (Ho : nth_error ts i = Some o).
    { unfold ts. rewrite map_map.
      now apply (map_nth_error (fun x => timestamp_of to_datetime (cell date_col x))). }
    assert (HY : nth_error Y i = Some (component fl ts_year o))
      by now apply map_nth_error.
    assert (HQ : nth_error Qs i = Some (component fl quarter_of o))
      by now apply map_nth_error.
    assert (HM : nth_error Ms i = Some (component fl ts_month o))
      by now apply map_nth_error.
    pose proof (Hcells "Year") as CY. pose proof (Hcells "Quarter") as CQ.
    pose proof (Hcells "Month") as CM.
    change (lookup "Year" _) with (Some Ycol) in CY.
    change (lookup "Quarter" _) with (Some Qcol) in CQ.
    change (lookup "Month" _) with (Some Mcol) in CM.
    unfold Ycol in CY. unfold Qcol in CQ. unfold Mcol in CM.
    rewrite (map_nth_error VStr _ _ HY) in CY.
    rewrite (map_nth_error VStr _ _
               (nth_error_map2 String.append _ _ _ _ _
                  (map_nth_error (fun u => u ++ "-")%string _ _ HY) HQ)) in CQ.
    rewrite (map_nth_error VStr _ _
               (nth_error_map2 String.append _ _ _ _ _
                  (map_nth_error (fun u => u ++ "-")%string _ _ HY)
                  (map_nth_error (zfill 2) _ _ HM))) in CM.
    injection CY as CY. injection CQ as CQ. injection CM as CM.
    split; [now rewrite <- CY|]. split; [now rewrite <- CQ|]. now rewrite <- CM.
Qed.

(** C10.  On a frame whose date column holds text or missing values (text
    that parses giving a timestamp pandas can hold), the Period Decomposer
    returns a new frame with the same number of rows, where the Year,
    Quarter and Month cells of a row are the labels of its date.  When
    every date parses the components are integers and the labels are in
    the documented formats "YYYY", "YYYY-Q", "YYYY-MM", each part parsing
    back to the year, quarter and month.  When
    at least one date does not parse the components are float-typed in
    every row: a row whose date parses gets labels such as "2024.0" and
    "2024.0-3.0", a row whose date does not parse gets "nan" and "nan-nan";
    none of these is in a documented format and [int] raises on every part
    of each. *)
Theorem AddDateColumns_labels :
  forall (to_datetime : string -> option Timestamp) (df : ref) (date_col : string)
         (h : store) (d : DataFrame),
    nth_error h df = Some d ->
    has_column date_col d = true ->
    forallb (fun r => date_cell_ok to_datetime (cell date_col r)) (rows d) = true ->
    exists out,
      AddDateColumns to_datetime df date_col h = inr (List.length h, h ++ [out])
      /\ List.length (rows out) = List.length (rows d)
      /\ forall i r,
           nth_error (rows d) i = Some r ->
           exists r',
             nth_error (rows out) i = Some r'
             /\ let all_parse := forallb is_some (dates to_datetime date_col d) in
                let o := timestamp_of to_datetime (cell date_col r) in
                let l := labels (negb all_parse) o in
                cell "Year" r' = VStr (fst (fst l))
                /\ cell "Quarter" r' = VStr (snd (fst l))
                /\ cell "Month" r' = VStr (snd l)
                /\ (all_parse = true -> exists t, o = Some t /\ documented t l = true)
                /\ (all_parse = false -> unusable l = true).
Proof.
  intros to_datetime df date_col h d Hd HD Hok.
  destruct (AddDateColumns_cells to_datetime df date_col h d Hd HD Hok)
    as (out & Hrun & Hlen & Hrows).
  exists out. split; [exact Hrun|]. split; [exact Hlen|].
  intros i r Hi. destruct (Hrows i r Hi) as (r' & Hr' & HY & HQ & HM).
  exists r'. split; [exact Hr'|]. cbv zeta in *.
  split; [exact HY|]. split; [exact HQ|]. split; [exact HM|].
  set (o := timestamp_of to_datetime (cell date_col r)).
  assert (Hin : In o (dates to_datetime date_col d)).
  { unfold dates. apply in_map_iff. exists r. split; [reflexivity|].
    eapply nth_error_In; eauto. }
  assert (Hvalid : forall t, o = Some t -> valid_timestamp t = true).
  { intros t Ht. rewrite forallb_forall in Hok.
    exact (date_cell_valid _ _ _ (Hok r (nth_error_In _ _ Hi)) Ht). }
  split.
  - intros Hall. rewrite Hall. cbn [negb]. destruct o as [t|] eqn:Eo.
    + exists t. split; [reflexivity|]. now apply labels_of_valid, Hvalid.
    + rewrite forallb_forall in Hall. specialize (Hall None Hin). discriminate.
  - intros Hall. rewrite Hall. cbn [negb]. destruct o as [t|] eqn:Eo.
    + now apply labels_of_valid, Hvalid.
    + reflexivity.
Qed.

Lemma AddDateColumns_labels_witness :
  exists out,
    AddDateColumns Sample.iso_date 0%nat "Discharge Month" [Sample.bad_date]
    = inr (1%nat, [Sample.bad_date] ++ [out])
    /\ List.length (rows out) = 2%nat.
Proof.
  destruct (AddDateColumns_labels Sample.iso_date 0%nat "Discharge Month"
              [Sample.bad_date] Sample.bad_date)
    as (out & H1 & H2 & _); [reflexivity|reflexivity|reflexivity|].
  exists out. split; [exact H1|exact H2].
Defined.

(** ** A date that does not parse (C2) *)

Lemma lookup_combine_None {V : Type} (c : string) (cs : list string) (vs : list V) :
  ~ In c cs -> lookup c (combine cs vs) = None.
Proof.
  revert vs. induction cs as [|x cs IH]; intros [|v vs]; simpl; try reflexivity.
  intros H. destruct (String.eqb c x) eqn:E.
  - apply String.eqb_eq in E. subst. tauto.
  - apply IH. tauto.
Qed.

Lemma lookup_app_none {V : Type} (c : string) (kv kv' : list (string * V)) :
  lookup c kv = None -> lookup c (kv ++ kv') = lookup c kv'.
Proof.
  induction kv as [|[k w] kv IH]; simpl; [reflexivity|].
  destruct (String.eqb c k); [discriminate|auto].
Qed.

Lemma lookup_rename_new (old new : string) (kv : list (string * value)) :
  lookup new kv = None ->
  lookup new (map (fun kv => (if String.eqb (fst kv) old then new else fst kv, snd kv)) kv)
  = lookup old kv.
Proof.
  induction kv as [|[k w] kv IH]; simpl; [reflexivity|].
  destruct (String.eqb new k) eqn:E; [discriminate|]. intros H.
  destruct (String.eqb k old) eqn:E'.
  - apply String.eqb_eq in E'. subst k. now rewrite !String.eqb_refl.
  - rewrite E. rewrite String.eqb_sym, E'. auto.
Qed.

Lemma In_zip_set (c : string) (vs : list value) (rs : list Row) (r1 : Row) :
  In r1 (zip_set c vs rs) ->
  exists r, In r rs /\ (r1 = r \/ exists v, r1 = set_cell c v r).
Proof.
  revert rs. induction vs as [|v vs IH]; intros [|r rs]; simpl; try tauto.
  - intros [<-|H]; eauto.
  - intros [<-|H]; [eauto 6|]. destruct (IH rs H) as (r0 & Hr0 & Hc). eauto.
Qed.

(** A row of the grouped sums: the key of a group of rows, then the sums. *)
Lemma groupby_sum_row (by_ sum_cols : list string) (d agg : DataFrame) (row : Row) :
  groupby_sum_reset_index by_ sum_cols d = inr agg ->
  In row (rows agg) ->
  exists i r0 sums,
    In r0 (rows d)
    /\ row = mkRow i (combine by_ (row_key by_ r0) ++ combine sum_cols sums).
Proof.
  unfold groupby_sum_reset_index.
  destruct (missing_column _ d); [discriminate|].
  destruct (existsb _ sum_cols); [discriminate|].
  destruct (mapM _ (enumerate_from 0 _)) as [e|rs] eqn:Hrs; [discriminate|].
  cbn [rbind]. intros [= <-] Hrow. cbn [rows] in Hrow.
  destruct (mapM_In _ _ _ _ Hrs Hrow) as ([i k] & Hik & Hf). cbn [fst snd] in Hf.
  destruct (mapM _ sum_cols) as [e|sums]; [discriminate|]. cbn [rbind] in Hf.
  injection Hf as <-. apply In_enumerate_from in Hik.
  destruct (group_keys_sound_gen _ _ _ Hik) as (r0 & Hr0 & -> & _).
  now exists i, r0, sums.
Qed.

(** The Date of an aggregated row is the period label of one of the rows
    the Temporal Aggregator was given. *)
Lemma agg_frames_dates (date_col : string) (group_by_cols sum_cols : list string)
  (frequency : string) (d sub agg1 agg2 : DataFrame) :
  agg_frames date_col group_by_cols sum_cols frequency d = inr (sub, agg1, agg2) ->
  In date_col date_cols ->
  ~ In "Date" (group_by_cols ++ sum_cols) ->
  forall row, In row (rows agg2) ->
              exists r, In r (rows d) /\ cell "Date" row = cell date_col r.
Proof.
  unfold agg_frames. cbv zeta.
  set (by_ := if existsb (String.eqb date_col) group_by_cols
              then group_by_cols else group_by_cols ++ [date_col]).
  destruct (select (by_ ++ sum_cols) d) as [e|sub0] eqn:Hsel; [discriminate|]. cbn [rbind].
  destruct (groupby_sum_reset_index by_ sum_cols sub0) as [e|g0] eqn:Hg; [discriminate|].
  cbn [rbind]. set (ga := setcol_scalar "frequency" (VStr frequency) g0).
  destruct (getcol "Numerator" ga) as [e|n]; [discriminate|]. cbn [rbind].
  destruct (getcol "Denominator" ga) as [e|dn]; [discriminate|]. cbn [rbind].
  destruct (series_binop fdiv n dn) as [e|nd]; [discriminate|]. cbn [rbind].
  destruct (getcol "Multiplier" ga) as [e|m]; [discriminate|]. cbn [rbind].
  destruct (series_binop fmul nd m) as [e|rate_]; [discriminate|]. cbn [rbind].
  destruct (setcol "Rate" rate_ ga) as [e|g1] eqn:Hset; [discriminate|]. cbn [rbind].
  intros [= <- <- <-] Hdate HnD row Hrow.
  assert (Hdc : String.eqb date_col "Rate" = false /\ String.eqb date_col "frequency" = false
                /\ date_col <> "Date").
  { unfold date_cols in Hdate. cbn [In] in Hdate.
    destruct Hdate as [<-|[<-|[<-|[]]]]; repeat split; discriminate. }
  destruct Hdc as (HdR & HdF & HdD).
  assert (Hin_by : In date_col by_).
  { unfold by_. destruct (existsb (String.eqb date_col) group_by_cols) eqn:E.
    - now apply existsb_eqb_In.
    - apply in_or_app. right. now left. }
  assert (HnD_by : ~ In "Date" (by_ ++ sum_cols)).
  { intros H. apply HnD. apply in_app_or in H. destruct H as [H|H].
    - unfold by_ in H. destruct (existsb (String.eqb date_col) group_by_cols).
      + apply in_or_app. now left.
      + apply in_app_or in H. destruct H as [H|[H|[]]]; [apply in_or_app; now left|].
        congruence.
    - apply in_or_app. now right. }
  (* the row before the renaming *)
  unfold rename_column in Hrow. cbn [rows] in Hrow. apply in_map_iff in Hrow.
  destruct Hrow as (r1 & <- & Hr1).
  unfold setcol in Hset. destruct (_ =? _)%nat; [|discriminate].
  injection Hset as <-. cbn [rows] in Hr1.
  destruct (In_zip_set _ _ _ _ Hr1) as (ra & Hra & Hr1').
  unfold ga, setcol_scalar in Hra. cbn [rows] in Hra. apply in_map_iff in Hra.
  destruct Hra as (rg & <- & Hrg).
  destruct (groupby_sum_row _ _ _ _ _ Hg Hrg) as (i & r0 & sums & Hr0 & ->).
  unfold select in Hsel. destruct (missing_column _ d); [discriminate|].
  injection Hsel as <-. cbn [rows] in Hr0. apply in_map_iff in Hr0.
  destruct Hr0 as (rd & <- & Hrd).
  exists rd. split; [exact Hrd|].
  set (kv := combine by_ (row_key by_ (mkRow (label rd)
                 (map (fun c => (c, cell c rd)) (by_ ++ sum_cols))))
             ++ combine sum_cols sums) in *.
  assert (Hkv_date : lookup "Date" kv = None).
  { unfold kv. rewrite lookup_app_none; apply lookup_combine_None;
      intros H; apply HnD_by, in_or_app; tauto. }
  assert (Hkv_col : lookup date_col kv = Some (cell date_col rd)).
  { unfold kv. apply lookup_app_some. unfold row_key.
    rewrite (lookup_combine_map _ _ _ Hin_by). f_equal.
    unfold cell at 1. cbn [cells].
    now rewrite (lookup_map_pair (fun c => cell c rd) date_col) by (apply in_or_app; tauto). }
  assert (H1 : lookup "Date" (cells r1) = None
               /\ lookup date_col (cells r1) = Some (cell date_col rd)).
  { destruct Hr1' as [->|(v & ->)]; cbn [set_cell cells];
      rewrite ?lookup_set_kv_other by (assumption || reflexivity); tauto. }
  destruct H1 as [HD1 HC1].
  unfold cell at 1. cbn [cells]. now rewrite (lookup_rename_new _ _ _ HD1), HC1.
Qed.

Lemma period_key_no_int (frequency : string) (row : Row) (u : string) :
  cell "Date" row = VStr u ->
  py_int u = None -> no_int (int_parts u) = true ->
  period_key frequency row = None.
Proof.
  intros HD Hu Hparts. unfold period_key. rewrite HD.
  destruct (String.eqb frequency "Year").
  - unfold int_of_cell, int_cast. now rewrite Hu.
  - unfold int_parts in Hparts. destruct (split_dash u) as [|a [|b [|c l]]]; try reflexivity.
    cbn in Hparts. unfold int_of_cell at 1. cbn [int_cast].
    destruct (py_int a); [discriminate|reflexivity].
Qed.

Lemma unusable_no_int (l : string * string * string) (u : string) :
  unusable l = true ->
  In u [fst (fst l); snd (fst l); snd l] ->
  py_int u = None /\ no_int (int_parts u) = true.
Proof.
  destruct l as [[y q] m]. unfold unusable. cbn [fst snd]. intros H.
  repeat match goal with H : (_ && _)%bool = true |- _ => apply andb_prop in H; destruct H end.
  match goal with H : no_int [_; _; _] = true |- _ => cbn in H end.
  intros [<-|[<-|[<-|[]]]]; (split; [|assumption]).
  - destruct (py_int y); [discriminate|reflexivity].
  - destruct (py_int y); [discriminate|]. destruct (py_int q); [discriminate|reflexivity].
  - destruct (py_int y); [discriminate|]. destruct (py_int q); [discriminate|].
    destruct (py_int m); [discriminate|reflexivity].
Qed.

(** Whenever a date of the table does not parse, the Temporal Aggregator,
    run on what the Period Decomposer returns, raises or returns a table
    with no row: no bucket of any period comes out, known or unknown. *)
Lemma unparseable_date_never_aggregates (to_datetime : string -> option Timestamp)
  (df : ref) (date_col frequency : string) (group_by_cols sum_cols : list string)
  (h h1 h2 : store) (d : DataFrame) (r1 r2 : ref) :
  nth_error h df = Some d ->
  has_column date_col d = true ->
  forallb (fun r => date_cell_ok to_datetime (cell date_col r)) (rows d) = true ->
  forallb is_some (dates to_datetime date_col d) = false ->
  In frequency date_cols ->
  ~ In "Date" (group_by_cols ++ sum_cols) ->
  AddDateColumns to_datetime df date_col h = inr (r1, h1) ->
  aggregate_dataframe r1 frequency group_by_cols sum_cols frequency h1 = inr (r2, h2) ->
  exists out, nth_error h2 r2 = Some out /\ rows out = [].
Proof.
  intros Hd HD Hok Hbad Hf HnD Hrun Hagg.
  destruct (AddDateColumns_cells to_datetime df date_col h d Hd HD Hok)
    as (dated & Hrun' & Hlen & Hcells).
  rewrite Hrun' in Hrun. injection Hrun as <- <-.
  rewrite (aggregate_dataframe_run _ _ _ _ _ _ _ (nth_error_snoc_new h dated)) in Hagg.
  destruct (agg_frames frequency group_by_cols sum_cols frequency dated)
    as [e|[[sub agg1] agg2]] eqn:Hfr; [discriminate|].
  destruct (sort_frames frequency agg2) as [e|[[a b] c]] eqn:Hsf; [discriminate|].
  destruct (with_row_numbers c) as [e|out] eqn:Hrn; [discriminate|].
  injection Hagg as <- <-. exists out. split.
  { replace ((h ++ [dated]) ++ [sub; agg1; a; b; out])
      with (((h ++ [dated]) ++ [sub; agg1; a; b]) ++ [out]) by (now rewrite <- !app_assoc).
    apply nth_error_snoc_at. rewrite !length_app. simpl. lia. }
  destruct (sort_frames_inv _ _ _ _ _ Hsf) as (Hwf & Hdec & _ & _ & Hb & _ & Hc).
  assert (Hempty : rows agg2 = []).
  { destruct (rows agg2) as [|row rest] eqn:Hrows; [reflexivity|]. exfalso.
    assert (Hrow : In row (rows agg2)) by (rewrite Hrows; now left).
    destruct (agg_frames_dates _ _ _ _ _ _ _ _ Hfr Hf HnD row Hrow) as (r' & Hr' & HDate).
    apply In_nth_error in Hr'. destruct Hr' as (i & Hi).
    assert (Hlt : (i < List.length (rows d))%nat).
    { rewrite <- Hlen. apply nth_error_Some. congruence. }
    destruct (nth_error (rows d) i) as [r|] eqn:Hr; [|apply nth_error_None in Hr; lia].
    destruct (Hcells i r Hr) as (r'' & Hr'' & HY & HQ & HM).
    assert (r'' = r') by congruence. subst r''. cbv zeta in HY, HQ, HM.
    rewrite Hbad in HY, HQ, HM. cbn [negb] in HY, HQ, HM.
    set (l := labels true (timestamp_of to_datetime (cell date_col r))) in *.
    assert (Hun : unusable l = true).
    { unfold l. destruct (timestamp_of to_datetime (cell date_col r)) as [t|] eqn:Et;
        [|reflexivity].
      apply labels_of_valid. rewrite forallb_forall in Hok.
      exact (date_cell_valid _ _ _ (Hok r (nth_error_In _ _ Hr)) Et). }
    assert (Hlab : exists u, cell frequency r' = VStr u
                             /\ In u [fst (fst l); snd (fst l); snd l]).
    { unfold date_cols in Hf. cbn [In] in Hf.
      destruct Hf as [<-|[<-|[<-|[]]]]; eexists; (split; [eassumption|]); simpl; tauto. }
    destruct Hlab as (u & Hu & Hin).
    destruct (unusable_no_int l u Hun Hin) as [Hp Hparts].
    rewrite Hu in HDate.
    pose proof (period_key_no_int frequency row u HDate Hp Hparts) as Hnone.
    unfold sortable_frame in Hwf. apply andb_prop in Hwf. destruct Hwf as [Hwf _].
    apply andb_prop in Hwf. destruct Hwf as [_ Hper].
    rewrite forallb_forall in Hper. specialize (Hper row Hrow).
    rewrite Hnone in Hper. discriminate. }
  rewrite Hempty in Hdec. apply Forall2_length in Hdec.
  assert (Ha : rows a = []) by (destruct (rows a); [reflexivity|discriminate]).
  assert (Hrc : rows c = []) by (rewrite Hc, Hb, Ha; reflexivity).
  unfold with_row_numbers in Hrn.
  destruct (groupby_cumcount_desc "Measure" c) as [e|cc]; [discriminate|]. cbn [rbind] in Hrn.
  destruct (series_add_int 1 cc) as [e|rn]; [discriminate|]. cbn [rbind] in Hrn.
  pose proof (length_rows_setcol _ _ _ _ Hrn) as Hl. rewrite Hrc in Hl.
  now destruct (rows out).
Qed.

(** C2 fails on the table [Sample.bad_date], whose second record has a date
    that does not parse.  The Period Decomposer does not raise: it labels
    that record "nan", "nan-nan", "nan-nan", and the record with a good date
    "2024.0", "2024.0-1.0", "2024.0-3.0".  The Temporal Aggregator then
    raises at every frequency, when the Period Sorter turns the labels into
    integers, and so does the whole pipeline: no row reaches the output. *)
Theorem unparseable_date_aborts :
  (exists out r0 r1,
     Sample.frame_of
       (AddDateColumns Sample.iso_date 0%nat "Discharge Month" [Sample.bad_date]) = Some out
     /\ rows out = [r0; r1]
     /\ map (fun c => cell c r0) date_cols
        = [VStr "2024.0"; VStr "2024.0-1.0"; VStr "2024.0-3.0"]
     /\ map (fun c => cell c r1) date_cols = [VStr "nan"; VStr "nan-nan"; VStr "nan-nan"])
  /\ (forall c,
        In c date_cols ->
        (dated <- AddDateColumns Sample.iso_date 0%nat "Discharge Month" ;;
         aggregate_dataframe dated c group_by_cols sum_cols c) [Sample.bad_date]
        = inl (ValueError "invalid literal for int() with base 10"))
  /\ script Sample.iso_date Sample.sqrt_q 0%nat [Sample.bad_date]
     = inl (ValueError "invalid literal for int() with base 10").
Proof.
  split; [|split].
  - do 3 eexists. split; [vm_compute; reflexivity|]. repeat split.
  - intros c Hc. unfold date_cols in Hc. cbn [In] in Hc.
    destruct Hc as [<-|[<-|[<-|[]]]]; vm_compute; reflexivity.
  - vm_compute. reflexivity.
Qed.

(** ** The quarter labels (C9) *)

Lemma digit_not_dash (c : ascii) : is_digit c = true -> Ascii.eqb c "-" = false.
Proof.
  destruct c as [[] [] [] [] [] [] [] []]; intros H; try reflexivity; discriminate H.
Qed.

Lemma sub_dash_digits_digits (n : string) : all_digits n = true -> sub_dash_digits n = n.
Proof.
  induction n as [|c n IH]; simpl; [reflexivity|]. intros H.
  apply andb_prop in H. destruct H as [Hc Hn].
  now rewrite (digit_not_dash c Hc), IH.
Qed.

(** "YYYY-n" becomes "YYYY-Qn". *)
Lemma sub_dash_digits_quarter (y n : string) :
  all_digits y = true -> all_digits n = true -> n <> EmptyString ->
  sub_dash_digits (y ++ "-" ++ n) = (y ++ "-Q" ++ n)%string.
Proof.
  intros Hy Hn Hne. induction y as [|c y IH].
  - destruct n as [|d n]; [congruence|].
    pose proof Hn as Hn'. cbn [all_digits] in Hn. apply andb_prop in Hn. destruct Hn as [Hd _].
    transitivity (String "-" (String "Q" (sub_dash_digits (String d n)))).
    + cbn [String.append sub_dash_digits]. change (Ascii.eqb "-" "-") with true. cbv iota.
      now rewrite Hd.
    + now rewrite (sub_dash_digits_digits _ Hn').
  - cbn [all_digits] in Hy. apply andb_prop in Hy. destruct Hy as [Hc Hy].
    specialize (IH Hy). cbn [String.append sub_dash_digits] in *.
    rewrite (digit_not_dash c Hc). now rewrite IH.
Qed.

Lemma loc_get_filter (p : Row -> bool) (c : string) (rs : list Row) :
  map (fun br : bool * Row => cell c (snd br))
      (filter (fun br : bool * Row => fst br) (combine (map p rs) rs))
  = map (cell c) (filter p rs).
Proof.
  induction rs as [|r rs IH]; simpl; [reflexivity|].
  destruct (p r); simpl; now rewrite IH.
Qed.

Lemma assign_masked_filter (c : string) (p : Row -> bool) (g : Row -> value)
  (rs : list Row) :
  assign_masked c (map p rs) (map g (filter p rs)) rs
  = map (fun r => if p r then set_cell c (g r) r else r) rs.
Proof.
  induction rs as [|r rs IH]; simpl; [reflexivity|].
  destruct (p r); simpl; now rewrite IH.
Qed.

Lemma add_column_present (c : string) (d : DataFrame) :
  has_column c d = true -> add_column c (columns d) = columns d.
Proof. unfold has_column, add_column. now intros ->. Qed.

Lemma series_eq_str_is_quarter (rs : list Row) :
  series_eq_str (map (cell "frequency") rs) "Quarter" = map is_quarter rs.
Proof. unfold series_eq_str. rewrite map_map. reflexivity. Qed.

(** The relabelling as a function on the quarterly frame. *)
Lemma adjust_quarter_name_run (agg_quarter_spc : ref) (h : store) (d : DataFrame) :
  nth_error h agg_quarter_spc = Some d ->
  has_column "Date" d = true -> has_column "frequency" d = true ->
  forallb (fun r => negb (is_quarter r) || text_or_null (cell "Date" r)) (rows d) = true ->
  adjust_quarter_name agg_quarter_spc h
  = inr (tt, update agg_quarter_spc (mkDF (columns d) (map relabel_row (rows d))) h).
Proof.
  intros Hd HD HF Hok. unfold adjust_quarter_name.
  rewrite (bind_getitem _ _ _ _ _ Hd), (getcol_ok _ _ HF), (bind_read _ _ _ _ Hd).
  rewrite series_eq_str_is_quarter. rewrite bind_lift.
  unfold loc_get. rewrite HD, length_map, Nat.eqb_refl, loc_get_filter.
  rewrite bind_lift. unfold str_replace_dash_digits.
  rewrite (mapM_inr _ relabel).
  2:{ intros v Hv. apply in_map_iff in Hv. destruct Hv as (r & <- & Hr).
      apply filter_In in Hr. destruct Hr as [Hr Hq].
      rewrite forallb_forall in Hok. specialize (Hok r Hr). rewrite Hq in Hok.
      cbn [negb orb] in Hok. unfold text_or_null in Hok.
      destruct (cell "Date" r) as [u|z|x|t|]; cbn in *; try discriminate; try reflexivity.
      - now rewrite Hok.
      - now rewrite Hok. }
  rewrite (bind_getitem _ _ _ _ _ Hd), (getcol_ok _ _ HF), series_eq_str_is_quarter.
  rewrite (modify_run _ _ _ _ Hd). unfold loc_set_series.
  rewrite length_map, Nat.eqb_refl, (add_column_present _ _ HD), map_map.
  rewrite (assign_masked_filter "Date" is_quarter (fun r => relabel (cell "Date" r))).
  reflexivity.
Qed.

(** C9.  On the quarterly frame (Date and frequency columns, the Date of a
    Quarter row being text or missing) the relabelling changes that frame
    in place and nothing else in the store.  The frame keeps its columns,
    its rows and their index labels, and every cell outside Date.  The Date
    of a row whose frequency is not "Quarter" is unchanged.  The Date of a
    Quarter row gets a "Q" after every "-" that a digit follows; a label of
    the form "YYYY-n" (digits, "-", digits) becomes "YYYY-Qn". *)
Theorem adjust_quarter_name_relabels :
  forall (agg_quarter_spc : ref) (h : store) (d : DataFrame),
    nth_error h agg_quarter_spc = Some d ->
    has_column "Date" d = true ->
    has_column "frequency" d = true ->
    forallb (fun r => negb (is_quarter r) || text_or_null (cell "Date" r)) (rows d) = true ->
    exists d',
      adjust_quarter_name agg_quarter_spc h = inr (tt, update agg_quarter_spc d' h)
      /\ (forall r', r' <> agg_quarter_spc ->
                     nth_error (update agg_quarter_spc d' h) r' = nth_error h r')
      /\ columns d' = columns d
      /\ List.length (rows d') = List.length (rows d)
      /\ forall i row,
           nth_error (rows d) i = Some row ->
           exists row',
             nth_error (rows d') i = Some row'
             /\ label row' = label row
             /\ (forall c, String.eqb c "Date" = false -> cell c row' = cell c row)
             /\ (is_quarter row = false -> cell "Date" row' = cell "Date" row)
             /\ (is_quarter row = true ->
                 forall u, cell "Date" row = VStr u ->
                           cell "Date" row' = VStr (sub_dash_digits u))
             /\ (is_quarter row = true ->
                 forall y n,
                   cell "Date" row = VStr (y ++ "-" ++ n) ->
                   all_digits y = true -> all_digits n = true -> n <> EmptyString ->
                   cell "Date" row' = VStr (y ++ "-Q" ++ n)).
Proof.
  intros r h d Hd HD HF Hok.
  exists (mkDF (columns d) (map relabel_row (rows d))).
  split; [now apply adjust_quarter_name_run|].
  split; [intros r' Hr'; apply nth_error_update_other; congruence|].
  split; [reflexivity|]. split; [apply length_map|].
  intros i row Hi. exists (relabel_row row). cbn [rows].
  split; [now apply map_nth_error|].
  assert (Hq : forall u, is_quarter row = true -> cell "Date" row = VStr u ->
                         cell "Date" (relabel_row row) = VStr (sub_dash_digits u)).
  { intros u Hq Hu. unfold relabel_row. rewrite Hq, cell_set_cell_same, Hu. reflexivity. }
  unfold relabel_row at 1 2 3. destruct (is_quarter row) eqn:E.
  - split; [reflexivity|]. split; [intros c Hc; now apply cell_set_cell_other|].
    split; [discriminate|]. split; [intros _ u Hu; now apply Hq|].
    intros _ y n Hu Hy Hn Hne. rewrite (Hq _ eq_refl Hu).
    now rewrite sub_dash_digits_quarter.
  - split; [reflexivity|]. split; [reflexivity|]. split; [reflexivity|].
    split; discriminate.
Qed.

Lemma adjust_quarter_name_relabels_witness :
  exists d',
    adjust_quarter_name 0%nat [Sample.quarters] = inr (tt, [d'])
    /\ map (cell "Date") (rows d') = [VStr "2024-Q3"; VStr "2024-Q4"; VStr "2024-03"].
Proof.
  destruct (adjust_quarter_name_relabels 0%nat [Sample.quarters] Sample.quarters)
    as (d' & H1 & _); [reflexivity|reflexivity|reflexivity|reflexivity|].
  exists d'. split; [exact H1|].
  vm_compute in H1. injection H1 as <-. reflexivity.
Defined.

(** The pipeline on [Sample.two_measures]: the relabelling comes after the
    SPC columns are there, and the combined table has the monthly rows, the
    relabelled quarterly rows and the yearly rows, in that order. *)
Lemma script_relabels_quarters :
  exists out,
    Sample.frame_of (script Sample.iso_date Sample.sqrt_q 0%nat [Sample.two_measures])
    = Some out
    /\ map (fun r => (cell "frequency" r, cell "Date" r)) (rows out)
       = [(VStr "Month", VStr "2024-01"); (VStr "Month", VStr "2024-03");
          (VStr "Month", VStr "2024-01"); (VStr "Month", VStr "2024-02");
          (VStr "Quarter", VStr "2024-Q1"); (VStr "Quarter", VStr "2024-Q1");
          (VStr "Year", VStr "2024"); (VStr "Year", VStr "2024")]
    /\ forallb (has_column "Rolling_CL") [out] = true.
Proof.
  eexists. split; [vm_compute; reflexivity|]. split; reflexivity.
Qed.

(** ** What a run leaves of the frames it was given (C3) *)

Ltac run_step h :=
  first [ rewrite (bind_getitem _ _ _ _ _ (nth_error_snoc_new h _))
        | rewrite (bind_setitem _ _ _ _ _ _ (nth_error_snoc_new h _))
        | rewrite bind_lift ];
  try match goal with
      | |- match ?x with inl _ => _ | inr _ => _ end = _ -> _ =>
          destruct x; [discriminate|]
      end;
  rewrite ?update_snoc_new.

(** The Period Decomposer works on a copy: the frames of the store stay as
    they are, the result is a new frame. *)
Lemma AddDateColumns_new_frame (to_datetime : string -> option Timestamp) (df : ref)
  (date_col : string) (h h' : store) (r : ref) :
  AddDateColumns to_datetime df date_col h = inr (r, h') ->
  r = List.length h /\ exists out, h' = h ++ [out].
Proof.
  unfold AddDateColumns. cbv zeta.
  destruct (nth_error h df) as [d|] eqn:Hd.
  2:{ unfold bind at 1, df_copy, bind, read. rewrite Hd. discriminate. }
  rewrite (bind_df_copy _ _ _ _ Hd).
  repeat run_step h.
  unfold ret. intros [= <- <-]. eauto.
Qed.

(** The Temporal Aggregator adds frames to the store and changes none. *)
Lemma aggregate_dataframe_new_frames (df : ref) (date_col : string)
  (group_by_cols sum_cols : list string) (frequency : string) (h h' : store) (r : ref) :
  aggregate_dataframe df date_col group_by_cols sum_cols frequency h = inr (r, h') ->
  (List.length h <= r)%nat /\ exists new, h' = h ++ new.
Proof.
  intros H. destruct (nth_error h df) as [d|] eqn:Hd.
  2:{ unfold aggregate_dataframe in H. cbv zeta in H.
      unfold bind at 1, derive, bind, read in H. rewrite Hd in H. discriminate. }
  rewrite (aggregate_dataframe_run _ _ _ _ _ _ _ Hd) in H.
  destruct (agg_frames _ _ _ _ d) as [e|[[sub agg1] agg2]]; [discriminate|].
  destruct (sort_frames frequency agg2) as [e|[[a b] c]]; [discriminate|].
  destruct (with_row_numbers c) as [e|out]; [discriminate|].
  injection H as <- <-. split; [lia|eauto].
Qed.

(** The Rolling SPC Engine adds one frame to the store and changes none. *)
Lemma rolling_spc_agg_new_frame (np_sqrt : Q -> Q) (df : ref) (w sigma : Z)
  (h h' : store) (r : ref) :
  rolling_spc_agg np_sqrt df w sigma h = inr (r, h') ->
  r = List.length h /\ exists out, h' = h ++ [out].
Proof.
  intros H. destruct (nth_error h df) as [d|] eqn:Hd.
  2:{ unfold rolling_spc_agg in H.
      unfold bind at 1, derive, bind, read in H. rewrite Hd in H. discriminate. }
  rewrite (rolling_spc_agg_run _ _ _ _ _ _ Hd) in H.
  destruct (spc_frame np_sqrt w d) as [e|out]; [discriminate|].
  injection H as <- <-. eauto.
Qed.

(** ** Sigma is not used (C8) *)

(** C8.  The Rolling SPC Engine's run does not depend on the sigma
    argument: for any two values of sigma the outcome (returned frame and
    store, or exception) is the same, and a run that returns produces a
    frame that has the upper and lower band columns for k = 1, 2 and 3. *)
Theorem rolling_spc_agg_sigma_irrelevant :
  forall (np_sqrt : Q -> Q) (df : ref) (window_size sigma1 sigma2 : Z) (h : store),
    rolling_spc_agg np_sqrt df window_size sigma1 h
    = rolling_spc_agg np_sqrt df window_size sigma2 h
    /\ forall (r : ref) (h' : store),
         rolling_spc_agg np_sqrt df window_size sigma1 h = inr (r, h') ->
         exists out, nth_error h' r = Some out
                     /\ forall c, In c spc_cols -> has_column c out = true.
Proof.
  intros np_sqrt df W s1 s2 h. split; [reflexivity|].
  intros r h'. unfold rolling_spc_agg.
  destruct (nth_error h df) as [d|] eqn:Hd.
  2:{ unfold bind at 1, derive, bind, read. rewrite Hd. discriminate. }
  unfold bind at 1. rewrite (derive_run _ _ _ _ Hd).
  destruct (groupby_apply "Measure" (calc_rolling np_sqrt W) d) as [e|d1]; [discriminate|].
  unfold bind at 1. rewrite (getitem_run _ _ _ _ (nth_error_snoc_new h d1)).
  destruct (getcol "frequency" d1) as [e|f]; [discriminate|].
  unfold bind at 1. rewrite (modify_run _ _ _ _ (nth_error_snoc_new h d1)).
  destruct (loc_set_scalar (series_eq_str f "Year") spc_cols (VFloat NaN) d1)
    as [e|d2] eqn:Hloc; [discriminate|].
  unfold ret. intros H. injection H as <- <-.
  rewrite update_snoc_new. exists d2. split; [apply nth_error_snoc_new|].
  intros c Hc. unfold loc_set_scalar in Hloc.
  destruct (_ =? _)%nat; [|discriminate]. injection Hloc as <-.
  unfold has_column. cbn [columns]. apply existsb_eqb_In.
  apply (proj2 (In_add_columns c spc_cols (columns d1))). now right.
Qed.

Lemma rolling_spc_agg_sigma_irrelevant_witness :
  exists out,
    nth_error [Sample.six_months; Sample.six_months_spc] 1 = Some out
    /\ forall c, In c spc_cols -> has_column c out = true.
Proof.
  apply (proj2 (rolling_spc_agg_sigma_irrelevant Sample.sqrt_q 0%nat 3 3 1 [Sample.six_months])).
  vm_compute. reflexivity.
Defined.

(** * Further properties of the pipeline *)

(** ** The Period Sorter *)


Lemma sort_by_date_changes_argument_witness :
  exists d a,
    nth_error [Sample.two_years] 0 = Some d
    /\ has_column "Year" d = false
    /\ has_column "Year" a = true.
Proof.
  edestruct (sort_by_date_changes_argument 0%nat "Year" [Sample.two_years])
    as (d & a & H1 & H2 & H3 & _); [vm_compute; reflexivity|].
  exists d, a. split; [exact H1|]. split; [|exact H3].
  injection H1 as <-. reflexivity.
Defined.



(** ** What the components leave of the store *)

Lemma AddDateColumns_new_frame_witness :
  exists r h',
    AddDateColumns Sample.iso_date 0%nat "Discharge Month" [Sample.two_measures]
    = inr (r, h')
    /\ r = 1%nat /\ exists out, h' = [Sample.two_measures] ++ [out].
Proof.
  eexists. eexists. split; [vm_compute; reflexivity|].
  apply (AddDateColumns_new_frame Sample.iso_date 0%nat "Discharge Month"
           [Sample.two_measures]).
  vm_compute. reflexivity.
Defined.

Lemma aggregate_dataframe_new_frames_witness :
  exists r h',
    aggregate_dataframe 0%nat "Month" group_by_cols sum_cols "Month"
      [Sample.two_measures_dated] = inr (r, h')
    /\ (1 <= r)%nat /\ exists new, h' = [Sample.two_measures_dated] ++ new.
Proof.
  eexists. eexists. split; [vm_compute; reflexivity|].
  apply (aggregate_dataframe_new_frames 0%nat "Month" group_by_cols sum_cols "Month"
           [Sample.two_measures_dated]).
  vm_compute. reflexivity.
Defined.

Lemma rolling_spc_agg_new_frame_witness :
  exists r h',
    rolling_spc_agg Sample.sqrt_q 0%nat 3 3 [Sample.six_months] = inr (r, h')
    /\ r = 1%nat /\ exists out, h' = [Sample.six_months] ++ [out].
Proof.
  eexists. eexists. split; [vm_compute; reflexivity|].
  apply (rolling_spc_agg_new_frame Sample.sqrt_q 0%nat 3 3 [Sample.six_months]).
  vm_compute. reflexivity.
Defined.

Lemma unparseable_date_never_aggregates_witness :
  exists r2 h2 out,
    (dated <- AddDateColumns Sample.iso_date 0%nat "Discharge Month" ;;
     aggregate_dataframe dated "Year" group_by_cols sum_cols "Year") [Sample.nameless]
    = inr (r2, h2)
    /\ nth_error h2 r2 = Some out /\ rows out = [].
Proof.
  eexists. eexists.
  edestruct (unparseable_date_never_aggregates Sample.iso_date 0%nat "Discharge Month"
               "Year" group_by_cols sum_cols [Sample.nameless])
    as (out & H1 & H2);
    [reflexivity|reflexivity|reflexivity|reflexivity|simpl; auto
    |simpl; intuition discriminate|vm_compute; reflexivity|vm_compute; reflexivity|].
  exists out. split; [vm_compute; reflexivity|]. split; [exact H1|exact H2].
Defined.

(** ** The Period Decomposer *)

Ltac run_step_eq h :=
  first [ rewrite (bind_getitem _ _ _ _ _ (nth_error_snoc_new h _))
        | rewrite (bind_setitem _ _ _ _ _ _ (nth_error_snoc_new h _))
        | rewrite bind_lift ];
  try match goal with
      | |- match ?x with inl _ => _ | inr _ => _ end = _ -> _ =>
          destruct x eqn:?; [discriminate|]
      end;
  rewrite ?update_snoc_new.

Lemma to_datetime_coerce_VTime (to_datetime : string -> option Timestamp)
  (s t : list value) (v : value) :
  to_datetime_coerce to_datetime s = inr t -> In v t -> exists o, v = VTime o.
Proof.
  intros H Hv. destruct (mapM_In _ _ _ _ H Hv) as (a & _ & Ha).
  destruct a as [u|z|x|o|]; try discriminate.
  - injection Ha as <-. eauto.
  - destruct x; try discriminate. injection Ha as <-. eauto.
  - injection Ha as <-. eauto.
  - injection Ha as <-. eauto.
Qed.

(** Whenever the Period Decomposer returns, the frame it returns has the
    rows of the frame it was given, with the same index labels and in the
    same order; its columns are those of that frame and Year, Quarter and
    Month; every cell outside the date column and these three is as it was;
    and the date column (when it is not named Year, Quarter or Month) holds
    timestamps, the missing one where a value did not parse. *)
Theorem AddDateColumns_keeps_other_columns :
  forall (to_datetime : string -> option Timestamp) (df : ref) (date_col : string)
         (h h' : store) (r : ref) (d : DataFrame),
    nth_error h df = Some d ->
    AddDateColumns to_datetime df date_col h = inr (r, h') ->
    exists out,
      nth_error h' r = Some out
      /\ map label (rows out) = map label (rows d)
      /\ (forall c, In c [date_col; "Year"; "Quarter"; "Month"] -> has_column c out = true)
      /\ (forall c, ~ In c [date_col; "Year"; "Quarter"; "Month"] ->
                    has_column c out = has_column c d
                    /\ map (cell c) (rows out) = map (cell c) (rows d))
      /\ (~ In date_col ["Year"; "Quarter"; "Month"] ->
          forall row, In row (rows out) -> exists o, cell date_col row = VTime o).
Proof.
  intros to_datetime df date_col h h' r d Hd.
  unfold AddDateColumns. cbv zeta. rewrite (bind_df_copy _ _ _ _ Hd).
  repeat run_step_eq h. unfold ret. intros [= <- <-].
  match goal with
  | T : to_datetime_coerce _ _ = inr ?t,
    S1 : setcol date_col ?t d = inr ?d1,
    S2 : setcol "Year" _ ?d1 = inr ?d2,
    S3 : setcol "Quarter" _ ?d2 = inr ?d3,
    S4 : setcol "Month" _ ?d3 = inr ?d4 |- _ =>
      pose proof (extends_setcol_inv _ _ _ _ _ _
                    (extends_setcol_inv _ _ _ _ _ _
                       (extends_setcol_inv _ _ _ _ _ _
                          (extends_setcol_inv _ _ _ _ _ _ (extends_refl d) S1) S2) S3) S4)
        as E;
      pose proof (fun v => to_datetime_coerce_VTime _ _ _ v T) as HT;
      exists d4
  end.
  destruct E as [Elab Ecol].
  split; [apply nth_error_snoc_new|]. split; [exact Elab|].
  assert (Hlk : forall c, ~ In c [date_col; "Year"; "Quarter"; "Month"] ->
                          String.eqb c "Month" = false /\ String.eqb c "Quarter" = false
                          /\ String.eqb c "Year" = false /\ String.eqb c date_col = false).
  { intros c Hc. cbn [In] in Hc. repeat split; apply String.eqb_neq; intros ->; tauto. }
  split; [|split].
  - intros c Hc. specialize (Ecol c). cbn [lookup] in Ecol.
    destruct (String.eqb c "Month") eqn:E1; [apply Ecol|].
    destruct (String.eqb c "Quarter") eqn:E2; [apply Ecol|].
    destruct (String.eqb c "Year") eqn:E3; [apply Ecol|].
    destruct (String.eqb c date_col) eqn:E4; [apply Ecol|].
    exfalso. cbn [In] in Hc. apply String.eqb_neq in E4.
    destruct Hc as [->|[<-|[<-|[<-|[]]]]]; try discriminate; congruence.
  - intros c Hc. destruct (Hlk c Hc) as (E1 & E2 & E3 & E4).
    specialize (Ecol c). cbn [lookup] in Ecol. rewrite E1, E2, E3, E4 in Ecol.
    split; apply Ecol.
  - intros Hn row Hrow. specialize (Ecol date_col). cbn [lookup] in Ecol.
    assert (E1 : String.eqb date_col "Month" = false)
      by (apply String.eqb_neq; intros ->; apply Hn; simpl; tauto).
    assert (E2 : String.eqb date_col "Quarter" = false)
      by (apply String.eqb_neq; intros ->; apply Hn; simpl; tauto).
    assert (E3 : String.eqb date_col "Year" = false)
      by (apply String.eqb_neq; intros ->; apply Hn; simpl; tauto).
    rewrite E1, E2, E3, String.eqb_refl in Ecol. destruct Ecol as [Ecol _].
    apply HT. rewrite <- Ecol. now apply in_map.
Qed.

Lemma AddDateColumns_keeps_other_columns_witness :
  exists out,
    nth_error [Sample.two_measures; Sample.two_measures_dated] 1 = Some out
    /\ map (cell "Numerator") (rows out) = map (cell "Numerator") (rows Sample.two_measures).
Proof.
  destruct (AddDateColumns_keeps_other_columns Sample.iso_date 0%nat "Discharge Month"
              [Sample.two_measures] [Sample.two_measures; Sample.two_measures_dated]
              1%nat Sample.two_measures)
    as (out & H1 & _ & _ & H4 & _); [reflexivity|vm_compute; reflexivity|].
  exists out. split; [exact H1|]. apply H4. simpl. intuition discriminate.
Defined.

(** Without its date column the Period Decomposer raises [KeyError], on a
    frame with rows or without. *)
Theorem AddDateColumns_missing_column :
  forall (to_datetime : string -> option Timestamp) (df : ref) (date_col : string)
         (h : store) (d : DataFrame),
    nth_error h df = Some d ->
    has_column date_col d = false ->
    AddDateColumns to_datetime df date_col h = inl (KeyError date_col).
Proof.
  intros to_datetime df date_col h d Hd Hc. unfold AddDateColumns. cbv zeta.
  rewrite (bind_df_copy _ _ _ _ Hd).
  rewrite (bind_getitem _ _ _ _ _ (nth_error_snoc_new h d)).
  unfold getcol. now rewrite Hc.
Qed.

Lemma AddDateColumns_missing_column_witness :
  AddDateColumns Sample.iso_date 0%nat "Discharge Month" [Sample.six_months]
  = inl (KeyError "Discharge Month").
Proof.
  apply (AddDateColumns_missing_column Sample.iso_date 0%nat "Discharge Month"
           [Sample.six_months] Sample.six_months); reflexivity.
Defined.

Lemma parts_eqb_unique (l : list (option Z)) (zs zs' : list Z) :
  parts_eqb l zs = true -> parts_eqb l zs' = true -> zs = zs'.
Proof.
  revert zs zs'. induction l as [|[a|] l IH]; intros [|z zs] [|z' zs']; simpl;
    try discriminate; try reflexivity.
  intros H H'. apply andb_prop in H, H'. destruct H as [E H], H' as [E' H'].
  apply Z.eqb_eq in E, E'. subst. f_equal. now apply IH.
Qed.

(** When every date parses, the periods the Period Decomposer labels are
    nested: two rows with the same Month label have the same Quarter label,
    and two rows with the same Quarter label have the same Year label.  So
    the monthly groups refine the quarterly ones, and these the yearly
    ones. *)
Theorem AddDateColumns_periods_nest :
  forall (to_datetime : string -> option Timestamp) (df : ref) (date_col : string)
         (h : store) (d : DataFrame),
    nth_error h df = Some d ->
    has_column date_col d = true ->
    forallb (fun r => date_cell_ok to_datetime (cell date_col r)) (rows d) = true ->
    forallb is_some (dates to_datetime date_col d) = true ->
    exists out,
      AddDateColumns to_datetime df date_col h = inr (List.length h, h ++ [out])
      /\ forall r1 r2,
           In r1 (rows out) -> In r2 (rows out) ->
           (cell "Month" r1 = cell "Month" r2 -> cell "Quarter" r1 = cell "Quarter" r2)
           /\ (cell "Quarter" r1 = cell "Quarter" r2 -> cell "Year" r1 = cell "Year" r2).
Proof.
  intros to_datetime df date_col h d Hd HD Hok Hall.
  destruct (AddDateColumns_cells to_datetime df date_col h d Hd HD Hok)
    as (out & Hrun & Hlen & Hrows).
  exists out. split; [exact Hrun|].
  assert (Hlab : forall r', In r' (rows out) ->
            exists t, valid_timestamp t = true
                      /\ cell "Year" r' = VStr (fst (fst (labels false (Some t))))
                      /\ cell "Quarter" r' = VStr (snd (fst (labels false (Some t))))
                      /\ cell "Month" r' = VStr (snd (labels false (Some t)))).
  { intros r' Hr'. apply In_nth_error in Hr'. destruct Hr' as (i & Hi).
    assert (Hlt : (i < List.length (rows d))%nat).
    { rewrite <- Hlen. apply nth_error_Some. congruence. }
    destruct (nth_error (rows d) i) as [r|] eqn:Hr; [|apply nth_error_None in Hr; lia].
    destruct (Hrows i r Hr) as (r'' & Hr'' & HY & HQ & HM).
    assert (r'' = r') by congruence. subst r''. cbv zeta in HY, HQ, HM.
    rewrite Hall in HY, HQ, HM. cbn [negb] in HY, HQ, HM.
    destruct (timestamp_of to_datetime (cell date_col r)) as [t|] eqn:Et.
    - exists t. split; [|auto]. rewrite forallb_forall in Hok.
      exact (date_cell_valid _ _ _ (Hok r (nth_error_In _ _ Hr)) Et).
    - exfalso. rewrite forallb_forall in Hall.
      assert (Hin : In None (dates to_datetime date_col d)).
      { unfold dates. apply in_map_iff. exists r. split; [exact Et|].
        eapply nth_error_In; eauto. }
      specialize (Hall None Hin). discriminate. }
  intros r1 r2 H1 H2.
  destruct (Hlab r1 H1) as (t1 & V1 & Y1 & Q1 & M1).
  destruct (Hlab r2 H2) as (t2 & V2 & Y2 & Q2 & M2).
  destruct (labels_of_valid t1 V1) as [D1 _]. destruct (labels_of_valid t2 V2) as [D2 _].
  destruct (labels false (Some t1)) as [[y1 q1] m1] eqn:L1.
  destruct (labels false (Some t2)) as [[y2 q2] m2] eqn:L2.
  unfold documented in D1, D2. cbv beta iota in D1, D2. cbn [fst snd] in *.
  repeat match goal with H : (_ && _)%bool = true |- _ => apply andb_prop in H; destruct H end.
  unfold labels in L1, L2. cbv zeta in L1, L2. cbn [component] in L1, L2.
  split.
  - intros E. rewrite M1, M2 in E. injection E as E.
    assert (Eq : [ts_year t1; ts_month t1] = [ts_year t2; ts_month t2]).
    { apply (parts_eqb_unique (int_parts m1)); [assumption|rewrite E; assumption]. }
    injection Eq as Ey Em. injection L1 as _ Lq1 _. injection L2 as _ Lq2 _.
    rewrite Q1, Q2, <- Lq1, <- Lq2. unfold quarter_of. now rewrite Ey, Em.
  - intros E. rewrite Q1, Q2 in E. injection E as E.
    assert (Eq : [ts_year t1; quarter_of t1] = [ts_year t2; quarter_of t2]).
    { apply (parts_eqb_unique (int_parts q1)); [assumption|rewrite E; assumption]. }
    injection Eq as Ey _. injection L1 as Ly1 _ _. injection L2 as Ly2 _ _.
    rewrite Y1, Y2, <- Ly1, <- Ly2. now rewrite Ey.
Qed.

Lemma AddDateColumns_periods_nest_witness :
  exists out,
    AddDateColumns Sample.iso_date 0%nat "Discharge Month" [Sample.two_measures]
    = inr (1%nat, [Sample.two_measures] ++ [out]).
Proof.
  destruct (AddDateColumns_periods_nest Sample.iso_date 0%nat "Discharge Month"
              [Sample.two_measures] Sample.two_measures)
    as (out & H & _); [reflexivity|reflexivity|reflexivity|reflexivity|].
  exists out. exact H.
Defined.

(** ** The Temporal Aggregator *)

Lemma In_effective_group_cols (date_col c : string) (group_by_cols sum_cols : list string) :
  In c ((if existsb (String.eqb date_col) group_by_cols
         then group_by_cols else group_by_cols ++ [date_col]) ++ sum_cols)
  <-> In c (group_by_cols ++ [date_col] ++ sum_cols).
Proof.
  destruct (existsb (String.eqb date_col) group_by_cols) eqn:E.
  - apply existsb_eqb_In in E. rewrite !in_app_iff. simpl. split; [tauto|].
    intros [H|[[<-|[]]|H]]; tauto.
  - rewrite <- app_assoc. reflexivity.
Qed.

(** A column that the call names (a grouping column, the date column, a
    column to sum) and the frame does not have makes the Temporal Aggregator
    raise [KeyError] for such a column. *)
Theorem aggregate_dataframe_missing_column :
  forall (df : ref) (date_col : string) (group_by_cols sum_cols : list string)
         (frequency : string) (h : store) (d : DataFrame) (c : string),
    nth_error h df = Some d ->
    In c (group_by_cols ++ [date_col] ++ sum_cols) ->
    has_column c d = false ->
    exists c',
      In c' (group_by_cols ++ [date_col] ++ sum_cols)
      /\ has_column c' d = false
      /\ aggregate_dataframe df date_col group_by_cols sum_cols frequency h
         = inl (KeyError c').
Proof.
  intros df date_col gcols scols f h d c Hd Hc Hmiss.
  rewrite (aggregate_dataframe_run _ _ _ _ _ _ _ Hd). unfold agg_frames. cbv zeta.
  set (by_ := if existsb (String.eqb date_col) gcols then gcols else gcols ++ [date_col]).
  unfold select. unfold missing_column.
  destruct (find (fun x => negb (has_column x d)) (by_ ++ scols)) as [c'|] eqn:F.
  - apply find_some in F. destruct F as [Hin Hneg]. exists c'.
    split; [now apply In_effective_group_cols|].
    split; [now apply negb_true_iff|reflexivity].
  - exfalso. apply (proj2 (In_effective_group_cols date_col c gcols scols)) in Hc.
    pose proof (find_none _ _ F c Hc) as Hn. cbv beta in Hn. rewrite Hmiss in Hn.
    discriminate.
Qed.

Lemma aggregate_dataframe_missing_column_witness :
  exists c',
    aggregate_dataframe 0%nat "Month" group_by_cols sum_cols "Month" [Sample.six_months]
    = inl (KeyError c').
Proof.
  destruct (aggregate_dataframe_missing_column 0%nat "Month" group_by_cols sum_cols "Month"
              [Sample.six_months] Sample.six_months "Numerator")
    as (c' & _ & _ & H); [reflexivity|simpl; tauto|reflexivity|].
  exists c'. exact H.
Defined.

(** The Rate is computed from columns named Numerator, Denominator and
    Multiplier: a call whose column lists name no such column never
    returns. *)
Theorem aggregate_dataframe_needs_rate_columns :
  forall (df : ref) (date_col : string) (group_by_cols sum_cols : list string)
         (frequency : string) (h h' : store) (r : ref),
    aggregate_dataframe df date_col group_by_cols sum_cols frequency h = inr (r, h') ->
    forall c, In c ["Numerator"; "Denominator"; "Multiplier"] ->
              In c (group_by_cols ++ [date_col] ++ sum_cols).
Proof.
  intros df date_col gcols scols f h h' r H.
  destruct (nth_error h df) as [d|] eqn:Hd.
  2:{ unfold aggregate_dataframe in H. cbv zeta in H.
      unfold bind at 1, derive, bind, read in H. rewrite Hd in H. discriminate. }
  rewrite (aggregate_dataframe_run _ _ _ _ _ _ _ Hd) in H.
  destruct (agg_frames date_col gcols scols f d) as [e|[[sub agg1] agg2]] eqn:Hagg;
    [discriminate|].
  clear H. unfold agg_frames in Hagg. cbv zeta in Hagg.
  set (by_ := if existsb (String.eqb date_col) gcols then gcols else gcols ++ [date_col])
    in *.
  destruct (select (by_ ++ scols) d) as [e|sub0]; [discriminate|]. cbn [rbind] in Hagg.
  destruct (groupby_sum_reset_index by_ scols sub0) as [e|g0] eqn:Hg; [discriminate|].
  cbn [rbind] in Hagg.
  assert (Hcols : columns g0 = by_ ++ scols).
  { unfold groupby_sum_reset_index in Hg.
    destruct (missing_column _ sub0); [discriminate|].
    destruct (existsb _ scols); [discriminate|].
    destruct (mapM _ _); [discriminate|]. cbn [rbind] in Hg. now injection Hg as <-. }
  set (ga := setcol_scalar "frequency" (VStr f) g0) in *.
  assert (Hga : forall c, has_column c ga = true -> String.eqb c "frequency" = false ->
                          In c (gcols ++ [date_col] ++ scols)).
  { intros c Hc Hf. unfold ga, setcol_scalar, has_column in Hc. cbn [columns] in Hc.
    apply existsb_eqb_In, In_add_column in Hc. rewrite Hcols in Hc.
    destruct Hc as [Hc| ->]; [|rewrite String.eqb_refl in Hf; discriminate].
    now apply In_effective_group_cols in Hc. }
  destruct (getcol "Numerator" ga) as [e|n] eqn:Hn; [discriminate|]. cbn [rbind] in Hagg.
  destruct (getcol "Denominator" ga) as [e|dn] eqn:Hdn; [discriminate|]. cbn [rbind] in Hagg.
  destruct (series_binop fdiv n dn) as [e|nd]; [discriminate|]. cbn [rbind] in Hagg.
  destruct (getcol "Multiplier" ga) as [e|m] eqn:Hm; [discriminate|].
  apply getcol_inv in Hn, Hdn, Hm.
  intros c Hc. cbn [In] in Hc.
  destruct Hc as [<-|[<-|[<-|[]]]]; apply Hga; try reflexivity; tauto.
Qed.

Lemma aggregate_dataframe_needs_rate_columns_witness :
  In "Multiplier" (group_by_cols ++ ["Month"] ++ sum_cols).
Proof.
  eapply (aggregate_dataframe_needs_rate_columns 0%nat "Month" group_by_cols sum_cols
            "Month" [Sample.two_measures_dated]);
    [vm_compute; reflexivity|simpl; tauto].
Defined.

Lemma aggregate_dataframe_inv (df : ref) (date_col : string)
  (group_by_cols sum_cols : list string) (frequency : string) (h h' : store) (r : ref) :
  aggregate_dataframe df date_col group_by_cols sum_cols frequency h = inr (r, h') ->
  exists d sub agg1 agg2 a b c out,
    nth_error h df = Some d
    /\ agg_frames date_col group_by_cols sum_cols frequency d = inr (sub, agg1, agg2)
    /\ sort_frames frequency agg2 = inr (a, b, c)
    /\ with_row_numbers c = inr out
    /\ nth_error h' r = Some out.
Proof.
  intros H. destruct (nth_error h df) as [d|] eqn:Hd.
  2:{ unfold aggregate_dataframe in H. cbv zeta in H.
      unfold bind at 1, derive, bind, read in H. rewrite Hd in H. discriminate. }
  rewrite (aggregate_dataframe_run _ _ _ _ _ _ _ Hd) in H.
  destruct (agg_frames date_col group_by_cols sum_cols frequency d)
    as [e|[[sub agg1] agg2]] eqn:Hagg; [discriminate|].
  destruct (sort_frames frequency agg2) as [e|[[a b] c]] eqn:Hsf; [discriminate|].
  destruct (with_row_numbers c) as [e|out] eqn:Hrn; [discriminate|].
  injection H as <- <-. exists d, sub, agg1, agg2, a, b, c, out.
  repeat split; try reflexivity; try assumption.
  replace (h ++ [sub; agg1; a; b; out]) with ((h ++ [sub; agg1; a; b]) ++ [out])
    by (now rewrite <- app_assoc).
  apply nth_error_snoc_at. rewrite length_app. simpl. lia.
Qed.

Lemma with_row_numbers_inv (c out : DataFrame) :
  with_row_numbers c = inr out ->
  List.length (rows out) = List.length (rows c)
  /\ forall x, has_column x out = has_column x c || String.eqb x "RowNumber".
Proof.
  unfold with_row_numbers.
  destruct (groupby_cumcount_desc "Measure" c) as [e|cc]; [discriminate|]. cbn [rbind].
  destruct (series_add_int 1 cc) as [e|rn]; [discriminate|]. cbn [rbind].
  intros H. split; [exact (length_rows_setcol _ _ _ _ H)|].
  intros x. exact (has_column_setcol _ x _ _ _ H).
Qed.

(** At a frequency other than "Year" the Temporal Aggregator never returns
    a table without rows: when nothing is left to aggregate (no input row,
    or no row with all its grouping values) it raises. *)
Theorem aggregate_dataframe_not_empty :
  forall (df : ref) (date_col : string) (group_by_cols sum_cols : list string)
         (frequency : string) (h h' : store) (r : ref),
    frequency <> "Year" ->
    aggregate_dataframe df date_col group_by_cols sum_cols frequency h = inr (r, h') ->
    exists out, nth_error h' r = Some out /\ rows out <> [].
Proof.
  intros df date_col gcols scols f h h' r Hf H.
  destruct (aggregate_dataframe_inv _ _ _ _ _ _ _ _ H)
    as (d & sub & agg1 & agg2 & a & b & c & out & _ & _ & Hsf & Hrn & Hout).
  exists out. split; [exact Hout|].
  destruct (sort_frames_inv _ _ _ _ _ Hsf) as (Hwf & _).
  destruct (sort_frames_sorted _ _ _ _ _ Hsf) as ((l & Hl & Hsame) & _).
  destruct (with_row_numbers_inv _ _ Hrn) as [Hlen _].
  unfold sortable_frame in Hwf. apply andb_prop in Hwf. destruct Hwf as [_ Hne].
  apply String.eqb_neq in Hf. rewrite Hf in Hne. cbn [orb] in Hne.
  apply negb_true_iff, Nat.eqb_neq in Hne.
  apply Permutation_length in Hl. apply Forall2_length in Hsame.
  intros E. rewrite E in Hlen. simpl in Hlen. lia.
Qed.

Lemma aggregate_dataframe_not_empty_witness :
  exists out, Sample.frame_of Sample.monthly_run = Some out /\ rows out <> [].
Proof.
  edestruct (aggregate_dataframe_not_empty 0%nat "Month" group_by_cols sum_cols "Month"
               [Sample.two_measures_dated]) as (out & H1 & H2);
    [discriminate|vm_compute; reflexivity|].
  exists out. split; [exact H1|exact H2].
Defined.

(** The table the Temporal Aggregator returns has the columns Date, Measure
    and RowNumber, and none of the helper columns of the sort (Year, and
    QuarterNum or MonthNum): a column of the input with such a name does
    not come through, whatever it held. *)
Theorem aggregate_dataframe_columns :
  forall (df : ref) (date_col : string) (group_by_cols sum_cols : list string)
         (frequency : string) (h h' : store) (r : ref),
    aggregate_dataframe df date_col group_by_cols sum_cols frequency h = inr (r, h') ->
    exists out,
      nth_error h' r = Some out
      /\ (forall c, In c ["Date"; "Measure"; "RowNumber"] -> has_column c out = true)
      /\ (forall c, In c (temp_cols frequency) -> has_column c out = false).
Proof.
  intros df date_col gcols scols f h h' r H.
  destruct (aggregate_dataframe_inv _ _ _ _ _ _ _ _ H)
    as (d & sub & agg1 & agg2 & a & b & c & out & _ & _ & Hsf & Hrn & Hout).
  exists out. split; [exact Hout|].
  destruct (sort_frames_inv _ _ _ _ _ Hsf) as (Hwf & _).
  destruct (sort_frames_sorted _ _ _ _ _ Hsf) as (_ & _ & _ & _ & Hgone & Hkeep).
  destruct (with_row_numbers_inv _ _ Hrn) as [_ Hcol].
  unfold sortable_frame in Hwf.
  do 3 (apply andb_prop in Hwf; destruct Hwf as [Hwf _]).
  apply andb_prop in Hwf. destruct Hwf as [HD HM].
  split.
  - intros x Hx. rewrite Hcol. cbn [In] in Hx. destruct Hx as [<-|[<-|[<-|[]]]].
    + now rewrite (Hkeep "Date" (Date_not_temp f)), HD.
    + now rewrite (Hkeep "Measure" (Measure_not_temp f)), HM.
    + apply orb_true_r.
  - intros x Hx. rewrite Hcol, (Hgone x Hx). cbn [orb].
    apply temp_cols_cases in Hx. destruct Hx as [->|[->| ->]]; reflexivity.
Qed.

Lemma aggregate_dataframe_columns_witness :
  exists out,
    Sample.frame_of Sample.monthly_run = Some out
    /\ has_column "RowNumber" out = true
    /\ has_column "Year" out = false.
Proof.
  edestruct (aggregate_dataframe_columns 0%nat "Month" group_by_cols sum_cols "Month"
               [Sample.two_measures_dated]) as (out & H1 & H2 & H3);
    [vm_compute; reflexivity|].
  exists out. split; [exact H1|]. split; [apply H2|apply H3]; simpl; tauto.
Defined.

(** With Measure among the grouping columns and Year, Quarter or Month as
    the date column, every row of the table the Temporal Aggregator returns
    has a Measure, carries the frequency it was called with, and has as its
    Rate the float64 value of Numerator / Denominator * Multiplier of that
    row; no two rows have the same index label. *)
Theorem aggregate_dataframe_rate :
  forall (df : ref) (date_col : string) (group_by_cols sum_cols : list string)
         (frequency : string) (h h' : store) (r : ref),
    In "Measure" group_by_cols ->
    In date_col date_cols ->
    aggregate_dataframe df date_col group_by_cols sum_cols frequency h = inr (r, h') ->
    exists out,
      nth_error h' r = Some out
      /\ NoDup (map label (rows out))
      /\ forall row, In row (rows out) ->
           has_measure row = true
           /\ cell "frequency" row = VStr frequency
           /\ exists n dn m,
                num_of (cell "Numerator" row) = Some n
                /\ num_of (cell "Denominator" row) = Some dn
                /\ num_of (cell "Multiplier" row) = Some m
                /\ cell "Rate" row = VFloat (fmul (fdiv n dn) m).
Proof.
  intros df date_col gcols scols f h h' r HM Hd H.
  destruct (aggregate_dataframe_rows _ _ _ _ _ _ _ _ HM Hd H)
    as (out & Hout & _ & _ & _ & Hnn & Hnd & Hrows).
  exists out. split; [exact Hout|]. split; [exact Hnd|].
  intros row Hrow. rewrite forallb_forall in Hnn.
  split; [exact (Hnn row Hrow)|]. exact (Hrows row Hrow).
Qed.

Lemma aggregate_dataframe_rate_witness :
  exists out,
    Sample.frame_of Sample.monthly_run = Some out
    /\ NoDup (map label (rows out)).
Proof.
  edestruct (aggregate_dataframe_rate 0%nat "Month" group_by_cols sum_cols "Month"
               [Sample.two_measures_dated]) as (out & H1 & H2 & _);
    [simpl; tauto|simpl; tauto|vm_compute; reflexivity|].
  exists out. split; [exact H1|exact H2].
Defined.

(** ** The Rolling SPC Engine *)

Lemma spc_ready_spec (np_sqrt : Q -> Q) (w : Z) (d : DataFrame) :
  spc_ready d = true -> 0 <= w ->
  exists out,
    spc_frame np_sqrt w d = inr out
    /\ List.length (rows out) = List.length (filter has_measure (rows d))
    /\ forall j r,
         nth_error (filter has_measure (rows d)) j = Some r ->
         exists r',
           nth_error (rows out) j = Some r'
           /\ let win := last_n (Z.to_nat w)
                           (map rate (prior (filter has_measure (rows d)) j r)) in
              row_with_spc
                (if is_year r then NaN else roll_mean (Z.to_nat w) win)
                (if is_year r then NaN else roll_std np_sqrt (Z.to_nat w) win)
                r r'.
Proof.
  unfold spc_ready. intros H Hw.
  repeat match goal with H : (_ && _)%bool = true |- _ => apply andb_prop in H; destruct H end.
  now apply spc_frame_spec.
Qed.

Lemma mapM_all_fail {A B : Type} (f : A -> result B) (e : exn) (l : list A) :
  l <> [] -> (forall a, In a l -> f a = inl e) -> mapM f l = inl e.
Proof.
  destruct l as [|a l]; [congruence|]. intros _ H. simpl.
  now rewrite (H a (or_introl eq_refl)).
Qed.

(** How the Rolling SPC Engine raises.  Without a Measure column:
    [KeyError] for Measure.  With one, and at least one row that has a
    Measure: [KeyError] for Rate when there is no Rate column, and
    [ValueError] when the window size is negative. *)
Theorem rolling_spc_agg_raises :
  forall (np_sqrt : Q -> Q) (df : ref) (window_size sigma : Z) (h : store) (d : DataFrame),
    nth_error h df = Some d ->
    (has_column "Measure" d = false ->
     rolling_spc_agg np_sqrt df window_size sigma h = inl (KeyError "Measure"))
    /\ (has_column "Measure" d = true ->
        existsb has_measure (rows d) = true ->
        (has_column "Rate" d = false ->
         rolling_spc_agg np_sqrt df window_size sigma h = inl (KeyError "Rate"))
        /\ (has_column "Rate" d = true ->
            window_size < 0 ->
            exists msg,
              rolling_spc_agg np_sqrt df window_size sigma h = inl (ValueError msg))).
Proof.
  intros np_sqrt df w sigma h d Hd. rewrite (rolling_spc_agg_run _ _ _ _ _ _ Hd).
  unfold spc_frame, groupby_apply. split.
  - now intros ->.
  - intros -> Hex.
    assert (Hkeys : group_keys ["Measure"] (rows d) <> []).
    { apply existsb_exists in Hex. destruct Hex as (r & Hr & Hm).
      unfold has_measure in Hm. apply negb_true_iff in Hm.
      destruct (group_keys_complete "Measure" (rows d) r Hr Hm) as (k & Hk & _).
      intros E. rewrite E in Hk. destruct Hk. }
    split.
    + intros HR. rewrite (mapM_all_fail _ (KeyError "Rate")); [reflexivity|exact Hkeys|].
      intros k _. unfold calc_rolling, getcol, has_column. cbn [columns].
      unfold has_column in HR. now rewrite HR.
    + intros HR Hw. exists "window must be an integer 0 or greater".
      rewrite (mapM_all_fail _ (ValueError "window must be an integer 0 or greater"));
        [reflexivity|exact Hkeys|].
      intros k _. unfold calc_rolling, getcol, has_column. cbn [columns].
      unfold has_column in HR. rewrite HR. cbn [rbind]. unfold rolling_left.
      apply Z.ltb_lt in Hw. now rewrite Hw.
Qed.

Lemma rolling_spc_agg_raises_witness :
  exists msg,
    rolling_spc_agg Sample.sqrt_q 0%nat (-1) 3 [Sample.six_months] = inl (ValueError msg).
Proof.
  apply (rolling_spc_agg_raises Sample.sqrt_q 0%nat (-1) 3 [Sample.six_months]
           Sample.six_months eq_refl); [reflexivity|reflexivity|reflexivity|lia].
Defined.

(** On a frame with no more rows than the window is long, every SPC field of
    every row the Rolling SPC Engine returns is missing: no row has a full
    window before it. *)
Theorem rolling_spc_agg_short_history :
  forall (np_sqrt : Q -> Q) (df : ref) (window_size sigma : Z) (h : store) (d : DataFrame),
    nth_error h df = Some d ->
    spc_ready d = true ->
    Z.of_nat (List.length (rows d)) <= window_size ->
    exists out,
      rolling_spc_agg np_sqrt df window_size sigma h = inr (List.length h, h ++ [out])
      /\ forall row c, In row (rows out) -> In c spc_cols -> null_cell c row.
Proof.
  intros np_sqrt df w sigma h d Hd Hready Hshort.
  destruct (spc_ready_spec np_sqrt w d Hready) as (out & Hout & Hlen & Hspc); [lia|].
  exists out. rewrite (rolling_spc_agg_run _ _ _ _ _ _ Hd), Hout. split; [reflexivity|].
  intros row c Hrow Hc. apply In_nth_error in Hrow. destruct Hrow as (j & Hj).
  pose proof (nth_error_lt _ _ _ Hj) as Hlt. rewrite Hlen in Hlt.
  destruct (nth_error (filter has_measure (rows d)) j) as [r|] eqn:Hr;
    [|apply nth_error_None in Hr; lia].
  destruct (Hspc j r Hr) as (r' & Hr' & Hrow'). cbv zeta in Hrow'.
  assert (r' = row) by congruence. subst r'.
  apply (row_with_spc_null r row); [|exact Hc].
  destruct (is_year r); [exact Hrow'|].
  destruct (roll_short np_sqrt (Z.to_nat w)
              (last_n (Z.to_nat w) (map rate (prior (filter has_measure (rows d)) j r))))
    as [E1 E2].
  - rewrite length_last_n, length_map. unfold prior.
    pose proof (filter_length_le (same_measure r) (firstn j (filter has_measure (rows d)))) as H1.
    rewrite length_firstn in H1.
    pose proof (filter_length_le has_measure (rows d)) as H2. lia.
  - now rewrite E1, E2 in Hrow'.
Qed.

Lemma rolling_spc_agg_short_history_witness :
  exists out,
    rolling_spc_agg Sample.sqrt_q 0%nat 24 3 [Sample.six_months]
    = inr (1%nat, [Sample.six_months] ++ [out])
    /\ forall row c, In row (rows out) -> In c spc_cols -> null_cell c row.
Proof.
  apply (rolling_spc_agg_short_history Sample.sqrt_q 0%nat 24 3 [Sample.six_months]
           Sample.six_months); [reflexivity|reflexivity|simpl; lia].
Defined.

(** The Rolling SPC Engine returns the rows that have a Measure, in their
    order and with their index labels, and leaves out the rows that have
    none; in the rows it returns every cell outside the eight SPC columns
    is as it was. *)
Theorem rolling_spc_agg_keeps_rows :
  forall (np_sqrt : Q -> Q) (df : ref) (window_size sigma : Z) (h : store) (d : DataFrame),
    nth_error h df = Some d ->
    spc_ready d = true ->
    0 <= window_size ->
    exists out,
      rolling_spc_agg np_sqrt df window_size sigma h = inr (List.length h, h ++ [out])
      /\ map label (rows out) = map label (filter has_measure (rows d))
      /\ forall c, ~ In c spc_cols ->
                   map (cell c) (rows out) = map (cell c) (filter has_measure (rows d)).
Proof.
  intros np_sqrt df w sigma h d Hd Hready Hw.
  destruct (spc_ready_spec np_sqrt w d Hready Hw) as (out & Hout & Hlen & Hspc).
  exists out. rewrite (rolling_spc_agg_run _ _ _ _ _ _ Hd), Hout. split; [reflexivity|].
  assert (Hmap : forall (B : Type) (f : Row -> B),
            (forall r r' cl sd, row_with_spc cl sd r r' -> f r' = f r) ->
            map f (rows out) = map f (filter has_measure (rows d))).
  { intros B f Hf. apply nth_error_ext. intros j. rewrite !nth_error_map.
    destruct (nth_error (filter has_measure (rows d)) j) as [r|] eqn:Hr.
    - destruct (Hspc j r Hr) as (r' & Hr' & Hrow). rewrite Hr'. cbn [option_map].
      f_equal. eapply Hf. exact Hrow.
    - apply nth_error_None in Hr. rewrite <- Hlen in Hr. apply nth_error_None in Hr.
      now rewrite Hr. }
  split.
  - apply Hmap. intros r r' cl sd Hrow. apply Hrow.
  - intros c Hc. apply Hmap. intros r r' cl sd (_ & Hsame & _). now apply Hsame.
Qed.

Lemma rolling_spc_agg_keeps_rows_witness :
  exists out,
    rolling_spc_agg Sample.sqrt_q 0%nat 3 3 [Sample.with_inf]
    = inr (1%nat, [Sample.with_inf] ++ [out])
    /\ map (cell "Rate") (rows out) = map (cell "Rate") (rows Sample.with_inf).
Proof.
  destruct (rolling_spc_agg_keeps_rows Sample.sqrt_q 0%nat 3 3 [Sample.with_inf]
              Sample.with_inf) as (out & H1 & _ & H3);
    [reflexivity|reflexivity|lia|].
  exists out. split; [exact H1|].
  apply (H3 "Rate"). simpl. intuition discriminate.
Defined.

Lemma map_filter_agree {A B : Type} (p p' : A -> bool) (f : A -> B) (l l' : list A) :
  Forall2 (fun a b => p a = p' b /\ (p a = true -> f a = f b)) l l' ->
  map f (filter p l) = map f (filter p' l').
Proof.
  induction 1 as [|a b l l' [Hp Hf] _ IH]; simpl; [reflexivity|].
  rewrite <- Hp. destruct (p a); simpl; [|exact IH]. now rewrite IH, Hf.
Qed.

Lemma row_with_spc_same_fields (cl sd : f64) (r1 r2 o1 o2 : Row) :
  row_with_spc cl sd r1 o1 -> row_with_spc cl sd r2 o2 ->
  forall c, In c spc_cols -> cell c o1 = cell c o2.
Proof.
  intros (_ & _ & C1 & S1 & K1) (_ & _ & C2 & S2 & K2) c Hc.
  destruct (K1 1) as [U11 L11]; [simpl; tauto|]. destruct (K2 1) as [U21 L21]; [simpl; tauto|].
  destruct (K1 2) as [U12 L12]; [simpl; tauto|]. destruct (K2 2) as [U22 L22]; [simpl; tauto|].
  destruct (K1 3) as [U13 L13]; [simpl; tauto|]. destruct (K2 3) as [U23 L23]; [simpl; tauto|].
  simpl in Hc.
  repeat (destruct Hc as [<-|Hc];
          [first [ exact (eq_trans C1 (eq_sym C2)) | exact (eq_trans S1 (eq_sym S2))
                 | exact (eq_trans U11 (eq_sym U21)) | exact (eq_trans L11 (eq_sym L21))
                 | exact (eq_trans U12 (eq_sym U22)) | exact (eq_trans L12 (eq_sym L22))
                 | exact (eq_trans U13 (eq_sym U23)) | exact (eq_trans L13 (eq_sym L23)) ]|]).
  destruct Hc.
Qed.

(** The SPC fields of a row depend only on the earlier rows of its own
    Measure.  Take two frames fit for the Rolling SPC Engine, every row with
    a Measure, with the same Measure column, and a position j where the two
    rows are both yearly or both not.  If the Rates of the two frames agree
    on the rows before j that have the Measure of row j, the two runs give
    row j the same eight SPC fields: the Rates of other Measures, of row j
    itself and of later rows play no part. *)
Theorem rolling_spc_agg_uses_only_the_past :
  forall (np_sqrt : Q -> Q) (df1 df2 : ref) (window_size sigma : Z) (h1 h2 : store)
         (d1 d2 : DataFrame) (j : nat) (r1 r2 : Row),
    nth_error h1 df1 = Some d1 -> nth_error h2 df2 = Some d2 ->
    spc_ready d1 = true -> spc_ready d2 = true ->
    forallb has_measure (rows d1) = true ->
    0 <= window_size ->
    map (cell "Measure") (rows d1) = map (cell "Measure") (rows d2) ->
    nth_error (rows d1) j = Some r1 -> nth_error (rows d2) j = Some r2 ->
    is_year r1 = is_year r2 ->
    (forall i a b,
        (i < j)%nat -> nth_error (rows d1) i = Some a -> nth_error (rows d2) i = Some b ->
        same_measure r1 a = true -> rate a = rate b) ->
    exists out1 out2 o1 o2,
      rolling_spc_agg np_sqrt df1 window_size sigma h1
      = inr (List.length h1, h1 ++ [out1])
      /\ rolling_spc_agg np_sqrt df2 window_size sigma h2
         = inr (List.length h2, h2 ++ [out2])
      /\ nth_error (rows out1) j = Some o1
      /\ nth_error (rows out2) j = Some o2
      /\ forall c, In c spc_cols -> cell c o1 = cell c o2.
Proof.
  intros np_sqrt df1 df2 w sigma h1 h2 d1 d2 j r1 r2 Hd1 Hd2 Hready1 Hready2 Hm1 Hw
         HM Hj1 Hj2 Hy Hpast.
  assert (Hm2 : forallb has_measure (rows d2) = true).
  { unfold has_measure in *.
    rewrite <- (forallb_map (cell "Measure") (fun v => negb (isnull v))) in Hm1 |- *.
    now rewrite <- HM. }
  destruct (spc_ready_spec np_sqrt w d1 Hready1 Hw) as (out1 & Hout1 & _ & Hspc1).
  destruct (spc_ready_spec np_sqrt w d2 Hready2 Hw) as (out2 & Hout2 & _ & Hspc2).
  rewrite (filter_all _ _ Hm1) in Hspc1. rewrite (filter_all _ _ Hm2) in Hspc2.
  destruct (Hspc1 j r1 Hj1) as (o1 & Ho1 & Hrow1).
  destruct (Hspc2 j r2 Hj2) as (o2 & Ho2 & Hrow2). cbv zeta in Hrow1, Hrow2.
  exists out1, out2, o1, o2.
  rewrite (rolling_spc_agg_run _ _ _ _ _ _ Hd1), Hout1.
  rewrite (rolling_spc_agg_run _ _ _ _ _ _ Hd2), Hout2.
  repeat (split; [reflexivity || assumption|]).
  assert (Hcell : forall i a b, nth_error (rows d1) i = Some a ->
                                nth_error (rows d2) i = Some b ->
                                cell "Measure" a = cell "Measure" b).
  { intros i a b Ha Hb. pose proof (map_eq_nth_error _ _ _ _ _ HM Ha) as E.
    rewrite nth_error_map, Hb in E. cbn [option_map] in E. congruence. }
  assert (Hwin : map rate (prior (rows d1) j r1) = map rate (prior (rows d2) j r2)).
  { unfold prior. apply map_filter_agree. apply Forall2_nth_error_intro.
    - rewrite !length_firstn. apply (f_equal (@List.length value)) in HM.
      rewrite !length_map in HM. lia.
    - intros i b Hb.
      assert (Hi : (i < j)%nat).
      { pose proof (nth_error_lt _ _ _ Hb) as L. rewrite length_firstn in L. lia. }
      rewrite nth_error_firstn in Hb. apply Nat.ltb_lt in Hi. rewrite Hi in Hb.
      rewrite nth_error_firstn, Hi. apply Nat.ltb_lt in Hi.
      destruct (nth_error (rows d1) i) as [a|] eqn:Ha.
      + exists a. split; [reflexivity|]. split.
        * unfold same_measure.
          now rewrite (Hcell i a b Ha Hb), (Hcell j r1 r2 Hj1 Hj2).
        * intros Hs. exact (Hpast i a b Hi Ha Hb Hs).
      + exfalso. apply nth_error_None in Ha. pose proof (nth_error_lt _ _ _ Hb) as L.
        apply (f_equal (@List.length value)) in HM. rewrite !length_map in HM. lia. }
  rewrite Hwin, Hy in Hrow1.
  exact (row_with_spc_same_fields _ _ _ _ _ _ Hrow1 Hrow2).
Qed.

Lemma rolling_spc_agg_uses_only_the_past_witness :
  exists out1 out2 o1 o2,
    rolling_spc_agg Sample.sqrt_q 0%nat 1 3 [Sample.six_months]
    = inr (1%nat, [Sample.six_months] ++ [out1])
    /\ rolling_spc_agg Sample.sqrt_q 0%nat 1 3 [Sample.six_months_later]
       = inr (1%nat, [Sample.six_months_later] ++ [out2])
    /\ nth_error (rows out1) 1 = Some o1
    /\ nth_error (rows out2) 1 = Some o2
    /\ forall c, In c spc_cols -> cell c o1 = cell c o2.
Proof.
  apply (rolling_spc_agg_uses_only_the_past Sample.sqrt_q 0%nat 0%nat 1 3
           [Sample.six_months] [Sample.six_months_later]
           Sample.six_months Sample.six_months_later 1
           (Sample.agg 1 "A" "2024-02" "Month" 12)
           (Sample.agg 1 "A" "2024-02" "Month" 99));
    try reflexivity; [lia|].
  intros [|i] a b Hi Ha Hb _; [|lia].
  injection Ha as <-. injection Hb as <-. reflexivity.
Defined.

(** ** The quarter labels, run again *)

Lemma sub_dash_digits_head (c : ascii) (s : string) :
  exists t, sub_dash_digits (String c s) = String c t.
Proof.
  cbn [sub_dash_digits]. destruct (Ascii.eqb c "-"); [|eauto].
  destruct s as [|d s]; [eauto|]. destruct (is_digit d); eauto.
Qed.

Lemma sub_dash_digits_idempotent (s : string) :
  sub_dash_digits (sub_dash_digits s) = sub_dash_digits s.
Proof.
  induction s as [|c s IH]; [reflexivity|].
  destruct (Ascii.eqb c "-") eqn:Ec.
  - destruct s as [|d s].
    + cbn [sub_dash_digits]. rewrite Ec. cbn [sub_dash_digits]. now rewrite Ec.
    + destruct (is_digit d) eqn:Ed.
      * replace (sub_dash_digits (String c (String d s)))
          with (String c (String "Q" (sub_dash_digits (String d s))))
          by (cbn [sub_dash_digits]; now rewrite Ec, Ed).
        replace (sub_dash_digits (String c (String "Q" (sub_dash_digits (String d s)))))
          with (String c (String "Q" (sub_dash_digits (sub_dash_digits (String d s)))))
          by (cbn [sub_dash_digits]; rewrite Ec;
              change (is_digit "Q") with false; change (Ascii.eqb "Q" "-") with false;
              reflexivity).
        now rewrite IH.
      * replace (sub_dash_digits (String c (String d s)))
          with (String c (sub_dash_digits (String d s)))
          by (cbn [sub_dash_digits]; now rewrite Ec, Ed).
        destruct (sub_dash_digits_head d s) as (t & Et).
        rewrite Et in IH |- *.
        replace (sub_dash_digits (String c (String d t)))
          with (String c (sub_dash_digits (String d t)))
          by (cbn [sub_dash_digits]; now rewrite Ec, Ed).
        now rewrite IH.
  - replace (sub_dash_digits (String c s)) with (String c (sub_dash_digits s))
      by (cbn [sub_dash_digits]; now rewrite Ec).
    replace (sub_dash_digits (String c (sub_dash_digits s)))
      with (String c (sub_dash_digits (sub_dash_digits s)))
      by (cbn [sub_dash_digits]; now rewrite Ec).
    now rewrite IH.
Qed.

Lemma set_kv_set_kv (c : string) (v w : value) (kv : list (string * value)) :
  set_kv c w (set_kv c v kv) = set_kv c w kv.
Proof.
  induction kv as [|[k x] kv IH]; simpl.
  - now rewrite String.eqb_refl.
  - destruct (String.eqb c k) eqn:E; simpl; rewrite E; [reflexivity|now rewrite IH].
Qed.

Lemma relabel_row_idempotent (r : Row) : relabel_row (relabel_row r) = relabel_row r.
Proof.
  unfold relabel_row. destruct (is_quarter r) eqn:E; [|now rewrite E].
  assert (Hq : is_quarter (set_cell "Date" (relabel (cell "Date" r)) r) = true).
  { unfold is_quarter in *. now rewrite cell_set_cell_other by reflexivity. }
  rewrite Hq, cell_set_cell_same. unfold set_cell. cbn [label cells].
  rewrite set_kv_set_kv. f_equal. f_equal.
  destruct (cell "Date" r); cbn [relabel]; try reflexivity.
  now rewrite sub_dash_digits_idempotent.
Qed.

(** Relabelling the quarters a second time changes nothing: a label that
    has its "Q" does not get another one, so the step can be run again on
    the frame it has already changed. *)
Theorem adjust_quarter_name_idempotent :
  forall (agg_quarter_spc : ref) (h : store) (d : DataFrame),
    nth_error h agg_quarter_spc = Some d ->
    has_column "Date" d = true ->
    has_column "frequency" d = true ->
    forallb (fun r => negb (is_quarter r) || text_or_null (cell "Date" r)) (rows d) = true ->
    exists h1,
      adjust_quarter_name agg_quarter_spc h = inr (tt, h1)
      /\ adjust_quarter_name agg_quarter_spc h1 = inr (tt, h1).
Proof.
  intros r h d Hd HD HF Hok.
  set (d1 := mkDF (columns d) (map relabel_row (rows d))).
  exists (update r d1 h). split; [now apply adjust_quarter_name_run|].
  assert (Hd1 : nth_error (update r d1 h) r = Some d1).
  { apply nth_error_update_same. now apply nth_error_lt with (d := d). }
  rewrite (adjust_quarter_name_run r (update r d1 h) d1 Hd1 HD HF).
  - rewrite update_update. unfold d1. cbn [columns rows]. rewrite map_map.
    now rewrite (map_ext _ _ relabel_row_idempotent).
  - unfold d1. cbn [rows]. rewrite forallb_map. apply forallb_forall. intros x _.
    unfold relabel_row. destruct (is_quarter x) eqn:E.
    + rewrite cell_set_cell_same. unfold text_or_null.
      destruct (cell "Date" x) as [u|z|y|t|]; cbn; auto using orb_true_r.
    + now rewrite E.
Qed.

Lemma adjust_quarter_name_idempotent_witness :
  exists h1,
    adjust_quarter_name 0%nat [Sample.quarters] = inr (tt, h1)
    /\ adjust_quarter_name 0%nat h1 = inr (tt, h1).
Proof.
  apply (adjust_quarter_name_idempotent 0%nat [Sample.quarters] Sample.quarters);
    reflexivity.
Defined.

(** ** The script, end to end *)

Lemma nth_error_app_old {A : Type} (h t : list A) (i : nat) (d : A) :
  nth_error h i = Some d -> nth_error (h ++ t) i = Some d.
Proof.
  intros H. rewrite nth_error_app1; [exact H|]. apply nth_error_Some. congruence.
Qed.

Lemma AddDateColumns_inv (to_datetime : string -> option Timestamp) (df : ref)
  (date_col : string) (h h' : store) (r : ref) :
  AddDateColumns to_datetime df date_col h = inr (r, h') ->
  r = List.length h /\ exists out, h' = h ++ [out].
Proof.
  unfold AddDateColumns. cbv zeta.
  destruct (nth_error h df) as [d|] eqn:Hd.
  2:{ unfold bind at 1, df_copy, bind, read. rewrite Hd. discriminate. }
  rewrite (bind_df_copy _ _ _ _ Hd).
  repeat run_step h.
  unfold ret. intros [= <- <-]. eauto.
Qed.

Lemma spc_frame_has_column (np_sqrt : Q -> Q) (w : Z) (d out : DataFrame) (c : string) :
  spc_ready d = true -> 0 <= w ->
  spc_frame np_sqrt w d = inr out ->
  has_column c d = true -> has_column c out = true.
Proof.
  unfold spc_ready. intros H Hw Hout Hc.
  repeat match goal with H : (_ && _)%bool = true |- _ => apply andb_prop in H; destruct H end.
  destruct (groupby_apply_calc_rolling np_sqrt w d) as (d1 & Hd1 & Hcols & _); try assumption.
  unfold spc_frame in Hout. rewrite Hd1 in Hout. cbn [rbind] in Hout.
  destruct (getcol "frequency" d1) as [e|f]; [discriminate|]. cbn [rbind] in Hout.
  unfold loc_set_scalar in Hout. destruct (_ =? _)%nat; [|discriminate].
  injection Hout as <-. unfold has_column. cbn [columns]. apply existsb_eqb_In.
  apply (proj2 (In_add_columns c spc_cols (columns d1))). left.
  apply existsb_eqb_In. exact (Hcols c Hc).
Qed.

Lemma not_spc_col (c : string) : In c ("Measure" :: "Date" :: rate_cols) -> ~ In c spc_cols.
Proof.
  unfold rate_cols. cbn [In]. intros H Hs.
  repeat (destruct H as [<-|H];
          [repeat (destruct Hs as [Hs|Hs]; [discriminate|]); destruct Hs|]).
  destruct H.
Qed.

(** The rows of an aggregated frame after the Rolling SPC Engine. *)
Lemma spc_stage (np_sqrt : Q -> Q) (w : Z) (a out : DataFrame) (f : string) :
  spc_ready a = true ->
  forallb has_measure (rows a) = true ->
  0 <= w ->
  (forall row, In row (rows a) -> cell "frequency" row = VStr f /\ rate_of_sums row) ->
  spc_frame np_sqrt w a = inr out ->
  List.length (rows out) = List.length (rows a)
  /\ forall row, In row (rows out) ->
       pipeline_row f row
       /\ exists r, In r (rows a) /\ cell "Date" row = cell "Date" r.
Proof.
  intros Hready Hm Hw Hrows Hout.
  destruct (spc_ready_spec np_sqrt w a Hready Hw) as (out' & Hout' & Hlen & Hspc).
  assert (out' = out) by congruence. subst out'.
  rewrite (filter_all _ _ Hm) in Hlen, Hspc. split; [exact Hlen|].
  intros row Hrow. apply In_nth_error in Hrow. destruct Hrow as (j & Hj).
  pose proof (nth_error_lt _ _ _ Hj) as Hlt. rewrite Hlen in Hlt.
  destruct (nth_error (rows a) j) as [r|] eqn:Hr; [|apply nth_error_None in Hr; lia].
  destruct (Hspc j r Hr) as (r' & Hr' & Hrow). cbv zeta in Hrow.
  assert (r' = row) by congruence. subst r'.
  pose proof (nth_error_In _ _ Hr) as Hin.
  destruct (Hrows r Hin) as [Hf Hrate].
  assert (Hsame : forall c, In c ("Measure" :: "Date" :: rate_cols) -> cell c row = cell c r).
  { intros c Hc. destruct Hrow as (_ & Hs & _). apply Hs. now apply not_spc_col. }
  split; [|exists r; split; [exact Hin|apply Hsame; simpl; tauto]].
  destruct (rate_of_sums_ext f r row) as [Hf' Hrate'].
  { intros c Hc. apply Hsame. simpl. tauto. }
  { now split. }
  split; [|split; [exact Hf'|split; [exact Hrate'|]]].
  - rewrite forallb_forall in Hm. specialize (Hm r Hin).
    unfold has_measure in *. rewrite (Hsame "Measure"); [exact Hm|simpl; tauto].
  - intros -> c Hc. apply (row_with_spc_null r row); [|exact Hc].
    assert (Hy : is_year r = true) by (unfold is_year; now rewrite Hf).
    now rewrite Hy in Hrow.
Qed.

(** What a run of the Temporal Aggregator hands to the Rolling SPC Engine. *)
Lemma aggregate_dataframe_stage (df : ref) (date_col : string)
  (group_by_cols sum_cols : list string) (frequency : string) (h h' : store) (r : ref) :
  In "Measure" group_by_cols -> In date_col date_cols ->
  aggregate_dataframe df date_col group_by_cols sum_cols frequency h = inr (r, h') ->
  exists out new,
    h' = h ++ new /\ nth_error h' r = Some out /\ (List.length h <= r)%nat
    /\ spc_ready out = true
    /\ forallb has_measure (rows out) = true
    /\ has_column "Date" out = true
    /\ (forall row, In row (rows out) ->
          cell "frequency" row = VStr frequency /\ rate_of_sums row)
    /\ (frequency <> "Year" ->
        rows out <> []
        /\ forall row, In row (rows out) -> is_str (cell "Date" row) = true).
Proof.
  intros HMg Hdate H.
  destruct (aggregate_dataframe_rows _ _ _ _ _ _ _ _ HMg Hdate H)
    as (out & Hout & HM & HR & HF & Hnn & Hnd & Hrows).
  destruct (nth_error h df) as [d|] eqn:Hd.
  2:{ unfold aggregate_dataframe in H. cbv zeta in H.
      unfold bind at 1, derive, bind, read in H. rewrite Hd in H. discriminate. }
  rewrite (aggregate_dataframe_run _ _ _ _ _ _ _ Hd) in H.
  destruct (agg_frames date_col group_by_cols sum_cols frequency d)
    as [e|[[sub agg1] agg2]] eqn:Hagg; [discriminate|].
  destruct (sort_frames frequency agg2) as [e|[[a b] c]] eqn:Hsf; [discriminate|].
  destruct (with_row_numbers c) as [e|out'] eqn:Hrn; [discriminate|].
  injection H as <- <-.
  assert (Hat : nth_error (h ++ [sub; agg1; a; b; out']) (List.length h + 4) = Some out').
  { replace (h ++ [sub; agg1; a; b; out']) with ((h ++ [sub; agg1; a; b]) ++ [out'])
      by (now rewrite <- app_assoc).
    apply nth_error_snoc_at. rewrite length_app. simpl. lia. }
  assert (out' = out) by congruence. subst out'.
  exists out, [sub; agg1; a; b; out].
  split; [reflexivity|]. split; [exact Hout|]. split; [lia|].
  destruct (sort_frames_inv _ _ _ _ _ Hsf) as (Hwf & _).
  destruct (sort_frames_sorted _ _ _ _ _ Hsf) as ((l & Hl & Hsame) & _ & Hper & _ & _ & Hkeep).
  destruct (with_row_numbers_inv _ _ Hrn) as [Hlen Hcol].
  split.
  { unfold spc_ready. rewrite HM, HR, HF. cbn [andb]. apply andb_true_intro. split.
    - apply forallb_forall. intros row Hrow.
      destruct (Hrows row Hrow) as (_ & n & dn & m & _ & _ & _ & E).
      unfold numeric_rate. now rewrite E.
    - rewrite (filter_all _ _ Hnn). now apply nodupb_NoDup. }
  split; [exact Hnn|]. split.
  { rewrite Hcol, (Hkeep "Date" (Date_not_temp frequency)).
    unfold sortable_frame in Hwf.
    do 3 (apply andb_prop in Hwf; destruct Hwf as [Hwf _]).
    apply andb_prop in Hwf. destruct Hwf as [-> _]. reflexivity. }
  split; [exact Hrows|].
  intros Hf. apply String.eqb_neq in Hf. split.
  - unfold sortable_frame in Hwf. apply andb_prop in Hwf. destruct Hwf as [_ Hne].
    rewrite Hf in Hne. cbn [orb] in Hne. apply negb_true_iff, Nat.eqb_neq in Hne.
    apply Permutation_length in Hl. apply Forall2_length in Hsame.
    intros E. rewrite E in Hlen. simpl in Hlen. lia.
  - intros row Hrow. unfold with_row_numbers in Hrn.
    destruct (groupby_cumcount_desc "Measure" c) as [e|cc]; [discriminate|].
    cbn [rbind] in Hrn.
    destruct (series_add_int 1 cc) as [e|rn]; [discriminate|]. cbn [rbind] in Hrn.
    pose proof (extends_setcol_inv _ _ _ _ _ _ (extends_refl c) Hrn) as E.
    apply In_nth_error in Hrow. destruct Hrow as (j & Hj).
    destruct (extends_nth _ _ _ _ _ E Hj) as (cj & Hcj & _ & Hcells).
    specialize (Hcells "Date"). cbn in Hcells. rewrite Hcells.
    destruct (Hper cj (nth_error_In _ _ Hcj)) as (p0 & Hp).
    unfold period_key in Hp. rewrite Hf in Hp.
    destruct (cell "Date" cj); try discriminate. reflexivity.
Qed.

Lemma map_snd_enumerate_from {A : Type} (n : nat) (l : list A) :
  map snd (enumerate_from n l) = l.
Proof. revert n. induction l as [|a l IH]; simpl; intros n; [reflexivity|]. now rewrite IH. Qed.

Lemma concat_labels (n : nat) (l : list Row) :
  map label (map (fun ir : nat * Row => mkRow (fst ir) (cells (snd ir))) (enumerate_from n l))
  = seq n (List.length l).
Proof. rewrite map_map. cbn [label]. apply map_fst_enumerate_from. Qed.

Lemma concat_cells (c : string) (n : nat) (l : list Row) :
  map (cell c) (map (fun ir : nat * Row => mkRow (fst ir) (cells (snd ir)))
                    (enumerate_from n l))
  = map (cell c) l.
Proof.
  rewrite map_map. rewrite <- (map_snd_enumerate_from n l) at 2. rewrite map_map.
  apply map_ext. intros [i x]. reflexivity.
Qed.

Lemma In_concat (n : nat) (l : list Row) (row : Row) :
  In row (map (fun ir : nat * Row => mkRow (fst ir) (cells (snd ir))) (enumerate_from n l)) ->
  exists x, In x l /\ forall c, cell c row = cell c x.
Proof.
  intros H. apply in_map_iff in H. destruct H as ([i x] & <- & Hin).
  apply In_enumerate_from in Hin. exists x. split; [exact Hin|]. reflexivity.
Qed.

Lemma map_const_repeat {A B : Type} (f : A -> B) (v : B) (l : list A) :
  (forall x, In x l -> f x = v) -> map f l = repeat v (List.length l).
Proof.
  induction l as [|a l IH]; simpl; intros H; [reflexivity|].
  rewrite (H a (or_introl eq_refl)), IH; auto.
Qed.

Lemma pipeline_row_ext (f : string) (x row : Row) :
  (forall c, String.eqb c "Date" = false -> cell c row = cell c x) ->
  pipeline_row f x -> pipeline_row f row.
Proof.
  intros H (Hm & Hf & (n & dn & m & H1 & H2 & H3 & H4) & Hnull).
  unfold pipeline_row, has_measure, rate_of_sums, null_cell in *.
  rewrite !H by reflexivity. repeat split; try assumption.
  - exists n, dn, m. auto.
  - intros Hy c Hc. rewrite H; [now apply Hnull|].
    apply String.eqb_neq. intros ->. simpl in Hc.
    repeat (destruct Hc as [Hc|Hc]; [discriminate|]). destruct Hc.
Qed.

Lemma cell_relabel_row_other (c : string) (x : Row) :
  String.eqb c "Date" = false -> cell c (relabel_row x) = cell c x.
Proof.
  intros H. unfold relabel_row. destruct (is_quarter x); [|reflexivity].
  now apply cell_set_cell_other.
Qed.

(** Whenever the script returns, the frames that were in the store before
    are as they were, and the combined table is made of the monthly rows
    (at least one), then the quarterly rows (at least one), then the yearly
    rows, with index labels 0, 1, 2, ... in that order.  Every row has a
    Measure, carries the tag of its block, and has as its Rate
    Numerator / Denominator * Multiplier; the yearly rows have no SPC
    field; the Date of a quarterly row is a text label that went through
    the relabelling. *)
Theorem script_output :
  forall (to_datetime : string -> option Timestamp) (np_sqrt : Q -> Q)
         (df : ref) (h h' : store) (r : ref),
    script to_datetime np_sqrt df h = inr (r, h') ->
    (forall i d, nth_error h i = Some d -> nth_error h' i = Some d)
    /\ exists out nm nq ny,
         nth_error h' r = Some out
         /\ (0 < nm)%nat /\ (0 < nq)%nat
         /\ map label (rows out) = seq 0 (nm + nq + ny)
         /\ map (cell "frequency") (rows out)
            = repeat (VStr "Month") nm ++ repeat (VStr "Quarter") nq
              ++ repeat (VStr "Year") ny
         /\ (forall row, In row (rows out) ->
               exists f, In f date_cols /\ pipeline_row f row)
         /\ (forall row, In row (rows out) -> is_quarter row = true ->
               exists u, cell "Date" row = VStr (sub_dash_digits u)).
Proof.
  intros to_datetime np_sqrt df h h' r H. unfold script in H.
  assert (HMg : In "Measure" group_by_cols) by (simpl; tauto).
  (* the Period Decomposer *)
  unfold bind at 1 in H.
  destruct (AddDateColumns to_datetime df "Discharge Month" h) as [e|[r1 h1]] eqn:E1;
    [discriminate|].
  destruct (AddDateColumns_inv _ _ _ _ _ _ E1) as (-> & dated & ->). clear E1.
  (* the three aggregations *)
  unfold bind at 1 in H.
  destruct (aggregate_dataframe (List.length h) "Year" group_by_cols sum_cols "Year"
              (h ++ [dated])) as [e|[ry h2]] eqn:E2; [discriminate|].
  destruct (aggregate_dataframe_stage _ _ _ _ _ _ _ _ HMg (or_introl eq_refl) E2)
    as (ya & newy & -> & Hya & Hry & Yready & Ym & YD & Yrows & _). clear E2.
  unfold bind at 1 in H.
  destruct (aggregate_dataframe (List.length h) "Quarter" group_by_cols sum_cols "Quarter"
              ((h ++ [dated]) ++ newy)) as [e|[rq h3]] eqn:E3; [discriminate|].
  destruct (aggregate_dataframe_stage _ _ _ _ _ _ _ _ HMg
              (or_intror (or_introl eq_refl)) E3)
    as (qa & newq & -> & Hqa & Hrq & Qready & Qm & QD & Qrows & Qne). clear E3.
  destruct Qne as [Qne Qstr]; [discriminate|].
  unfold bind at 1 in H.
  destruct (aggregate_dataframe (List.length h) "Month" group_by_cols sum_cols "Month"
              (((h ++ [dated]) ++ newy) ++ newq)) as [e|[rm h4]] eqn:E4; [discriminate|].
  destruct (aggregate_dataframe_stage _ _ _ _ _ _ _ _ HMg
              (or_intror (or_intror (or_introl eq_refl))) E4)
    as (ma & newm & -> & Hma & Hrm & Mready & Mm & MD & Mrows & Mne). clear E4.
  destruct Mne as [Mne _]; [discriminate|].
  set (h4 := (((h ++ [dated]) ++ newy) ++ newq) ++ newm) in *.
  assert (Hqa4 : nth_error h4 rq = Some qa) by (unfold h4; now apply nth_error_app_old).
  assert (Hya4 : nth_error h4 ry = Some ya)
    by (unfold h4; now apply nth_error_app_old, nth_error_app_old).
  (* the three runs of the Rolling SPC Engine *)
  unfold bind at 1 in H.
  destruct (rolling_spc_agg np_sqrt rm 24 3 h4) as [e|[rms h5]] eqn:E5; [discriminate|].
  destruct (rolling_spc_agg_inv _ _ _ _ _ _ _ E5) as (d5 & ms & Hd5 & Hms & -> & ->).
  assert (d5 = ma) by congruence. subst d5. clear E5 Hd5.
  unfold bind at 1 in H.
  destruct (rolling_spc_agg np_sqrt rq 8 3 (h4 ++ [ms])) as [e|[rqs h6]] eqn:E6;
    [discriminate|].
  destruct (rolling_spc_agg_inv _ _ _ _ _ _ _ E6) as (d6 & qs & Hd6 & Hqs & -> & ->).
  assert (d6 = qa).
  { pose proof (nth_error_app_old _ [ms] _ _ Hqa4) as E. congruence. }
  subst d6. clear E6 Hd6.
  unfold bind at 1 in H.
  destruct (rolling_spc_agg np_sqrt ry 2 3 ((h4 ++ [ms]) ++ [qs])) as [e|[rys h7]] eqn:E7;
    [discriminate|].
  destruct (rolling_spc_agg_inv _ _ _ _ _ _ _ E7) as (d7 & ys & Hd7 & Hys & -> & ->).
  assert (d7 = ya).
  { pose proof (nth_error_app_old _ [qs] _ _ (nth_error_app_old _ [ms] _ _ Hya4)) as E.
    congruence. }
  subst d7. clear E7 Hd7.
  destruct (spc_stage np_sqrt 24 ma ms "Month" Mready Mm ltac:(lia) Mrows Hms)
    as [Lms Rms].
  destruct (spc_stage np_sqrt 8 qa qs "Quarter" Qready Qm ltac:(lia) Qrows Hqs)
    as [Lqs Rqs].
  destruct (spc_stage np_sqrt 2 ya ys "Year" Yready Ym ltac:(lia) Yrows Hys)
    as [Lys Rys].
  (* the relabelling *)
  set (h5 := h4 ++ [ms]) in *.
  set (h7 := (h5 ++ [qs]) ++ [ys]) in *.
  assert (Hqs7 : nth_error h7 (List.length h5) = Some qs).
  { unfold h7. apply nth_error_app_old. apply nth_error_snoc_new. }
  assert (HqsF : has_column "frequency" qs = true).
  { apply (spc_frame_has_column np_sqrt 8 qa qs "frequency" Qready ltac:(lia) Hqs).
    unfold spc_ready in Qready.
    do 2 (apply andb_prop in Qready; destruct Qready as [Qready _]).
    apply andb_prop in Qready. now destruct Qready. }
  assert (HqsD : has_column "Date" qs = true)
    by (exact (spc_frame_has_column np_sqrt 8 qa qs "Date" Qready ltac:(lia) Hqs QD)).
  assert (HqsDate : forall x, In x (rows qs) -> is_str (cell "Date" x) = true).
  { intros x Hx. destruct (Rqs x Hx) as (_ & r0 & Hr0 & ->). now apply Qstr. }
  unfold bind at 1 in H.
  rewrite (adjust_quarter_name_run _ _ _ Hqs7 HqsD HqsF) in H.
  2:{ apply forallb_forall. intros x Hx. unfold text_or_null.
      rewrite (HqsDate x Hx). apply orb_true_r. }
  set (qs' := mkDF (columns qs) (map relabel_row (rows qs))) in *.
  set (h8 := update (List.length h5) qs' h7) in *.
  assert (Hlen5 : List.length h5 = S (List.length h4))
    by (unfold h5; rewrite length_app; simpl; lia).
  assert (Hlen7 : List.length h7 = S (S (S (List.length h4))))
    by (unfold h7; rewrite !length_app, Hlen5; simpl; lia).
  assert (Hms8 : nth_error h8 (List.length h4) = Some ms).
  { unfold h8. rewrite nth_error_update_other by lia. unfold h7.
    apply nth_error_app_old, nth_error_app_old. apply nth_error_snoc_new. }
  assert (Hqs8 : nth_error h8 (List.length h5) = Some qs').
  { unfold h8. apply nth_error_update_same. lia. }
  assert (Hys8 : nth_error h8 (List.length (h5 ++ [qs])) = Some ys).
  { unfold h8. rewrite nth_error_update_other by (rewrite length_app; simpl; lia).
    unfold h7. apply nth_error_snoc_new. }
  (* the concatenation *)
  rewrite (bind_read _ _ _ _ Hms8), (bind_read _ _ _ _ Hqs8), (bind_read _ _ _ _ Hys8) in H.
  unfold bind, new_frame, ret in H. injection H as <- <-.
  split.
  { intros i d Hi. apply nth_error_app_old. unfold h8.
    pose proof (nth_error_lt _ _ _ Hi) as Hlt.
    assert (Hl4 : (List.length h <= List.length h4)%nat)
      by (unfold h4; rewrite !length_app; lia).
    rewrite nth_error_update_other by lia.
    unfold h7, h5, h4. now repeat apply nth_error_app_old. }
  exists (concat_ignore_index [ms; qs'; ys]),
    (List.length (rows ms)), (List.length (rows qs')), (List.length (rows ys)).
  split; [apply nth_error_snoc_new|].
  assert (Lqs' : List.length (rows qs') = List.length (rows qa))
    by (unfold qs'; cbn [rows]; now rewrite length_map).
  split; [rewrite Lms; destruct (rows ma); [congruence|simpl; lia]|].
  split; [rewrite Lqs'; destruct (rows qa); [congruence|simpl; lia]|].
  unfold concat_ignore_index. cbn [rows flat_map]. rewrite app_nil_r.
  assert (Fms : forall x, In x (rows ms) -> pipeline_row "Month" x)
    by (intros x Hx; apply (Rms x Hx)).
  assert (Fys : forall x, In x (rows ys) -> pipeline_row "Year" x)
    by (intros x Hx; apply (Rys x Hx)).
  assert (Fqs : forall x, In x (rows qs') ->
            pipeline_row "Quarter" x
            /\ exists u, cell "Date" x = VStr (sub_dash_digits u)).
  { intros x Hx. unfold qs' in Hx. cbn [rows] in Hx. apply in_map_iff in Hx.
    destruct Hx as (x0 & <- & Hx0). destruct (Rqs x0 Hx0) as [Hp _]. split.
    - apply (pipeline_row_ext "Quarter" x0); [|exact Hp].
      intros c Hc. now apply cell_relabel_row_other.
    - assert (Hq : is_quarter x0 = true).
      { unfold is_quarter. destruct Hp as (_ & -> & _). reflexivity. }
      unfold relabel_row. rewrite Hq, cell_set_cell_same.
      pose proof (HqsDate x0 Hx0) as Hs.
      destruct (cell "Date" x0) as [u|z|y|t|]; try discriminate. now exists u. }
  split; [|split; [|split]].
  - rewrite concat_labels, !length_app. f_equal. lia.
  - rewrite concat_cells, !map_app. f_equal; [|f_equal].
    + apply map_const_repeat. intros x Hx. apply (Fms x Hx).
    + apply map_const_repeat. intros x Hx. apply (Fqs x Hx).
    + apply map_const_repeat. intros x Hx. apply (Fys x Hx).
  - intros row Hrow. destruct (In_concat _ _ _ Hrow) as (x & Hx & Hcells).
    apply in_app_or in Hx. destruct Hx as [Hx|Hx]; [|apply in_app_or in Hx; destruct Hx as [Hx|Hx]].
    + exists "Month". split; [simpl; tauto|].
      apply (pipeline_row_ext "Month" x); [intros; apply Hcells|now apply Fms].
    + exists "Quarter". split; [simpl; tauto|].
      apply (pipeline_row_ext "Quarter" x); [intros; apply Hcells|now apply Fqs].
    + exists "Year". split; [simpl; tauto|].
      apply (pipeline_row_ext "Year" x); [intros; apply Hcells|now apply Fys].
  - intros row Hrow Hq. destruct (In_concat _ _ _ Hrow) as (x & Hx & Hcells).
    unfold is_quarter in Hq. rewrite Hcells in Hq. rewrite Hcells.
    apply in_app_or in Hx. destruct Hx as [Hx|Hx]; [|apply in_app_or in Hx; destruct Hx as [Hx|Hx]].
    + destruct (Fms x Hx) as (_ & E & _). rewrite E in Hq. discriminate.
    + apply (Fqs x Hx).
    + destruct (Fys x Hx) as (_ & E & _). rewrite E in Hq. discriminate.
Qed.

Lemma script_output_witness :
  exists out,
    Sample.frame_of (script Sample.iso_date Sample.sqrt_q 0%nat [Sample.two_measures])
    = Some out
    /\ forall row, In row (rows out) -> exists f, In f date_cols /\ pipeline_row f row.
Proof.
  edestruct (script_output Sample.iso_date Sample.sqrt_q 0%nat [Sample.two_measures])
    as (_ & out & nm & nq & ny & H1 & _ & _ & _ & _ & H6 & _);
    [vm_compute; reflexivity|].
  exists out. split; [exact H1|exact H6].
Defined.
